(** * ds202final: the ETL script [dataFiles.py] and the dashboard
    [vast2022app.py], embedded in Rocq.

    The two Python scripts are straight-line pandas programs.  The
    embedding keeps their shape:

    - a [DataFrame] is an ordered list of named columns of [Cell]s;
    - Python objects live in a [heap]; a variable or a dict entry holds
      a reference, so that in-place column assignment through an alias
      ([df[col] = ...] inside [convertToDatetime]) is visible through
      the dict, while a method that returns a new frame ([dropna])
      leaves the receiver alone;
    - exceptions are the [Raise] branch of a state-and-error monad;
    - what pandas delegates to parsers and to [pickle] is an interface,
      the class [PandasLib].

    Part I holds the definitions, Part II the lemmas and theorems. *)

From Stdlib Require Import ZArith Ascii String List Sorted Permutation DecimalString.
From stdpp Require Import base option list sorting gmap strings sets.

Local Open Scope string_scope.
Local Open Scope Z_scope.
Local Open Scope list_scope.

(* ===================================================================== *)
(** * Part I.  Definitions                                                *)
(* ===================================================================== *)

(* --------------------------------------------------------------------- *)
(** ** Python [str] methods used by the scripts                           *)
(* --------------------------------------------------------------------- *)

Module PyStr.

(** [c.lower()] on one ASCII character. *)
Definition lower_ascii (c : ascii) : ascii :=
  let n := nat_of_ascii c in
  if ((65 <=? n)%nat && (n <=? 90)%nat)%bool then ascii_of_nat (n + 32) else c.

(** [s.lower()]. *)
Fixpoint lower (s : string) : string :=
  match s with
  | EmptyString => EmptyString
  | String c r => String (lower_ascii c) (lower r)
  end.

(** [s.startswith(p)]. *)
Fixpoint startswith (p s : string) : bool :=
  match p, s with
  | EmptyString, _ => true
  | String a p', String b s' => if Ascii.eqb a b then startswith p' s' else false
  | String _ _, EmptyString => false
  end.

(** [needle in s]. *)
Fixpoint contains (needle s : string) : bool :=
  if startswith needle s then true
  else match s with
       | EmptyString => false
       | String _ s' => contains needle s'
       end.

(** [s.endswith(suffix)]. *)
Definition endswith (suffix s : string) : bool :=
  let n := String.length s in
  let k := String.length suffix in
  if (k <=? n)%nat then String.eqb (String.substring (n - k) k s) suffix else false.

(** Is character [c] one of [chars]? *)
Fixpoint mem_char (c : ascii) (chars : string) : bool :=
  match chars with
  | EmptyString => false
  | String d r => if Ascii.eqb c d then true else mem_char c r
  end.

(** [s.lstrip(chars)]: drop leading characters that occur in [chars]. *)
Fixpoint lstrip (chars s : string) : string :=
  match s with
  | EmptyString => EmptyString
  | String c r => if mem_char c chars then lstrip chars r else s
  end.

(** [s.rstrip(chars)]. *)
Fixpoint rstrip (chars s : string) : string :=
  match s with
  | EmptyString => EmptyString
  | String c r =>
      match rstrip chars r with
      | EmptyString => if mem_char c chars then EmptyString else String c EmptyString
      | r' => String c r'
      end
  end.

(** [s.strip(chars)]: [chars] is a set of characters, not a prefix. *)
Definition strip (chars s : string) : string := rstrip chars (lstrip chars s).

(** [s.split(sep)] for a one-character separator: every occurrence
    splits, so consecutive separators give empty pieces, and the
    result is never empty. *)
Fixpoint split (sep : ascii) (s : string) : list string :=
  match s with
  | EmptyString => [EmptyString]
  | String c r =>
      if Ascii.eqb c sep then EmptyString :: split sep r
      else match split sep r with
           | [] => [String c EmptyString]
           | w :: ws => String c w :: ws
           end
  end.

End PyStr.

(* --------------------------------------------------------------------- *)
(** ** The page router of [vast2022app.py]                                *)
(* --------------------------------------------------------------------- *)

(** The four layouts are module-level objects built once, before the
    server starts; [AppContext] is the record of those globals. *)
Record AppContext (Layout : Type) := {
  homePage : Layout;
  participantDashboardLayout : Layout;
  socialActivityDashboardLayout : Layout;
  businessDashboard : Layout
}.
Arguments homePage {Layout} _.
Arguments participantDashboardLayout {Layout} _.
Arguments socialActivityDashboardLayout {Layout} _.
Arguments businessDashboard {Layout} _.

(** [displayPage(pathname)].  Dash passes [None] before the browser has
    reported a location; [None == "/..."] is false, so it takes the
    [else] branch.  The callback reads the globals and returns one of
    them together with the (untouched) context. *)
Definition displayPage {Layout} (ctx : AppContext Layout) (pathname : option string)
  : Layout * AppContext Layout :=
  match pathname with
  | Some p =>
      if String.eqb p "/participantDashboard" then (participantDashboardLayout ctx, ctx)
      else if String.eqb p "/socialActivityDashboard" then (socialActivityDashboardLayout ctx, ctx)
      else if String.eqb p "/businessDashboard" then (businessDashboard ctx, ctx)
      else (homePage ctx, ctx)
  | None => (homePage ctx, ctx)
  end.

(** The layouts by name, for stating which page a path selects. *)
Inductive Page := Home | Participant | SocialActivity | Business.

Definition pages : AppContext Page :=
  {| homePage := Home;
     participantDashboardLayout := Participant;
     socialActivityDashboardLayout := SocialActivity;
     businessDashboard := Business |}.

(* --------------------------------------------------------------------- *)
(** ** [pd.cut] and the age groups                                        *)
(* --------------------------------------------------------------------- *)

(** [bins.searchsorted(x, side="left")] on ascending [bins]: the number
    of edges strictly below [x]. *)
Fixpoint searchsorted_left (bins : list Z) (x : Z) : nat :=
  match bins with
  | [] => O
  | b :: bs => if b <? x then S (searchsorted_left bs x) else O
  end.

(** [pd.cut(x, bins=bins, labels=labels)] on one value, with the
    defaults the call leaves in force: [right=True] (a bin is open on
    the left and closed on the right) and [include_lowest=False].  A
    missing value, a value at or below the first edge and a value above
    the last edge get no category. *)
Definition pd_cut (bins : list Z) (labels : list string) (x : option Z) : option string :=
  match x with
  | None => None
  | Some v =>
      let ids := searchsorted_left bins v in
      if ((ids =? 0)%nat || (ids =? List.length bins)%nat)%bool then None
      else labels !! (ids - 1)%nat
  end.

(** Line 19: [pd.cut(age, bins=[20, 30, 40, 50], labels=[...])]. *)
Definition ageGroup (age : option Z) : option string :=
  pd_cut [20; 30; 40; 50] ["20-29"; "30-39"; "40-49"] age.

(* --------------------------------------------------------------------- *)
(** ** Tables                                                             *)
(* --------------------------------------------------------------------- *)

(** One cell of a table.  [NaN] is what [read_csv] leaves for an empty
    field, [NaT] the missing value of a datetime column; a datetime is
    a number of nanoseconds since the epoch.  An integer column that
    has a missing value is a float column in pandas; here it is a
    column of [Int] and [NaN] cells. *)
Inductive Cell :=
| NaN
| Str (s : string)
| Int (z : Z)
| Bool (b : bool)
| Datetime (ns : Z)
| NaT.

#[global] Instance Cell_eq_dec : EqDecision Cell.
Proof. solve_decision. Defined.

(** A frame is its columns in order, each a name and its cells. *)
Definition DataFrame := list (string * list Cell).

(** [pd.isna]. *)
Definition isna (c : Cell) : bool :=
  match c with
  | NaN | NaT => true
  | _ => false
  end.

(** The dtype test [datetime64]: every cell is a datetime or [NaT]. *)
Definition is_datetime (c : Cell) : bool :=
  match c with
  | Datetime _ | NaT => true
  | _ => false
  end.

Module Frame.

(** [df.columns]. *)
Definition columns (df : DataFrame) : list string := map fst df.

(** [len(df)]. *)
Definition nrows (df : DataFrame) : nat :=
  match df with
  | [] => O
  | (_, cells) :: _ => List.length cells
  end.

(** [df[col]], [None] standing for [KeyError]. *)
Fixpoint getitem (df : DataFrame) (col : string) : option (list Cell) :=
  match df with
  | [] => None
  | (name, cells) :: rest =>
      if String.eqb name col then Some cells else getitem rest col
  end.

(** [df[col] = cells]: an existing column is replaced where it
    stands, a new one is added at the end. *)
Fixpoint setitem (df : DataFrame) (col : string) (cells : list Cell) : DataFrame :=
  match df with
  | [] => [(col, cells)]
  | (name, old) :: rest =>
      if String.eqb name col then (name, cells) :: rest
      else (name, old) :: setitem rest col cells
  end.

(** Row [i] has a missing value in some column. *)
Definition row_has_na (df : DataFrame) (i : nat) : bool :=
  existsb (fun '(_, cells) => match cells !! i with
                              | Some c => isna c
                              | None => false
                              end) df.

(** Keep the positions [i] of [cells], counted from [start], that
    [keep] accepts. *)
Fixpoint select_rows (keep : nat -> bool) (start : nat) (cells : list Cell) : list Cell :=
  match cells with
  | [] => []
  | c :: cs =>
      if keep start then c :: select_rows keep (S start) cs
      else select_rows keep (S start) cs
  end.

(** [df.dropna()]: a new frame without the rows that have a missing
    value; the receiver is not touched. *)
Definition dropna (df : DataFrame) : DataFrame :=
  map (fun '(name, cells) =>
         (name, select_rows (fun i => negb (row_has_na df i)) O cells)) df.

(** Column names of several frames, in order of first appearance. *)
Fixpoint union_columns (seen : list string) (dfs : list DataFrame) : list string :=
  match dfs with
  | [] => seen
  | df :: rest =>
      union_columns
        (fold_left (fun acc c => if existsb (String.eqb c) acc then acc else (acc ++ [c])%list)
                   (columns df) seen)
        rest
  end.

(** [pd.concat(dfs, ignore_index=True)]: rows of all frames one after
    the other; a frame without some column contributes [NaN] there. *)
Definition concat (dfs : list DataFrame) : DataFrame :=
  map (fun col =>
         (col, flat_map (fun df => match getitem df col with
                                   | Some cells => cells
                                   | None => repeat NaN (nrows df)
                                   end) dfs))
      (union_columns [] dfs).

End Frame.

(* --------------------------------------------------------------------- *)
(** ** What pandas delegates                                              *)
(* --------------------------------------------------------------------- *)

(** Parsers and the snapshot codec are library code the scripts call
    but do not contain.  [strptime fmt s] is the timestamp of [s] read
    with the format [fmt], [guess_datetime_format s] the format pandas
    infers from a first value, [dateutil_parse] its last-resort parser,
    [float_of_str] Python's [float(s)], and [pickle_dumps],
    [pickle_loads] the codec behind [to_pickle] and [read_pickle]. *)
Class PandasLib := {
  strptime : string -> string -> option Z;
  guess_datetime_format : string -> option string;
  dateutil_parse : string -> option Z;
  float : Type;
  float_nan : float;
  float_of_str : string -> option float;
  Blob : Type;
  pickle_dumps : DataFrame -> Blob;
  pickle_loads : Blob -> option DataFrame
}.

(* --------------------------------------------------------------------- *)
(** ** Exceptions, the object store and the script monad                  *)
(* --------------------------------------------------------------------- *)

Inductive Exn :=
| FileNotFoundError (path : string)
| KeyError (key : string)
| ValueError (what : string)
| TypeError
| UnpicklingError (path : string)
| AttributeError.

Inductive Res (A : Type) :=
| Ok (a : A)
| Raise (e : Exn).
Arguments Ok {A} _.
Arguments Raise {A} _.

(** A reference to a frame object. *)
Definition ref := nat.

(** A Python [dict] from file names to frame objects: insertion
    ordered, one entry per key. *)
Definition Dict := list (string * ref).

(** [d[k] = v]: an existing key keeps its place. *)
Fixpoint dict_set (d : Dict) (k : string) (v : ref) : Dict :=
  match d with
  | [] => [(k, v)]
  | (k', v') :: rest =>
      if String.eqb k' k then (k', v) :: rest else (k', v') :: dict_set rest k v
  end.

(** [d.get(k)]. *)
Fixpoint dict_get (d : Dict) (k : string) : option ref :=
  match d with
  | [] => None
  | (k', v) :: rest => if String.eqb k' k then Some v else dict_get rest k
  end.

(** The input side of the file system, as [read_csv] and [os.listdir]
    see it: the parsed content of each CSV path, the entries of each
    directory. *)
Record Datasets := {
  csv_files : gmap string DataFrame;
  directories : gmap string (list string)
}.

Section Script.
Context `{PandasLib}.

(** The process memory ([heap], frames by reference) and the cache
    directory ([pickles], snapshot files by name). *)
Record World := {
  heap : list DataFrame;
  pickles : gmap string Blob
}.

(** A script step: it may raise, and the world it leaves behind is
    there in both cases. *)
Definition M (A : Type) : Type := World -> Res A * World.

Definition ret {A} (a : A) : M A := fun w => (Ok a, w).

Definition raise {A} (e : Exn) : M A := fun w => (Raise e, w).

Definition bind {A B} (m : M A) (f : A -> M B) : M B :=
  fun w => match m w with
           | (Ok a, w') => f a w'
           | (Raise e, w') => (Raise e, w')
           end.

End Script.

Declare Scope script_scope.
Delimit Scope script_scope with script.
Notation "x <- m ;; k" := (bind m (fun x => k))
  (at level 100, m at next level, right associativity) : script_scope.
Notation "m ;;; k" := (bind m (fun _ => k))
  (at level 100, right associativity) : script_scope.

(* --------------------------------------------------------------------- *)
(** ** pandas calls as script steps                                       *)
(* --------------------------------------------------------------------- *)

(** [str(i)] for an integer. *)
Definition py_str_int (z : Z) : string := NilZero.string_of_int (Z.to_int z).

(** All-or-nothing map over a column: the first failure is the error. *)
Fixpoint res_map {A B} (f : A -> Res B) (l : list A) : Res (list B) :=
  match l with
  | [] => Ok []
  | a :: rest =>
      match f a with
      | Raise e => Raise e
      | Ok b => match res_map f rest with
                | Raise e => Raise e
                | Ok bs => Ok (b :: bs)
                end
      end
  end.

Section Pandas.
Context `{PandasLib}.
Local Open Scope script_scope.

Definition lift {A} (r : Res A) : M A :=
  match r with
  | Ok a => ret a
  | Raise e => raise e
  end.

(** A new object; its reference is the next free slot. *)
Definition alloc (df : DataFrame) : M ref :=
  fun w => (Ok (List.length (heap w)),
            {| heap := (heap w ++ [df])%list; pickles := pickles w |}).

(** The object behind a reference.  Python has no dangling references;
    the error branch is never taken by the scripts. *)
Definition deref (r : ref) : M DataFrame :=
  fun w => match heap w !! r with
           | Some df => (Ok df, w)
           | None => (Raise TypeError, w)
           end.

(** Replace the object behind a reference: every alias sees it. *)
Definition store (r : ref) (df : DataFrame) : M unit :=
  fun w => (Ok tt, {| heap := <[r := df]> (heap w); pickles := pickles w |}).

(** [for x in xs: body(x)]. *)
Fixpoint for_each {A} (xs : list A) (body : A -> M unit) : M unit :=
  match xs with
  | [] => ret tt
  | x :: rest => body x ;;; for_each rest body
  end.

(** [[f(x) for x in xs]]. *)
Fixpoint list_comprehension {A B} (xs : list A) (f : A -> M B) : M (list B) :=
  match xs with
  | [] => ret []
  | x :: rest => b <- f x ;; bs <- list_comprehension rest f ;; ret (b :: bs)
  end.

(** [{k: f(k) for k in ks}], built entry by entry onto [d]. *)
Fixpoint dict_comprehension (ks : list string) (f : string -> M ref) (d : Dict) : M Dict :=
  match ks with
  | [] => ret d
  | k :: rest => v <- f k ;; dict_comprehension rest f (dict_set d k v)
  end.

(** [d[k]]. *)
Definition dict_getitem (d : Dict) (k : string) : M ref :=
  match dict_get d k with
  | Some r => ret r
  | None => raise (KeyError k)
  end.

(** [pd.read_csv(path)]. *)
Definition read_csv (ds : Datasets) (path : string) : M ref :=
  match csv_files ds !! path with
  | Some df => alloc df
  | None => raise (FileNotFoundError path)
  end.

(** [os.listdir(dir)]. *)
Definition listdir (ds : Datasets) (dir : string) : M (list string) :=
  match directories ds !! dir with
  | Some names => ret names
  | None => raise (FileNotFoundError dir)
  end.

(** [os.path.join(folder, file)] for a plain file name. *)
Definition path_join (folder file : string) : string := folder +:+ "/" +:+ file.

(** [df.dropna()] as an expression: its value is a new object. *)
Definition method_dropna (df : ref) : M ref :=
  d <- deref df ;; alloc (Frame.dropna d).

(** [pd.concat(frames, ignore_index=True)]. *)
Definition pd_concat (frames : list ref) : M ref :=
  ds <- list_comprehension frames deref ;;
  match ds with
  | [] => raise (ValueError "No objects to concatenate")
  | _ => alloc (Frame.concat ds)
  end.

(** [df[col]]. *)
Definition frame_getitem (df : ref) (col : string) : M (list Cell) :=
  d <- deref df ;;
  match Frame.getitem d col with
  | Some cells => ret cells
  | None => raise (KeyError col)
  end.

(** [df[col] = cells]: the object [df] refers to is changed in place. *)
Definition frame_setitem (df : ref) (col : string) (cells : list Cell) : M unit :=
  d <- deref df ;; store df (Frame.setitem d col cells).

(** One cell of [pd.to_datetime(..., format=fmt)]: a missing value
    becomes [NaT]; a string is read with the format, a number through
    its [str]; what the format does not accept raises. *)
Definition to_datetime_format_cell (fmt : string) (c : Cell) : Res Cell :=
  match c with
  | NaN | NaT => Ok NaT
  | Datetime ns => Ok (Datetime ns)
  | Str s => match strptime fmt s with
             | Some ns => Ok (Datetime ns)
             | None => Raise (ValueError s)
             end
  | Int z => match strptime fmt (py_str_int z) with
             | Some ns => Ok (Datetime ns)
             | None => Raise (ValueError (py_str_int z))
             end
  | Bool _ => Raise TypeError
  end.

(** [pd.to_datetime(cells, format=fmt)], with the default
    [errors="raise"]. *)
Definition to_datetime_format (fmt : string) (cells : list Cell) : Res (list Cell) :=
  res_map (to_datetime_format_cell fmt) cells.

(** The first string of a column, from which a format is inferred. *)
Fixpoint first_string (cells : list Cell) : option string :=
  match cells with
  | [] => None
  | Str s :: _ => Some s
  | _ :: rest => first_string rest
  end.

(** The parser [pd.to_datetime(cells)] settles on for a column. *)
Definition inferred_parser (cells : list Cell) : string -> option Z :=
  match first_string cells with
  | Some s0 => match guess_datetime_format s0 with
               | Some fmt => strptime fmt
               | None => dateutil_parse
               end
  | None => dateutil_parse
  end.

(** One cell of [pd.to_datetime(cells)]: a number is a count of
    nanoseconds since the epoch. *)
Definition to_datetime_cell (parse : string -> option Z) (c : Cell) : Res Cell :=
  match c with
  | NaN | NaT => Ok NaT
  | Datetime ns => Ok (Datetime ns)
  | Str s => match parse s with
             | Some ns => Ok (Datetime ns)
             | None => Raise (ValueError s)
             end
  | Int z => Ok (Datetime z)
  | Bool _ => Raise TypeError
  end.

(** [pd.to_datetime(cells)]. *)
Definition to_datetime (cells : list Cell) : Res (list Cell) :=
  res_map (to_datetime_cell (inferred_parser cells)) cells.

(** [df.to_pickle(path)]. *)
Definition to_pickle (df : ref) (path : string) : M unit :=
  d <- deref df ;;
  fun w => (Ok tt, {| heap := heap w; pickles := <[path := pickle_dumps d]> (pickles w) |}).

(** [pd.read_pickle(path)]. *)
Definition read_pickle (path : string) : M ref :=
  fun w => match pickles w !! path with
           | None => (Raise (FileNotFoundError path), w)
           | Some blob => match pickle_loads blob with
                          | Some df => alloc df w
                          | None => (Raise (UnpicklingError path), w)
                          end
           end.

End Pandas.

(* --------------------------------------------------------------------- *)
(** ** [groupby]                                                          *)
(* --------------------------------------------------------------------- *)

Section GroupBy.
Context {K : Type} (cmp : K -> K -> comparison).

(** Add [v] to the group of key [k]; groups are kept in ascending key
    order, as [groupby(..., sort=True)] returns them. *)
Fixpoint group_add (k : K) (v : Z) (groups : list (K * Z)) : list (K * Z) :=
  match groups with
  | [] => [(k, v)]
  | (k', v') :: rest =>
      match cmp k k' with
      | Lt => (k, v) :: groups
      | Eq => (k', v' + v) :: rest
      | Gt => (k', v') :: group_add k v rest
      end
  end.

(** [groupby(key)[value].sum()] over rows given as key and value. *)
Definition groupby_sum (rows : list (K * Z)) : list (K * Z) :=
  fold_left (fun groups '(k, v) => group_add k v groups) rows [].

(** [groupby(key).size()]: every row counts for one. *)
Definition groupby_size (keys : list K) : list (K * Z) :=
  groupby_sum (map (fun k => (k, 1)) keys).

End GroupBy.

(** What [group_add] needs of the comparison to keep its groups in
    strictly ascending order, one group per key. *)
Class KeyOrder {K : Type} (cmp : K -> K -> comparison) : Prop := {
  cmp_eq : forall a b, cmp a b = Eq -> a = b;
  cmp_refl : forall a, cmp a a = Eq;
  cmp_antisym : forall a b, cmp b a = CompOpp (cmp a b);
  cmp_lt_trans : forall a b c, cmp a b = Lt -> cmp b c = Lt -> cmp a c = Lt
}.

(** Groups in strictly ascending key order. *)
Definition ascending {K : Type} (cmp : K -> K -> comparison) (groups : list (K * Z)) : Prop :=
  Sorted (fun a b => cmp (fst a) (fst b) = Lt) groups.

(** The sum of a value column. *)
Definition sum_values {K : Type} (rows : list (K * Z)) : Z :=
  foldr (fun r acc => snd r + acc) 0 rows.

(** The sum of the values of the rows with key [k]. *)
Definition key_total {K : Type} `{EqDecision K} (k : K) (rows : list (K * Z)) : Z :=
  sum_values (List.filter (fun r => bool_decide (fst r = k)) rows).

(** Order of group keys: cells of one kind by value. *)
Definition cell_rank (c : Cell) : Z :=
  match c with
  | NaN => 0 | Bool _ => 1 | Int _ => 2 | Str _ => 3 | Datetime _ => 4 | NaT => 5
  end.

Definition cell_compare (a b : Cell) : comparison :=
  match a, b with
  | Int x, Int y => x ?= y
  | Datetime x, Datetime y => x ?= y
  | Str x, Str y => String.compare x y
  | Bool x, Bool y => Z.b2z x ?= Z.b2z y
  | _, _ => cell_rank a ?= cell_rank b
  end.

Fixpoint cells_compare (a b : list Cell) : comparison :=
  match a, b with
  | [], [] => Eq
  | [], _ :: _ => Lt
  | _ :: _, [] => Gt
  | x :: a', y :: b' =>
      match cell_compare x y with
      | Eq => cells_compare a' b'
      | c => c
      end
  end.

(** Lexicographic order on pairs of integers, for [(from, to)] keys. *)
Definition pair_compare (a b : Z * Z) : comparison :=
  match fst a ?= fst b with
  | Eq => snd a ?= snd b
  | c => c
  end.

Module FrameGroup.

(** The cells of row [i] in the given columns. *)
Definition key_of (cols : list (list Cell)) (i : nat) : list Cell :=
  map (fun cells => default NaN (cells !! i)) cols.

(** Every key of the list is a column of the frame. *)
Definition all_columns (df : DataFrame) (by_cols : list string) : bool :=
  forallb (fun col => existsb (String.eqb col) (Frame.columns df)) by_cols.

(** [groupby] with a list of keys that is as long as the frame and is
    not a list of column names: pandas takes the list as one array of
    labels, one for each row, so that the groups are the keys
    themselves; after [reset_index] the labels are in a column named
    [index]. *)
Definition size_by_labels (by_cols : list string) (name : string) : DataFrame :=
  let groups := groupby_size String.compare by_cols in
  [("index", map (fun g => Str (fst g)) groups);
   (name, map (fun g => Int (snd g)) groups)].

(** [groupby] with a list of column names: rows with a missing key
    are left out ([dropna=True]); one row per key, the key columns
    first and then the count.  The first key that is not a column is
    a [KeyError]. *)
Definition size_by_columns (df : DataFrame) (by_cols : list string) (name : string)
  : Res DataFrame :=
  match res_map (fun col => match Frame.getitem df col with
                            | Some cells => Ok cells
                            | None => Raise (KeyError col)
                            end) by_cols with
  | Raise e => Raise e
  | Ok cols =>
      let keys := map (key_of cols) (seq 0 (Frame.nrows df)) in
      let present := List.filter (fun k => negb (existsb isna k)) keys in
      let groups := groupby_size cells_compare present in
      Ok (imap (fun j col => (col, map (fun g => default NaN (fst g !! j)) groups)) by_cols
            ++ [(name, map (fun g => Int (snd g)) groups)])%list
  end.

(** [df.groupby(by_cols).size().reset_index(name=name)], as line 55
    calls it: with keys that differ from each other and a name that
    is none of them. *)
Definition groupby_size (df : DataFrame) (by_cols : list string) (name : string)
  : Res DataFrame :=
  if (negb (all_columns df by_cols) && (List.length by_cols =? Frame.nrows df)%nat)%bool
  then Ok (size_by_labels by_cols name)
  else size_by_columns df by_cols name.

End FrameGroup.

(* --------------------------------------------------------------------- *)
(** ** [dataFiles.py]                                                     *)
(* --------------------------------------------------------------------- *)

Section DataFiles.
Context `{PandasLib}.
Local Open Scope script_scope.

(** [convertToDatetime(df, columns)]: converts the named columns of
    the object [df] refers to, in place, and returns the same
    reference. *)
Definition convertToDatetime (df : ref) (columns : list string) : M ref :=
  for_each columns (fun col =>
    d <- deref df ;;
    if existsb (String.eqb col) (Frame.columns d) then
      cells <- frame_getitem df col ;;
      converted <- lift (to_datetime cells) ;;
      frame_setitem df col converted
    else ret tt) ;;;
  ret df.

(** [[col for col in df.columns if "time" in col.lower()]]. *)
Definition time_columns (d : DataFrame) : list string :=
  List.filter (fun col => PyStr.contains "time" (PyStr.lower col)) (Frame.columns d).

(** Lines 22-23 and 35-36: [for name, df in tables.items(): df.dropna()].
    The call is an expression statement: its value is dropped. *)
Definition drop_missing (tables : Dict) : M unit :=
  for_each tables (fun '(name, df) => method_dropna df ;;; ret tt).

(** Lines 26-29 and 39-42.  The assignment [df = convertToDatetime(...)]
    rebinds the loop variable only; the frames change through the
    shared objects. *)
Definition convert_time_columns (tables : Dict) : M unit :=
  for_each tables (fun '(name, df) =>
    d <- deref df ;;
    let timeColumns := time_columns d in
    match timeColumns with
    | [] => ret tt
    | _ => convertToDatetime df timeColumns ;;; ret tt
    end).

(** Lines 20-21 and 33-34: the [.csv] entries of a folder, each read
    into a frame. *)
Definition load_folder (ds : Datasets) (data_folder : string) : M Dict :=
  names <- listdir ds data_folder ;;
  let files := List.filter (PyStr.endswith ".csv") names in
  dict_comprehension files (fun file => read_csv ds (path_join data_folder file)) [].

(** The names the script has bound when it ends. *)
Record EtlVars := {
  dfParticipantStatusLogs : ref;
  attributes : Dict;
  journals : Dict;
  householdKidCounts : ref
}.

Definition timestamp_format : string := "%Y-%m-%dT%H:%M:%SZ".

(** [f"Datasets/ActivityLogs/ParticipantStatusLogs{i+1}.csv"]. *)
Definition status_log_path (i : nat) : string :=
  "Datasets/ActivityLogs/ParticipantStatusLogs" +:+ py_str_int (Z.of_nat i + 1) +:+ ".csv".

(** Lines 11-16. *)
Definition load_status_logs (ds : Datasets) : M ref :=
  participantStatusLogs <-
    list_comprehension (seq 0 72) (fun i => read_csv ds (status_log_path i)) ;;
  logs <- pd_concat participantStatusLogs ;;
  method_dropna logs ;;;
  ret logs.

(** Line 45. *)
Definition clean_timestamp (logs : ref) : M unit :=
  column <- frame_getitem logs "timestamp" ;;
  converted <- lift (to_datetime_format timestamp_format column) ;;
  frame_setitem logs "timestamp" converted.

(** [f'processed_{name}_attributes.pkl'], [f'processed_{name}_journals.pkl']. *)
Definition snapshot_name (name suffix : string) : string :=
  "processed_" +:+ name +:+ suffix.

(** Lines 48-52. *)
Definition save_tables (logs : ref) (attrs jrnls : Dict) : M unit :=
  to_pickle logs "processed_participant_status_logs.pkl" ;;;
  for_each attrs (fun '(name, df) => to_pickle df (snapshot_name name "_attributes.pkl")) ;;;
  for_each jrnls (fun '(name, df) => to_pickle df (snapshot_name name "_journals.pkl")).

(** Lines 55-56. *)
Definition save_household_kid_counts (attrs : Dict) : M ref :=
  participants <- dict_getitem attrs "Participants.csv" ;;
  d <- deref participants ;;
  counts <- lift (FrameGroup.groupby_size d ["householdSize"; "haveKids"] "count") ;;
  r <- alloc counts ;;
  to_pickle r "processed_household_kid_counts.pkl" ;;;
  ret r.

(** Lines 10-45: everything up to the first [to_pickle]. *)
Definition load_and_clean (ds : Datasets) : M (ref * Dict * Dict) :=
  logs <- load_status_logs ds ;;
  attrs <- load_folder ds "Datasets/Attributes" ;;
  drop_missing attrs ;;;
  convert_time_columns attrs ;;;
  jrnls <- load_folder ds "Datasets/Journals" ;;
  drop_missing jrnls ;;;
  convert_time_columns jrnls ;;;
  clean_timestamp logs ;;;
  ret (logs, attrs, jrnls).

(** The whole of [dataFiles.py], top to bottom. *)
Definition dataFiles (ds : Datasets) : M EtlVars :=
  tables <- load_and_clean ds ;;
  let '(logs, attrs, jrnls) := tables in
  save_tables logs attrs jrnls ;;;
  counts <- save_household_kid_counts attrs ;;
  ret {| dfParticipantStatusLogs := logs; attributes := attrs;
         journals := jrnls; householdKidCounts := counts |}.

(** Lines 10-15 of [vast2022app.py]: the dashboard process starts
    with an empty memory and the cache directory the ETL left. *)
Definition fresh_process (w : World) : World :=
  {| heap := []; pickles := pickles w |}.

Definition load_snapshots (ds : Datasets) (suffix : string) (folder : string) : M Dict :=
  names <- listdir ds folder ;;
  dict_comprehension (List.filter (PyStr.endswith ".csv") names)
    (fun file => read_pickle (snapshot_name file suffix)) [].

Definition vast2022app_load (ds : Datasets) : M EtlVars :=
  logs <- read_pickle "processed_participant_status_logs.pkl" ;;
  attrs <- load_snapshots ds "_attributes.pkl" "Datasets/Attributes" ;;
  jrnls <- load_snapshots ds "_journals.pkl" "Datasets/Journals" ;;
  counts <- read_pickle "processed_household_kid_counts.pkl" ;;
  ret {| dfParticipantStatusLogs := logs; attributes := attrs;
         journals := jrnls; householdKidCounts := counts |}.

End DataFiles.

(* --------------------------------------------------------------------- *)
(** ** The script steps as functions of a frame, and the states between   *)
(* --------------------------------------------------------------------- *)

Section FrameReadings.
Context `{PandasLib}.

(** One turn of the loop of [convertToDatetime], on the frame itself. *)
Definition convert_column (d : DataFrame) (col : string) : Res DataFrame :=
  if existsb (String.eqb col) (Frame.columns d) then
    match Frame.getitem d col with
    | Some cells =>
        match to_datetime cells with
        | Ok converted => Ok (Frame.setitem d col converted)
        | Raise e => Raise e
        end
    | None => Raise (KeyError col)
    end
  else Ok d.

Fixpoint convert_columns (cols : list string) (d : DataFrame) : Res DataFrame :=
  match cols with
  | [] => Ok d
  | col :: rest =>
      match convert_column d col with
      | Ok d' => convert_columns rest d'
      | Raise e => Raise e
      end
  end.

(** What lines 26-29 make of one table. *)
Definition convert_frame (d : DataFrame) : Res DataFrame :=
  convert_columns (time_columns d) d.

(** What line 45 makes of the status log. *)
Definition clean_frame (d : DataFrame) : Res DataFrame :=
  match Frame.getitem d "timestamp" with
  | None => Raise (KeyError "timestamp")
  | Some column =>
      match to_datetime_format timestamp_format column with
      | Ok converted => Ok (Frame.setitem d "timestamp" converted)
      | Raise e => Raise e
      end
  end.

(** The keys of a dict after [k] has been set. *)
Definition add_key (keys : list string) (k : string) : list string :=
  if existsb (String.eqb k) keys then keys else keys ++ [k].

(** The keys of [{k: ... for k in ks}]. *)
Definition dict_keys (ks : list string) : list string := fold_left add_key ks [].

(** The world with the object at [r] replaced. *)
Definition set_object (w : World) (r : ref) (d : DataFrame) : World :=
  {| heap := <[r := d]> (heap w); pickles := pickles w |}.

(** A step that writes no snapshot, replaces no object outside [S]
    and frees none. *)
Definition confined {A} (S : ref -> Prop) (m : M A) : Prop :=
  forall w,
    pickles (snd (m w)) = pickles w
    ∧ (List.length (heap w) <= List.length (heap (snd (m w))))%nat
    ∧ forall r d, heap w !! r = Some d -> ~ S r -> heap (snd (m w)) !! r = Some d.

(** A step that always takes an object from [src] (by the state of
    the cache directory and a key) and allocates it, or raises. *)
Definition allocates_from (src : gmap string Blob -> string -> option DataFrame)
    (f : string -> M ref) : Prop :=
  forall k w,
    match src (pickles w) k with
    | Some df => f k w = alloc df w
    | None => exists e, f k w = (Raise e, w)
    end.

(** The seventy-two shards, when they are all there. *)
Definition shards_of (ds : Datasets) (shards : list DataFrame) : Prop :=
  Forall2 (fun i d => csv_files ds !! status_log_path i = Some d) (seq 0 72) shards.

(** The [.csv] entries of a folder. *)
Definition csv_entries (ds : Datasets) (folder : string) (names : list string) : Prop :=
  exists listing, directories ds !! folder = Some listing
                  ∧ names = List.filter (PyStr.endswith ".csv") listing.

(** A dict of tables after lines 18-42: one entry per [.csv] file of
    the folder, distinct objects, each the conversion of what was read
    from its file. *)
Definition folder_loaded (ds : Datasets) (w : World) (folder : string) (tables : Dict) : Prop :=
  (exists names, csv_entries ds folder names ∧ map fst tables = dict_keys names)
  ∧ NoDup (map snd tables)
  ∧ forall name r, (name, r) ∈ tables ->
      exists d0 d1, csv_files ds !! path_join folder name = Some d0
                    ∧ convert_frame d0 = Ok d1
                    ∧ heap w !! r = Some d1.

(** The status log after line 45: the concatenated shards with the
    [timestamp] column converted. *)
Definition logs_loaded (ds : Datasets) (w : World) (logs : ref) : Prop :=
  exists shards d, shards_of ds shards
                   ∧ clean_frame (Frame.concat shards) = Ok d
                   ∧ heap w !! logs = Some d.

(** Every entry of the dict has its snapshot in the cache directory. *)
Definition folder_saved (w : World) (suffix : string) (tables : Dict) : Prop :=
  forall name r, (name, r) ∈ tables ->
    exists d, heap w !! r = Some d
              ∧ pickles w !! snapshot_name name suffix = Some (pickle_dumps d).

(** [d1] has the columns of [d0], with as many cells each, and a
    missing value wherever [d0] has one: no row is gone, and a row
    with a missing value still is one. *)
Definition same_rows (d0 d1 : DataFrame) : Prop :=
  Forall2 (fun c0 c1 =>
             fst c1 = fst c0
             ∧ List.length (snd c1) = List.length (snd c0)
             ∧ forall i c, snd c0 !! i = Some c -> isna c = true ->
                 exists c', snd c1 !! i = Some c' ∧ isna c' = true)
          d0 d1.

(** The snapshot at [path] holds all the rows of [d0]. *)
Definition snapshot_keeps_rows (w : World) (path : string) (d0 : DataFrame) : Prop :=
  exists d1, pickles w !! path = Some (pickle_dumps d1) ∧ same_rows d0 d1.

(** Every column with [time] in its name is of datetime type. *)
Definition time_columns_datetime (d : DataFrame) : Prop :=
  forall col cells,
    PyStr.contains "time" (PyStr.lower col) = true ->
    Frame.getitem d col = Some cells ->
    Forall (fun c => is_datetime c = true) cells.

(** The object behind [r] in the ETL process and the object behind
    [r'] in the dashboard process are the same table: the same columns
    in the same order, the same cells. *)
Definition same_table (etl : World) (r : ref) (app : World) (r' : ref) : Prop :=
  exists d, heap etl !! r = Some d ∧ heap app !! r' = Some d.

(** Two dicts with the same keys in the same order and, key by key,
    the same table. *)
Definition same_tables (etl : World) (tables : Dict) (app : World) (tables' : Dict) : Prop :=
  map fst tables' = map fst tables
  ∧ forall name r', (name, r') ∈ tables' ->
      exists r, (name, r) ∈ tables ∧ same_table etl r app r'.

(** The state in which [dataFiles.py] ends. *)
Definition etl_done (ds : Datasets) (vars : EtlVars) (w : World) : Prop :=
  logs_loaded ds w (dfParticipantStatusLogs vars)
  ∧ (exists d, heap w !! dfParticipantStatusLogs vars = Some d
               ∧ pickles w !! "processed_participant_status_logs.pkl" = Some (pickle_dumps d))
  ∧ folder_loaded ds w "Datasets/Attributes" (attributes vars)
  ∧ folder_saved w "_attributes.pkl" (attributes vars)
  ∧ folder_loaded ds w "Datasets/Journals" (journals vars)
  ∧ folder_saved w "_journals.pkl" (journals vars)
  ∧ (exists d, heap w !! householdKidCounts vars = Some d
               ∧ pickles w !! "processed_household_kid_counts.pkl" = Some (pickle_dumps d)).

End FrameReadings.

(* --------------------------------------------------------------------- *)
(** ** [vast2022app.py]: the education pivot                              *)
(* --------------------------------------------------------------------- *)

Module Pivot.

(** What the pivot reads of a participant: [age], [educationLevel]. *)
Definition Participant : Type := option Z * option string.

(** The [(ageGroup, educationLevel)] key of a participant; a
    participant without an age group or without a level has none and
    is left out of the grouping. *)
Definition key (p : Participant) : option (string * string) :=
  match ageGroup (fst p), snd p with
  | Some g, Some e => Some (g, e)
  | _, _ => None
  end.

(** The cell of the pivot for one age group and one level:
    [aggfunc='size'], [fill_value=0]. *)
Definition cell (participants : list Participant) (group level : string) : Z :=
  Z.of_nat (List.length
    (List.filter (fun p => match key p with
                           | Some (g, e) => (String.eqb g group && String.eqb e level)%bool
                           | None => false
                           end) participants)).

(** The education levels that head the columns, in ascending order:
    with [observed=False] the groups are the product of the age-group
    categories and of every level that occurs in the column, also a
    level that only participants without an age group have. *)
Definition levels (participants : list Participant) : list string :=
  map fst (groupby_size String.compare (omap snd participants)).

(** Line 20: one row per age-group category ([observed=False] keeps
    the empty ones), one count per level.  A table in which no level
    occurs has no group at all, and the pivot has no row. *)
Definition pivotDf (participants : list Participant) : list (string * list (string * Z)) :=
  match levels participants with
  | [] => []
  | all_levels =>
      map (fun g => (g, map (fun e => (e, cell participants g e)) all_levels))
          ["20-29"; "30-39"; "40-49"]
  end.

End Pivot.

(* --------------------------------------------------------------------- *)
(** ** [vast2022app.py]: the social graph                                 *)
(* --------------------------------------------------------------------- *)

Module Social.

(** The two identifiers of a [SocialNetwork.csv] row; [None] is a
    missing value, which the ETL leaves in the table. *)
Definition Event : Type := option Z * option Z.

(** An edge: [((participantIdFrom, participantIdTo), weight)]. *)
Definition Edge : Type := (Z * Z) * Z.
Definition participantIdFrom (e : Edge) : Z := fst (fst e).
Definition participantIdTo (e : Edge) : Z := snd (fst e).
Definition weight (e : Edge) : Z := snd e.

(** The identifier columns of the cached table. *)
Definition id_cell (c : Cell) : Res (option Z) :=
  match c with
  | Int z => Ok (Some z)
  | NaN => Ok None
  | _ => Raise TypeError
  end.

Definition events_of (df : DataFrame) : Res (list Event) :=
  match Frame.getitem df "participantIdFrom", Frame.getitem df "participantIdTo" with
  | Some froms, Some tos =>
      match res_map id_cell froms, res_map id_cell tos with
      | Ok fs, Ok ts => Ok (zip fs ts)
      | Raise e, _ => Raise e
      | _, Raise e => Raise e
      end
  | None, _ => Raise (KeyError "participantIdFrom")
  | _, None => Raise (KeyError "participantIdTo")
  end.

(** [groupby] leaves out a row with a missing key. *)
Definition group_key (ev : Event) : option (Z * Z) :=
  match ev with
  | (Some f, Some t) => Some (f, t)
  | _ => None
  end.

(** Line 23. *)
Definition edgesWithFrequency (events : list Event) : list Edge :=
  groupby_size pair_compare (omap group_key events).

(** Line 26: rows [(participantId, totalWeight)]. *)
Definition participantInteractions (events : list Event) : list (Z * Z) :=
  groupby_sum Z.compare
    (map (fun e => (participantIdFrom e, weight e)) (edgesWithFrequency events)).

(** The order of selection: a larger total first, and among equal
    totals the smaller identifier first. *)
Definition before (a b : Z * Z) : Prop :=
  snd b < snd a ∨ (snd a = snd b ∧ fst a < fst b).

(** Put [row] after the rows that are at least as large: among equal
    values the earlier row stays first ([keep='first']). *)
Fixpoint insert_desc (row : Z * Z) (sorted : list (Z * Z)) : list (Z * Z) :=
  match sorted with
  | [] => [row]
  | r :: rest =>
      if snd r <? snd row then row :: sorted else r :: insert_desc row rest
  end.

(** [rows.nlargest(n, column)]: the [n] first rows of [rows] in
    descending order of the value, ties in the order of [rows]. *)
Definition nlargest (n : nat) (rows : list (Z * Z)) : list (Z * Z) :=
  take n (fold_left (fun sorted row => insert_desc row sorted) rows []).

(** Line 29. *)
Definition topParticipants (events : list Event) : list Z :=
  map fst (nlargest 10 (participantInteractions events)).

(** [series.isin(values)] on one value. *)
Definition isin (v : Z) (values : list Z) : bool := existsb (Z.eqb v) values.

(** Lines 32-36. *)
Definition filteredEdges (events : list Event) : list Edge :=
  let top := topParticipants events in
  List.filter (fun e => 200 <? weight e)
    (List.filter (fun e => (isin (participantIdFrom e) top || isin (participantIdTo e) top)%bool)
       (edgesWithFrequency events)).

(** Line 39. *)
Definition nodes (events : list Event) : gset Z :=
  list_to_set (map participantIdFrom (filteredEdges events))
    ∪ list_to_set (map participantIdTo (filteredEdges events)).

(** Both identifiers of the row are there. *)
Definition complete (ev : Event) : bool :=
  match group_key ev with
  | Some _ => true
  | None => false
  end.

(** How many rows go from [f] to [t]. *)
Definition occurrences (f t : Z) (events : list Event) : Z :=
  Z.of_nat (List.length
    (List.filter (fun ev => bool_decide (ev = (Some f, Some t))) events)).

(** The sum of the weights of the edges that leave [p]. *)
Definition outgoing_weight (p : Z) (edges : list Edge) : Z :=
  sum_values (List.filter (fun e => participantIdFrom e =? p) edges).

(** A table with a row whose receiver is missing. *)
Definition events_with_gap : list Event :=
  [(Some 1, Some 2); (Some 2, None)].

(** Eleven participants with one message each, and a twelfth with
    two. *)
Definition events_tied : list Event :=
  (Some 12, Some 1) :: (Some 12, Some 2)
    :: map (fun i => (Some (Z.of_nat i), Some 0)) (seq 1 11).

(** Ten participants who each wrote 301 times to participant 0, and
    participant 11 who wrote 300 times to participant 12. *)
Definition events_heavy : list Event :=
  flat_map (fun i => repeat (Some (Z.of_nat i), Some 0) 301) (seq 1 10)
    ++ repeat (Some 11, Some 12) 300.

End Social.

(* --------------------------------------------------------------------- *)
(** ** [vast2022app.py]: building locations                               *)
(* --------------------------------------------------------------------- *)

Module Building.
Section Building.
Context `{PandasLib}.

(** A row of [finalDf]. *)
Record Row := { x : float; y : float; buildingType : string }.

(** [attributes[file][["location"]]] with the tag column added: the
    location text of each row ([None] where it is not a string) and
    the building type. *)
Definition tagged (tag : string) (df : DataFrame) : Res (list (option string * string)) :=
  match Frame.getitem df "location" with
  | None => Raise (KeyError "location")
  | Some cells => Ok (map (fun c => match c with
                                    | Str s => (Some s, tag)
                                    | _ => (None, tag)
                                    end) cells)
  end.

(** [.str.strip("POINT ()")]. *)
Definition location_clean (location : option string) : option string :=
  PyStr.strip "POINT ()" <$> location.

(** [.str.split(" ").str[i]]: out of range gives a missing value. *)
Definition token (i : nat) (clean : option string) : option string :=
  clean ≫= fun s => PyStr.split " " s !! i.

(** [.astype(float)] on one value: a missing value is [nan]. *)
Definition astype_float (v : option string) : Res float :=
  match v with
  | None => Ok float_nan
  | Some s => match float_of_str s with
              | Some f => Ok f
              | None => Raise (ValueError s)
              end
  end.

(** The [.str] accessor needs a column of strings: a column that
    has rows and no string among them is a numeric column, and the
    accessor raises [AttributeError]. *)
Definition str_accessor (cells : list (option string)) : bool :=
  match cells with
  | [] => true
  | _ :: _ => existsb (fun c => bool_decide (is_Some c)) cells
  end.

(** Lines 71-78 after the accessor check: the whole [x] column is
    converted first, then the whole [y] column. *)
Definition coordinates (combined : list (option string * string)) : Res (list Row) :=
  let clean := map (fun r => location_clean (fst r)) combined in
  match res_map astype_float (map (token 0) clean) with
  | Raise e => Raise e
  | Ok xs =>
      match res_map astype_float (map (token 1) clean) with
      | Raise e => Raise e
      | Ok ys =>
          Ok (zip_with (fun xy r => {| x := fst xy; y := snd xy; buildingType := snd r |})
                (zip xs ys) combined)
      end
  end.

(** Lines 71-78 on the concatenated, tagged rows. *)
Definition finalDf (combined : list (option string * string)) : Res (list Row) :=
  if str_accessor (map fst combined) then coordinates combined else Raise AttributeError.

(** Lines 56-68: the four tables, tagged and concatenated. *)
Definition combined (apartments pubs restaurants schools : DataFrame)
  : Res (list (option string * string)) :=
  match tagged "apartment" apartments, tagged "pub" pubs,
        tagged "restaurant" restaurants, tagged "school" schools with
  | Ok a, Ok p, Ok r, Ok s => Ok (a ++ p ++ r ++ s)%list
  | Raise e, _, _, _ => Raise e
  | _, Raise e, _, _ => Raise e
  | _, _, Raise e, _ => Raise e
  | _, _, _, Raise e => Raise e
  end.

End Building.
End Building.

(* --------------------------------------------------------------------- *)
(** ** A concrete library and concrete inputs, to run the scripts on      *)
(* --------------------------------------------------------------------- *)

Module Demo.

Definition digit (c : ascii) : option Z :=
  let n := Z.of_nat (nat_of_ascii c) in
  if ((48 <=? n) && (n <=? 57))%bool then Some (n - 48) else None.

Fixpoint digits (acc : Z) (s : string) : option Z :=
  match s with
  | EmptyString => Some acc
  | String c r => match digit c with
                  | Some d => digits (10 * acc + d) r
                  | None => None
                  end
  end.

(** A non-empty run of decimal digits. *)
Definition number (s : string) : option Z :=
  match s with
  | EmptyString => None
  | _ => digits 0 s
  end.

(** Days from 1970-01-01 to a civil date. *)
Definition days_from_civil (y m d : Z) : Z :=
  let y' := if m <=? 2 then y - 1 else y in
  let era := y' / 400 in
  let yoe := y' - era * 400 in
  let mp := (m + 9) mod 12 in
  let doy := (153 * mp + 2) / 5 + d - 1 in
  let doe := yoe * 365 + yoe / 4 - yoe / 100 + doy in
  era * 146097 + doe - 719468.

(** A fixed-width reading of [YYYY-MM-DDTHH:MM:SSZ], in nanoseconds. *)
Definition strptime_iso (s : string) : option Z :=
  if negb (String.length s =? 20)%nat then None
  else if negb (String.eqb (String.substring 4 1 s) "-"
             && String.eqb (String.substring 7 1 s) "-"
             && String.eqb (String.substring 10 1 s) "T"
             && String.eqb (String.substring 13 1 s) ":"
             && String.eqb (String.substring 16 1 s) ":"
             && String.eqb (String.substring 19 1 s) "Z")%bool then None
  else
    match number (String.substring 0 4 s), number (String.substring 5 2 s),
          number (String.substring 8 2 s), number (String.substring 11 2 s),
          number (String.substring 14 2 s), number (String.substring 17 2 s) with
    | Some yy, Some mo, Some dd, Some hh, Some mi, Some ss =>
        if ((1 <=? mo) && (mo <=? 12) && (1 <=? dd) && (dd <=? 31)
            && (hh <=? 23) && (mi <=? 59) && (ss <=? 61))%bool
        then Some ((((days_from_civil yy mo dd * 24 + hh) * 60 + mi) * 60 + ss) * 1000000000)
        else None
    | _, _, _, _, _, _ => None
    end.

(** A decimal literal [-ddd.ddd], kept exact: [mantissa / 10^scale]. *)
Record Decimal := { mantissa : Z; scale : nat }.

Fixpoint split_dot (s : string) : string * option string :=
  match s with
  | EmptyString => (EmptyString, None)
  | String c r =>
      if Ascii.eqb c "." then (EmptyString, Some r)
      else let '(a, b) := split_dot r in (String c a, b)
  end.

Definition unsigned_decimal (s : string) : option Decimal :=
  match split_dot s with
  | (whole, None) => (fun m => {| mantissa := m; scale := 0 |}) <$> number whole
  | (whole, Some frac) =>
      match number whole, number frac with
      | Some w, Some f =>
          Some {| mantissa := w * 10 ^ Z.of_nat (String.length frac) + f;
                  scale := String.length frac |}
      | _, _ => None
      end
  end.

Definition decimal_of_str (s : string) : option (option Decimal) :=
  match s with
  | String "-" r =>
      (fun d => Some {| mantissa := - mantissa d; scale := scale d |}) <$> unsigned_decimal r
  | _ => Some <$> unsigned_decimal s
  end.

(** The library the examples run on: the fixed-width timestamp
    reader for every datetime, exact decimals for floats ([None] is
    [nan]), and snapshots that keep the frame as it is.  It stands
    in for pandas on the inputs of the examples, zero-padded
    timestamps of existing dates and plain decimal literals, and is
    not pandas' reader elsewhere: it takes a day up to 31 in every
    month and no field without padding, and no exponent or leading
    plus sign in a number. *)
#[export] Instance lib : PandasLib := {|
  strptime fmt s :=
    if String.eqb fmt "%Y-%m-%dT%H:%M:%SZ" then strptime_iso s else None;
  guess_datetime_format s :=
    match strptime_iso s with
    | Some _ => Some "%Y-%m-%dT%H:%M:%SZ"
    | None => None
    end;
  dateutil_parse := strptime_iso;
  float := option Decimal;
  float_nan := None;
  float_of_str := decimal_of_str;
  Blob := DataFrame;
  pickle_dumps df := df;
  pickle_loads b := Some b
|}.

(** Seventy-two shards of the status log: the first has the rows of
    [log], the others have its columns and no row. *)
Definition shards (log : DataFrame) : list (string * DataFrame) :=
  map (fun i => (status_log_path i,
                 match i with
                 | O => log
                 | S _ => map (fun c => (fst c, [])) log
                 end))
      (seq 0 72).

(** A data set with the given shard content, one attributes table
    and one journal. *)
Definition datasets (log participants social : DataFrame) : Datasets :=
  {| csv_files :=
       list_to_map (shards log ++
                    [("Datasets/Attributes/Participants.csv", participants);
                     ("Datasets/Journals/SocialNetwork.csv", social)])%list;
     directories :=
       list_to_map [("Datasets/Attributes", ["Participants.csv"; "notes.txt"]);
                    ("Datasets/Journals", ["SocialNetwork.csv"])] |}.

Definition empty_world : World := {| heap := []; pickles := ∅ |}.

(** A status log whose second row has no timestamp. *)
Definition log_with_gap : DataFrame :=
  [("timestamp", [Str "2022-03-01T08:00:00Z"; NaN]);
   ("participantId", [Int 1; Int 2])].

(** A status log whose second timestamp is not in the format. *)
Definition log_malformed : DataFrame :=
  [("timestamp", [Str "2022-03-01T08:00:00Z"; Str "01/03/2022 08:00"]);
   ("participantId", [Int 1; Int 2])].

Definition participants : DataFrame :=
  [("participantId", [Int 1; Int 2; Int 3]);
   ("householdSize", [Int 2; Int 3; Int 2]);
   ("haveKids", [Bool false; Bool true; Bool false]);
   ("age", [Int 20; Int 30; NaN])].

Definition social : DataFrame :=
  [("participantIdFrom", [Int 1; Int 1; Int 2]);
   ("participantIdTo", [Int 2; Int 2; NaN]);
   ("Timestamp", [Str "2022-03-01T08:00:00Z"; Str "2022-03-01T23:00:00Z";
                  Str "2022-03-02T00:00:01Z"])].

(** The same journal with a timestamp that cannot be read. *)
Definition social_malformed : DataFrame :=
  [("participantIdFrom", [Int 1]);
   ("participantIdTo", [Int 2]);
   ("timestamp", [Str "yesterday"])].

(** The data set whose status log has a row without a timestamp, the
    run of the ETL on it, and the names it ends with. *)
Definition dataset_with_gap : Datasets := datasets log_with_gap participants social.

Definition run_with_gap : Res EtlVars * World := dataFiles dataset_with_gap empty_world.

Definition vars_with_gap : EtlVars :=
  {| dfParticipantStatusLogs := 72%nat;
     attributes := [("Participants.csv", 74%nat)];
     journals := [("SocialNetwork.csv", 76%nat)];
     householdKidCounts := 78%nat |}.

(** The data sets with a malformed status log and a malformed journal. *)
Definition dataset_malformed_log : Datasets := datasets log_malformed participants social.

Definition dataset_malformed_journal : Datasets :=
  datasets log_with_gap participants social_malformed.

End Demo.

(* --------------------------------------------------------------------- *)
(** ** Well-formed location text                                          *)
(* --------------------------------------------------------------------- *)





Section WellFormedLocation.
Context `{PandasLib}.





End WellFormedLocation.

(* --------------------------------------------------------------------- *)
(** ** What [dataFiles.py] needs of its input, and what it writes         *)
(* --------------------------------------------------------------------- *)

Section EtlConditions.
Context `{PandasLib}.

(** The folder can be listed, and each of its [.csv] entries can be
    read and converted. *)
Definition folder_ready (ds : Datasets) (folder : string) : Prop :=
  exists listing,
    directories ds !! folder = Some listing
    ∧ forall name, name ∈ List.filter (PyStr.endswith ".csv") listing ->
        exists d0 d1, csv_files ds !! path_join folder name = Some d0
                      ∧ convert_frame d0 = Ok d1.

(** The two columns line 55 groups by. *)
Definition household_columns (d : DataFrame) : Prop :=
  is_Some (Frame.getitem d "householdSize") ∧ is_Some (Frame.getitem d "haveKids").

(** Line 55 can group the table: both keys are columns, or the table
    has exactly two rows, in which case a list of two keys that are
    not both columns is taken as the labels of the two rows. *)
Definition household_groupable (d : DataFrame) : Prop :=
  household_columns d ∨ Frame.nrows d = 2%nat.

(** The participants table is among the attributes and line 55 can
    group it. *)
Definition participants_ready (ds : Datasets) : Prop :=
  exists listing d0,
    directories ds !! "Datasets/Attributes" = Some listing
    ∧ "Participants.csv" ∈ listing
    ∧ csv_files ds !! path_join "Datasets/Attributes" "Participants.csv" = Some d0
    ∧ household_groupable d0.

(** Everything the script needs: the seventy-two shards with a
    [timestamp] column the format accepts, the two folders, and the
    participants table. *)
Definition etl_ready (ds : Datasets) : Prop :=
  (exists shards d, shards_of ds shards ∧ clean_frame (Frame.concat shards) = Ok d)
  ∧ folder_ready ds "Datasets/Attributes"
  ∧ folder_ready ds "Datasets/Journals"
  ∧ participants_ready ds.

(** The snapshot names lines 48-52 use for a data set. *)
Definition table_snapshot (ds : Datasets) (path : string) : Prop :=
  path = "processed_participant_status_logs.pkl"
  ∨ (exists names name, csv_entries ds "Datasets/Attributes" names ∧ name ∈ names
                        ∧ path = snapshot_name name "_attributes.pkl")
  ∨ (exists names name, csv_entries ds "Datasets/Journals" names ∧ name ∈ names
                        ∧ path = snapshot_name name "_journals.pkl").

(** The names of all the files the script writes. *)
Definition written (ds : Datasets) (path : string) : Prop :=
  table_snapshot ds path ∨ path = "processed_household_kid_counts.pkl".

(** The first of the shards that is not there. *)
Definition first_missing_shard (ds : Datasets) (i : nat) : Prop :=
  (i < 72)%nat
  ∧ csv_files ds !! status_log_path i = None
  ∧ forall j, (j < i)%nat -> is_Some (csv_files ds !! status_log_path j).

(** The same files under the same paths, each folder listed in some
    other order. *)
Definition same_files (ds ds' : Datasets) : Prop :=
  csv_files ds' = csv_files ds
  ∧ forall folder,
      match directories ds !! folder, directories ds' !! folder with
      | Some listing, Some listing' => listing ≡ₚ listing'
      | None, None => True
      | _, _ => False
      end.

End EtlConditions.

(* --------------------------------------------------------------------- *)
(** ** What the cache directory holds, in terms of the input files        *)
(* --------------------------------------------------------------------- *)

Section EtlCache.
Context `{PandasLib}.

(** Every [.csv] entry of the folder has its snapshot, and the
    snapshot is the conversion of the file's content. *)
Definition folder_cached (ds : Datasets) (w : World) (folder suffix : string) : Prop :=
  forall names name, csv_entries ds folder names -> name ∈ names ->
    exists d0 d1, csv_files ds !! path_join folder name = Some d0
                  ∧ convert_frame d0 = Ok d1
                  ∧ pickles w !! snapshot_name name suffix = Some (pickle_dumps d1).

(** The snapshots of lines 48-52. *)
Definition tables_cached (ds : Datasets) (w : World) : Prop :=
  (exists shards dl, shards_of ds shards
                     ∧ clean_frame (Frame.concat shards) = Ok dl
                     ∧ pickles w !! "processed_participant_status_logs.pkl"
                       = Some (pickle_dumps dl))
  ∧ folder_cached ds w "Datasets/Attributes" "_attributes.pkl"
  ∧ folder_cached ds w "Datasets/Journals" "_journals.pkl".

(** The snapshot of line 56. *)
Definition household_cached (ds : Datasets) (w : World) : Prop :=
  exists d0 d1 counts,
    csv_files ds !! path_join "Datasets/Attributes" "Participants.csv" = Some d0
    ∧ convert_frame d0 = Ok d1
    ∧ FrameGroup.groupby_size d1 ["householdSize"; "haveKids"] "count" = Ok counts
    ∧ pickles w !! "processed_household_kid_counts.pkl" = Some (pickle_dumps counts).

End EtlCache.

(** Inputs on which the script stops early. *)
Module Sample.

Definition without_shard (i : nat) (ds : Datasets) : Datasets :=
  {| csv_files := delete (status_log_path i) (csv_files ds);
     directories := directories ds |}.

Definition without_folder (folder : string) (ds : Datasets) : Datasets :=
  {| csv_files := csv_files ds;
     directories := delete folder (directories ds) |}.

Definition with_listing (folder : string) (listing : list string) (ds : Datasets) : Datasets :=
  {| csv_files := csv_files ds;
     directories := <[folder := listing]> (directories ds) |}.

(** A status log that has no [timestamp] column. *)
Definition log_no_timestamp : DataFrame :=
  [("time", [Str "2022-03-01T08:00:00Z"]);
   ("participantId", [Int 1])].

(** A participants table without the [haveKids] column: two rows,
    as many as line 55 has keys. *)
Definition participants_no_kids : DataFrame :=
  [("participantId", [Int 1; Int 2]);
   ("householdSize", [Int 2; Int 3])].

(** The same with three rows. *)
Definition participants_no_kids_three : DataFrame :=
  [("participantId", [Int 1; Int 2; Int 3]);
   ("householdSize", [Int 2; Int 3; Int 2])].

(** A cache directory that holds a file of an earlier run and a file
    that is not the script's. *)
Definition stale_world : @World Demo.lib :=
  {| heap := [];
     pickles := <["processed_household_kid_counts.pkl" := [("count", [Int 7])]]>
                  (<["notes.pkl" := [("text", [Str "keep"])]]> ∅) |}.

(** A second attributes table, and the data set that has it beside
    the participants. *)
Definition jobs : DataFrame :=
  [("jobId", [Int 0; Int 1]);
   ("educationRequirement", [Str "Bachelors"; Str "HighSchoolOrCollege"])].

Definition dataset_two_tables : Datasets :=
  {| csv_files := <["Datasets/Attributes/Jobs.csv" := jobs]> (csv_files Demo.dataset_with_gap);
     directories := <["Datasets/Attributes" := ["Participants.csv"; "Jobs.csv"; "notes.txt"]]>
                      (directories Demo.dataset_with_gap) |}.

(** A participants table in which the last row has no household
    size. *)
Definition participants_with_gap : DataFrame :=
  [("participantId", [Int 1; Int 2; Int 3; Int 4]);
   ("householdSize", [Int 2; Int 3; Int 2; NaN]);
   ("haveKids", [Bool false; Bool true; Bool false; Bool true])].

(** A process that holds the social journal as its only object. *)
Definition social_world : @World Demo.lib :=
  {| heap := [Demo.social]; pickles := ∅ |}.

(** Two buildings, the second without a location. *)
Definition buildings : list (option string * string) :=
  [(Some "POINT (1 2)", "pub"); (None, "school")].

(** A social journal with a [timestamp] column: two interactions on
    the first of March 2022, one on the second, and one row without
    a timestamp. *)
Definition social_journal : DataFrame :=
  [("participantIdFrom", [Int 1; Int 1; Int 2; Int 3]);
   ("participantIdTo", [Int 2; Int 2; Int 1; Int 1]);
   ("timestamp", [Str "2022-03-01T08:00:00Z"; Str "2022-03-01T23:00:00Z"; NaN;
                  Str "2022-03-02T00:00:01Z"])].

End Sample.

(* --------------------------------------------------------------------- *)
(** ** Counting rows                                                       *)
(* --------------------------------------------------------------------- *)

(** The sum of a column of counts. *)
Definition cell_total (cells : list Cell) : Z :=
  foldr (fun c acc => match c with Int z => z + acc | _ => acc end) 0 cells.

(** Row [i] has a value in column [col]. *)
Definition has_value (d : DataFrame) (col : string) (i : nat) : bool :=
  match Frame.getitem d col ≫= (fun cells => cells !! i) with
  | Some c => negb (isna c)
  | None => false
  end.

(** The rows of [d] that have a value in each of the columns [cols]. *)
Definition complete_rows (d : DataFrame) (cols : list string) : list nat :=
  List.filter (fun i => forallb (fun col => has_value d col i) cols) (seq 0 (Frame.nrows d)).

(** The rows of [d] that have the cell [va] in column [a] and the cell
    [vb] in column [b]. *)
Definition rows_with (d : DataFrame) (a b : string) (va vb : Cell) : list nat :=
  List.filter (fun i => bool_decide (Frame.getitem d a ≫= (fun cells => cells !! i) = Some va
                                     ∧ Frame.getitem d b ≫= (fun cells => cells !! i) = Some vb))
              (seq 0 (Frame.nrows d)).




(* --------------------------------------------------------------------- *)
(** ** [vast2022app.py]: interactions by day                              *)
(* --------------------------------------------------------------------- *)

(** [.dt.date] on one cell of a datetime column: the calendar day, as
    a number of days since the epoch; [NaT] has none. *)
Definition day_of (c : Cell) : option Z :=
  match c with
  | Datetime ns => Some (ns / 86400000000000)
  | _ => None
  end.

(** Line 51 on the [timestamp] column of the social journal: rows
    [(day, interactionCount)].  The [.dt] accessor needs a datetime
    column; [None] stands for the [AttributeError] it raises
    otherwise. *)
Definition interactionsByDay (timestamps : list Cell) : option (list (Z * Z)) :=
  if forallb is_datetime timestamps
  then Some (groupby_size Z.compare (omap day_of timestamps))
  else None.

(** The number of cells of the column that fall on [day]. *)
Definition on_day (day : Z) (timestamps : list Cell) : Z :=
  Z.of_nat (List.length (List.filter (fun c => bool_decide (day_of c = Some day)) timestamps)).

(* --------------------------------------------------------------------- *)
(** ** [vast2022app.py]: the colours of the building types                *)
(* --------------------------------------------------------------------- *)

(** [series.unique()]: the values in the order of their first
    appearance. *)
Definition unique (values : list string) : list string :=
  fold_left (fun seen v => if existsb (String.eqb v) seen then seen else seen ++ [v])
            values [].

(** A dict from strings to strings, in insertion order. *)
Definition StrDict := list (string * string).

(** [d[k] = v]. *)
Fixpoint str_dict_set (k v : string) (d : StrDict) : StrDict :=
  match d with
  | [] => [(k, v)]
  | (k', v') :: rest =>
      if String.eqb k' k then (k', v) :: rest else (k', v') :: str_dict_set k v rest
  end.

(** [d[k]], [None] standing for [KeyError]. *)
Fixpoint str_dict_get (d : StrDict) (k : string) : option string :=
  match d with
  | [] => None
  | (k', v) :: rest => if String.eqb k' k then Some v else str_dict_get rest k
  end.

(** [colorSequence[i % len(colorSequence)]]; [None] stands for the
    [ZeroDivisionError] of an empty sequence. *)
Definition color_at (colorSequence : list string) (i : nat) : option string :=
  match colorSequence with
  | [] => None
  | _ :: _ => colorSequence !! (i mod List.length colorSequence)%nat
  end.

(** Line 84: the dict comprehension over [enumerate(buildingTypes)]. *)
Definition colorMap (colorSequence buildingTypes : list string) : option StrDict :=
  fold_left (fun acc '(i, t) =>
               match acc with
               | None => None
               | Some d => match color_at colorSequence i with
                           | None => None
                           | Some c => Some (str_dict_set t c d)
                           end
               end)
            (imap pair buildingTypes) (Some []).

(** Line 355: [[colorMap[t] for t in finalDf["buildingType"]]]. *)
Fixpoint marker_colors (d : StrDict) (types : list string) : option (list string) :=
  match types with
  | [] => Some []
  | t :: rest =>
      match str_dict_get d t with
      | None => None
      | Some c => match marker_colors d rest with
                  | None => None
                  | Some cs => Some (c :: cs)
                  end
      end
  end.

(* ===================================================================== *)
(** * Part II.  Lemmas and theorems                                       *)
(* ===================================================================== *)

Example strip_point : PyStr.strip "POINT ()" "POINT (12.5 7.25)" = "12.5 7.25".
Proof. reflexivity. Qed.

Example split_point : PyStr.split " " "12.5 7.25" = ["12.5"; "7.25"].
Proof. reflexivity. Qed.

Example ageGroup_30 : ageGroup (Some 30) = Some "20-29".
Proof. reflexivity. Qed.

Example time_in_name :
  map (fun col => PyStr.contains "time" (PyStr.lower col))
      ["timestamp"; "travelStartTime"; "checkInTime"; "participantId"; "TIMEZONE"]
  = [true; true; true; false; true].
Proof. reflexivity. Qed.

Example csv_names :
  List.filter (PyStr.endswith ".csv") ["Jobs.csv"; "notes.txt"; ".csv"; "csv"; "a.CSV"]
  = ["Jobs.csv"; ".csv"].
Proof. reflexivity. Qed.

Example dropna_log :
  Frame.dropna Demo.log_with_gap
  = [("timestamp", [Str "2022-03-01T08:00:00Z"]); ("participantId", [Int 1])].
Proof. reflexivity. Qed.

Example concat_fills :
  Frame.concat [[("a", [Int 1]); ("b", [Int 2])]; [("b", [Int 3]); ("c", [Int 4])]]
  = [("a", [Int 1; NaN]); ("b", [Int 2; Int 3]); ("c", [NaN; Int 4])].
Proof. reflexivity. Qed.

Example household_counts :
  FrameGroup.groupby_size Demo.participants ["householdSize"; "haveKids"] "count"
  = Ok [("householdSize", [Int 2; Int 3]);
        ("haveKids", [Bool false; Bool true]);
        ("count", [Int 2; Int 1])].
Proof. reflexivity. Qed.


(* --------------------------------------------------------------------- *)
(** ** The router                                                         *)
(* --------------------------------------------------------------------- *)

Lemma displayPage_context {Layout} (ctx : AppContext Layout) (pathname : option string) :
  snd (displayPage ctx pathname) = ctx.
Proof.
  unfold displayPage. destruct pathname as [p|]; [|reflexivity].
  repeat (match goal with |- context [if ?b then _ else _] => destruct b end);
    reflexivity.
Qed.

Lemma displayPage_fallback {Layout} (ctx : AppContext Layout) (p : string) :
  p ≠ "/participantDashboard" ->
  p ≠ "/socialActivityDashboard" ->
  p ≠ "/businessDashboard" ->
  fst (displayPage ctx (Some p)) = homePage ctx.
Proof.
  intros H1 H2 H3. unfold displayPage.
  apply String.eqb_neq in H1, H2, H3. rewrite H1, H2, H3. reflexivity.
Qed.

(** C9.  The router returns the Participant, Social Activity and
    Business pages for their three paths and the Home page for ["/"]
    and for every other path (also when no path is known yet); in every
    case the context of prebuilt layouts comes back as it went in. *)
Theorem displayPage_routes {Layout} (ctx : AppContext Layout) (pathname : string) :
  fst (displayPage ctx (Some "/participantDashboard")) = participantDashboardLayout ctx
  ∧ fst (displayPage ctx (Some "/socialActivityDashboard")) = socialActivityDashboardLayout ctx
  ∧ fst (displayPage ctx (Some "/businessDashboard")) = businessDashboard ctx
  ∧ fst (displayPage ctx (Some "/")) = homePage ctx
  ∧ fst (displayPage ctx None) = homePage ctx
  ∧ (pathname ∉ ["/participantDashboard"; "/socialActivityDashboard"; "/businessDashboard"]
     → fst (displayPage ctx (Some pathname)) = homePage ctx)
  ∧ snd (displayPage ctx (Some pathname)) = ctx
  ∧ snd (displayPage ctx None) = ctx.
Proof.
  repeat split; try reflexivity.
  - intros Hnot. apply displayPage_fallback; intros ->; apply Hnot; set_solver.
  - apply displayPage_context.
Qed.

Lemma displayPage_routes_witness :
  fst (displayPage pages (Some "/unknown")) = Home
  ∧ fst (displayPage pages (Some "/businessDashboard")) = Business
  ∧ snd (displayPage pages (Some "/unknown")) = pages.
Proof.
  destruct (displayPage_routes pages "/unknown") as (_ & _ & Hb & _ & _ & Hfall & Hctx & _).
  split; [|split].
  - apply Hfall. intros Hin. apply list_elem_of_In in Hin. simpl in Hin.
    repeat (destruct Hin as [Hin|Hin]; [discriminate Hin|]). exact Hin.
  - exact Hb.
  - exact Hctx.
Defined.

(* --------------------------------------------------------------------- *)
(** ** Age groups                                                         *)
(* --------------------------------------------------------------------- *)


Lemma ageGroup_missing : ageGroup None = None.
Proof. reflexivity. Qed.

(** C1.  What line 19 does at the six ages the claim names: 19 and 20
    get no group, 29 and 30 get ["20-29"], 49 and 50 get ["40-49"]; in
    the pivot, a participant aged 20 is counted in no row and one aged
    50 is counted in the row ["40-49"]. *)
Theorem ageGroup_boundaries :
  ageGroup (Some 19) = None
  ∧ ageGroup (Some 20) = None
  ∧ ageGroup (Some 29) = Some "20-29"
  ∧ ageGroup (Some 30) = Some "20-29"
  ∧ ageGroup (Some 49) = Some "40-49"
  ∧ ageGroup (Some 50) = Some "40-49"
  ∧ Pivot.pivotDf [(Some 20, Some "Bachelors"); (Some 50, Some "Bachelors")]
    = [("20-29", [("Bachelors", 0)]);
       ("30-39", [("Bachelors", 0)]);
       ("40-49", [("Bachelors", 1)])].
Proof. repeat split; reflexivity. Qed.

(* --------------------------------------------------------------------- *)
(** ** Building locations                                                 *)
(* --------------------------------------------------------------------- *)



Lemma append_nil (s : string) : "" +:+ s = s.
Proof. reflexivity. Qed.

Lemma append_cons (c : ascii) (a b : string) : String c a +:+ b = String c (a +:+ b).
Proof. reflexivity. Qed.










Lemma res_map_raise {A B} (f : A -> Res B) (l : list A) (a : A) (e : Exn) :
  a ∈ l -> f a = Raise e -> ∃ e', res_map f l = Raise e'.
Proof.
  intros Hin Hf. induction l as [|b l IH]; [by apply elem_of_nil in Hin|].
  simpl. destruct (f b) as [v|e1] eqn:Hb; [|eauto].
  apply elem_of_cons in Hin as [->|Hin]; [congruence|].
  destruct (IH Hin) as [e' ->]. eauto.
Qed.

Lemma res_map_ok_length {A B} (f : A -> Res B) (l : list A) (r : list B) :
  res_map f l = Ok r -> List.length r = List.length l.
Proof.
  revert r. induction l as [|a l IH]; simpl; intros r Hr.
  - by inversion Hr.
  - destruct (f a); [|discriminate]. destruct (res_map f l); [|discriminate].
    inversion Hr; subst. simpl. f_equal. by apply IH.
Qed.

Lemma res_map_ok_Forall2 {A B} (f : A -> Res B) (l : list A) (r : list B) :
  res_map f l = Ok r <-> Forall2 (fun a b => f a = Ok b) l r.
Proof.
  revert r. induction l as [|a l IH]; simpl; intros r.
  - split; [intros [= <-]; constructor | by intros ->%Forall2_nil_inv_l].
  - split.
    + destruct (f a) as [b|] eqn:Ha; [|discriminate].
      destruct (res_map f l) as [bs|] eqn:Hl; [|discriminate].
      intros [= <-]. constructor; [done|]. by apply IH.
    + intros (b & bs & Hb & Hbs & ->)%Forall2_cons_inv_l.
      rewrite Hb. apply IH in Hbs. by rewrite Hbs.
Qed.

Section BuildingFacts.
Context `{PandasLib}.










End BuildingFacts.

Section BuildingExamples.
Local Existing Instance Demo.lib.



End BuildingExamples.

(* --------------------------------------------------------------------- *)
(** ** [groupby]: sums, keys, order                                       *)
(* --------------------------------------------------------------------- *)

Section KeyTotals.
Context {K : Type} `{EqDecision K}.
Implicit Types (k : K) (v : Z) (g rows : list (K * Z)).

Lemma sum_values_app rows1 rows2 :
  sum_values (rows1 ++ rows2) = sum_values rows1 + sum_values rows2.
Proof. induction rows1 as [|r rows1 IH]; simpl; lia. Qed.

Lemma key_total_cons k r rows :
  key_total k (r :: rows) = (if bool_decide (fst r = k) then snd r else 0) + key_total k rows.
Proof. unfold key_total. simpl. destruct (bool_decide (fst r = k)); simpl; lia. Qed.

Lemma key_total_nil k : key_total k ([] : list (K * Z)) = 0.
Proof. reflexivity. Qed.

Lemma key_total_app k rows1 rows2 :
  key_total k (rows1 ++ rows2) = key_total k rows1 + key_total k rows2.
Proof.
  induction rows1 as [|r rows1 IH]; [reflexivity|].
  change ((r :: rows1) ++ rows2) with (r :: (rows1 ++ rows2)).
  rewrite !key_total_cons, IH. lia.
Qed.

Lemma key_total_absent k g : k ∉ map fst g -> key_total k g = 0.
Proof.
  induction g as [|[k' v'] g IH]; [reflexivity|].
  simpl. intros Hnot. rewrite key_total_cons. simpl.
  rewrite bool_decide_eq_false_2 by set_solver.
  rewrite IH by set_solver. lia.
Qed.

(** With one group per key, the value of a group is the total of its
    key. *)
Lemma NoDup_key_total k v g :
  NoDup (map fst g) -> (k, v) ∈ g -> key_total k g = v.
Proof.
  induction g as [|[k' v'] g IH]; simpl; [by intros _ ?%elem_of_nil|].
  intros [Hnot Hnd]%NoDup_cons Hin. rewrite key_total_cons. simpl.
  apply elem_of_cons in Hin as [[= <- <-]|Hin].
  - rewrite bool_decide_eq_true_2 by reflexivity.
    rewrite key_total_absent by exact Hnot. lia.
  - rewrite bool_decide_eq_false_2.
    + rewrite (IH Hnd Hin). lia.
    + intros ->. apply Hnot. apply list_elem_of_fmap. by exists (k, v).
Qed.

(** The number of occurrences of a key, as a total of ones. *)
Lemma key_total_ones k (keys : list K) :
  key_total k (map (fun k' => (k', 1)) keys)
  = Z.of_nat (List.length (List.filter (fun k' => bool_decide (k' = k)) keys)).
Proof.
  induction keys as [|k' keys IH]; [reflexivity|].
  simpl. rewrite key_total_cons, IH. simpl.
  destruct (bool_decide (k' = k)); simpl; lia.
Qed.

Lemma sum_values_ones (keys : list K) :
  sum_values (map (fun k' => (k', 1)) keys) = Z.of_nat (List.length keys).
Proof. induction keys as [|k' keys IH]; [reflexivity|]. simpl in *. lia. Qed.

End KeyTotals.

Section GroupByFacts.
Context {K : Type} `{EqDecision K} (cmp : K -> K -> comparison) `{!KeyOrder cmp}.
Implicit Types (k : K) (v : Z) (g rows : list (K * Z)).

(** Adding to a group adds to the grand total. *)
Lemma sum_values_group_add k v g :
  sum_values (group_add cmp k v g) = sum_values g + v.
Proof.
  induction g as [|[k' v'] g IH]; simpl; [lia|].
  destruct (cmp k k'); simpl; lia.
Qed.

(** It adds to the total of its own key and to no other. *)
Lemma key_total_group_add k0 k v g :
  key_total k0 (group_add cmp k v g)
  = key_total k0 g + (if bool_decide (k = k0) then v else 0).
Proof.
  induction g as [|[k' v'] g IH].
  - simpl. rewrite key_total_cons, key_total_nil. simpl. lia.
  - simpl. destruct (cmp k k') eqn:Hc.
    + apply cmp_eq in Hc as ->. rewrite !key_total_cons. simpl.
      destruct (bool_decide (k' = k0)); lia.
    + rewrite (key_total_cons k0 (k, v)). simpl. lia.
    + rewrite !key_total_cons, IH. simpl. lia.
Qed.

Lemma keys_group_add k0 k v g :
  k0 ∈ map fst (group_add cmp k v g) <-> k0 = k ∨ k0 ∈ map fst g.
Proof.
  induction g as [|[k' v'] g IH]; simpl.
  - rewrite list_elem_of_singleton. set_solver.
  - destruct (cmp k k') eqn:Hc; simpl.
    + apply cmp_eq in Hc as ->. set_solver.
    + set_solver.
    + rewrite !elem_of_cons, IH. tauto.
Qed.

Lemma HdRel_group_add k v k1 v1 g :
  cmp k1 k = Lt ->
  HdRel (fun a b => cmp (fst a) (fst b) = Lt) (k1, v1) g ->
  HdRel (fun a b => cmp (fst a) (fst b) = Lt) (k1, v1) (group_add cmp k v g).
Proof.
  intros Hk Hhd. destruct g as [|[k' v'] g]; simpl; [by constructor|].
  inversion Hhd; subst. destruct (cmp k k'); by constructor.
Qed.

(** The groups stay in strictly ascending key order. *)
Lemma ascending_group_add k v g :
  ascending cmp g -> ascending cmp (group_add cmp k v g).
Proof.
  unfold ascending. induction 1 as [|[k' v'] g Hs IH Hhd]; simpl.
  - repeat constructor.
  - destruct (cmp k k') eqn:Hc.
    + constructor; [exact Hs|]. destruct Hhd; by constructor.
    + repeat constructor; assumption.
    + constructor; [exact IH|]. apply HdRel_group_add; [|exact Hhd].
      rewrite cmp_antisym, Hc. reflexivity.
Qed.

Lemma groupby_sum_fold rows g :
  let result := fold_left (fun groups '(k, v) => group_add cmp k v groups) rows g in
  sum_values result = sum_values g + sum_values rows
  ∧ (∀ k, key_total k result = key_total k g + key_total k rows)
  ∧ (∀ k, k ∈ map fst result <-> k ∈ map fst g ∨ k ∈ map fst rows)
  ∧ (ascending cmp g -> ascending cmp result).
Proof.
  revert g. induction rows as [|[k v] rows IH]; intros g; simpl.
  - repeat split; try lia; try tauto.
    + intros k. rewrite key_total_nil. lia.
    + set_solver.
  - destruct (IH (group_add cmp k v g)) as (Hsum & Htot & Hkeys & Hasc).
    simpl in *. repeat split.
    + rewrite Hsum, sum_values_group_add. lia.
    + intros k0. rewrite Htot, key_total_group_add, key_total_cons. simpl.
      lia.
    + rewrite Hkeys, keys_group_add. set_solver.
    + rewrite Hkeys, keys_group_add. set_solver.
    + intros Hg. apply Hasc, ascending_group_add, Hg.
Qed.

(** [groupby_sum] conserves the grand total. *)
Lemma sum_values_groupby_sum rows :
  sum_values (groupby_sum cmp rows) = sum_values rows.
Proof. destruct (groupby_sum_fold rows []) as (H1 & _). exact H1. Qed.

Lemma key_total_groupby_sum k rows :
  key_total k (groupby_sum cmp rows) = key_total k rows.
Proof.
  destruct (groupby_sum_fold rows []) as (_ & H1 & _).
  unfold groupby_sum. rewrite (H1 k), key_total_nil. lia.
Qed.

Lemma keys_groupby_sum k rows :
  k ∈ map fst (groupby_sum cmp rows) <-> k ∈ map fst rows.
Proof.
  destruct (groupby_sum_fold rows []) as (_ & _ & H1 & _).
  unfold groupby_sum. rewrite (H1 k). set_solver.
Qed.

Lemma ascending_groupby_sum rows : ascending cmp (groupby_sum cmp rows).
Proof.
  destruct (groupby_sum_fold rows []) as (_ & _ & _ & H1). apply H1. constructor.
Qed.

End GroupByFacts.

Section AscendingFacts.
Context {K : Type} `{EqDecision K} (cmp : K -> K -> comparison) `{!KeyOrder cmp}.
Implicit Types (k : K) (v : Z) (g rows : list (K * Z)).

Local Instance key_lt_trans : Transitive (fun a b : K * Z => cmp (fst a) (fst b) = Lt).
Proof. intros a b c. apply cmp_lt_trans. Qed.

Lemma ascending_strongly g :
  ascending cmp g -> StronglySorted (fun a b => cmp (fst a) (fst b) = Lt) g.
Proof. apply Sorted_StronglySorted. apply _. Qed.

Lemma cmp_lt_neq k1 k2 : cmp k1 k2 = Lt -> k1 ≠ k2.
Proof. intros Hlt ->. rewrite cmp_refl in Hlt. discriminate. Qed.

(** One group per key. *)
Lemma ascending_NoDup g : ascending cmp g -> NoDup (map fst g).
Proof.
  intros Hs%ascending_strongly. induction Hs as [|[k v] g Hs IH Hall]; simpl.
  - constructor.
  - constructor; [|exact IH].
    intros ([k' v'] & Heq & Hin)%list_elem_of_fmap. simpl in Heq. subst k'.
    rewrite List.Forall_forall in Hall. apply list_elem_of_In in Hin.
    specialize (Hall _ Hin). simpl in Hall. by apply cmp_lt_neq in Hall.
Qed.

(** The rows of a [groupby(...).sum()]: one for each key that occurs,
    with the total of that key. *)
Lemma elem_of_groupby_sum k v rows :
  (k, v) ∈ groupby_sum cmp rows <-> k ∈ map fst rows ∧ v = key_total k rows.
Proof.
  pose proof (ascending_NoDup _ (ascending_groupby_sum cmp rows)) as Hnd.
  split.
  - intros Hin. split.
    + apply (keys_groupby_sum cmp). apply list_elem_of_fmap. by exists (k, v).
    + rewrite <- (key_total_groupby_sum cmp). symmetry. by apply NoDup_key_total.
  - intros [Hk ->]. apply (keys_groupby_sum cmp) in Hk.
    apply list_elem_of_fmap in Hk as ([k' v'] & Heq & Hin). simpl in Heq. subst k'.
    rewrite <- (key_total_groupby_sum cmp).
    by rewrite (NoDup_key_total _ _ _ Hnd Hin).
Qed.

(** Two groupings of the same rows in a different order are equal. *)
Lemma groupby_sum_Permutation rows1 rows2 :
  rows1 ≡ₚ rows2 -> groupby_sum cmp rows1 = groupby_sum cmp rows2.
Proof.
  intros Hperm.
  assert (Htot : ∀ k, key_total k rows1 = key_total k rows2).
  { intros k. induction Hperm as [|r l1 l2 _ IH|r1 r2 l|l1 l2 l3 _ IH1 _ IH2].
    - reflexivity.
    - rewrite !key_total_cons, IH. reflexivity.
    - rewrite !key_total_cons. lia.
    - congruence. }
  apply (StronglySorted_unique_strong (fun a b : K * Z => cmp (fst a) (fst b) = Lt)).
  - intros a b _ _ Hab Hba. pose proof (cmp_antisym (fst a) (fst b)) as Has.
    rewrite Hab, Hba in Has. discriminate.
  - apply ascending_strongly, ascending_groupby_sum; assumption.
  - apply ascending_strongly, ascending_groupby_sum; assumption.
  - apply NoDup_Permutation.
    + eapply NoDup_fmap_1, ascending_NoDup, ascending_groupby_sum; assumption.
    + eapply NoDup_fmap_1, ascending_NoDup, ascending_groupby_sum; assumption.
    + intros [k v]. rewrite !elem_of_groupby_sum, Htot.
      assert (map fst rows1 ≡ₚ map fst rows2) as Hk by (by apply fmap_Permutation).
      by rewrite Hk.
Qed.

End AscendingFacts.

#[local] Instance Z_compare_order : KeyOrder Z.compare.
Proof.
  split.
  - apply Z.compare_eq.
  - apply Z.compare_refl.
  - intros a b. apply Z.compare_antisym.
  - intros a b c. rewrite !Z.compare_lt_iff. lia.
Qed.

#[local] Instance pair_compare_order : KeyOrder pair_compare.
Proof.
  split; unfold pair_compare.
  - intros [a1 a2] [b1 b2]; simpl.
    destruct (Z.compare_spec a1 b1); try discriminate.
    intros ->%Z.compare_eq. by subst.
  - intros [a1 a2]; simpl. by rewrite !Z.compare_refl.
  - intros [a1 a2] [b1 b2]; simpl.
    rewrite (Z.compare_antisym a1 b1), (Z.compare_antisym a2 b2).
    destruct (a1 ?= b1); reflexivity.
  - intros [a1 a2] [b1 b2] [c1 c2]; simpl.
    destruct (Z.compare_spec a1 b1), (Z.compare_spec b1 c1), (Z.compare_spec a1 c1);
      rewrite ?Z.compare_lt_iff; try discriminate; try lia; done.
Qed.

(* --------------------------------------------------------------------- *)
(** ** The social graph                                                   *)
(* --------------------------------------------------------------------- *)

Lemma StronglySorted_weaken {A} (R R' : relation A) (l : list A) :
  (∀ a b, R a b -> R' a b) -> StronglySorted R l -> StronglySorted R' l.
Proof.
  intros HR. induction 1 as [|a l _ IH Hall]; constructor; [exact IH|].
  eapply List.Forall_impl; [|exact Hall]. intros b. apply HR.
Qed.

Section SocialFacts.
Import Social.
Implicit Types (events : list Event) (e : Edge).

Lemma group_key_Some ev k : group_key ev = Some k <-> ev = (Some (fst k), Some (snd k)).
Proof.
  destruct ev as [[f|] [t|]], k as [kf kt]; simpl; split; intros Heq;
    try discriminate; by inversion Heq.
Qed.

Lemma count_keys (k : Z * Z) events :
  List.length (List.filter (fun k' => bool_decide (k' = k)) (omap group_key events))
  = List.length (List.filter (fun ev => bool_decide (ev = (Some (fst k), Some (snd k)))) events).
Proof.
  induction events as [|ev events IH]; [reflexivity|].
  cbn [omap list_omap List.filter].
  destruct (group_key ev) as [k'|] eqn:Hk.
  - cbn [List.filter].
    destruct (decide (k' = k)) as [->|Hne].
    + apply group_key_Some in Hk as ->.
      rewrite !bool_decide_eq_true_2 by reflexivity. simpl. by rewrite IH.
    + rewrite !bool_decide_eq_false_2; [exact IH| |exact Hne].
      intros Hev. apply Hne. apply group_key_Some in Hev. congruence.
  - rewrite bool_decide_eq_false_2; [exact IH|].
    intros Hev%group_key_Some. congruence.
Qed.

(** Line 23: one edge for each pair that occurs with both
    identifiers, weighted by the number of its rows. *)
Lemma elem_of_edgesWithFrequency e events :
  e ∈ edgesWithFrequency events
  <-> (Some (participantIdFrom e), Some (participantIdTo e)) ∈ events
      ∧ weight e = occurrences (participantIdFrom e) (participantIdTo e) events.
Proof.
  destruct e as [[f t] w]. unfold edgesWithFrequency, groupby_size.
  rewrite (elem_of_groupby_sum pair_compare), key_total_ones, count_keys.
  unfold participantIdFrom, participantIdTo, weight, occurrences. simpl.
  rewrite map_map. simpl. rewrite map_id.
  rewrite list_elem_of_omap. split.
  - intros [(ev & Hin & Hk%group_key_Some) ->]. simpl in Hk. by subst ev.
  - intros [Hin ->]. split; [|reflexivity].
    exists (Some f, Some t). by split.
Qed.

Lemma edge_weight_positive e events : e ∈ edgesWithFrequency events -> 0 < weight e.
Proof.
  intros [Hin ->]%elem_of_edgesWithFrequency. unfold occurrences.
  apply list_elem_of_In in Hin.
  assert (In (Some (participantIdFrom e), Some (participantIdTo e))
            (List.filter (fun ev => bool_decide
               (ev = (Some (participantIdFrom e), Some (participantIdTo e)))) events)) as Hf.
  { apply filter_In. split; [exact Hin|]. by apply bool_decide_eq_true_2. }
  match goal with |- context [List.length ?l] => destruct l end;
    [destruct Hf|]. simpl. lia.
Qed.

Lemma length_complete events :
  List.length (omap group_key events) = List.length (List.filter complete events).
Proof.
  induction events as [|ev events IH]; [reflexivity|].
  cbn [omap list_omap List.filter]. unfold complete at 1.
  destruct (group_key ev); simpl; by rewrite IH.
Qed.

(** The weights add up to the number of rows that have both
    identifiers. *)
Lemma total_weight_edges events :
  sum_values (edgesWithFrequency events)
  = Z.of_nat (List.length (List.filter complete events)).
Proof.
  unfold edgesWithFrequency, groupby_size.
  rewrite (sum_values_groupby_sum pair_compare), sum_values_ones, length_complete.
  reflexivity.
Qed.

Lemma key_total_outgoing (p : Z) (edges : list Edge) :
  key_total p (map (fun e => (participantIdFrom e, weight e)) edges)
  = outgoing_weight p edges.
Proof.
  unfold outgoing_weight. induction edges as [|e edges IH]; [reflexivity|].
  cbn [map List.filter]. rewrite key_total_cons, IH. cbn [fst snd].
  destruct (Z.eqb_spec (participantIdFrom e) p) as [Heq|Hne].
  - rewrite bool_decide_eq_true_2 by exact Heq. reflexivity.
  - rewrite bool_decide_eq_false_2 by exact Hne. lia.
Qed.

(** Line 26: one row for each participant with an outgoing edge,
    holding the sum of the weights of those edges. *)
Lemma elem_of_participantInteractions (p tw : Z) events :
  (p, tw) ∈ participantInteractions events
  <-> (∃ e, e ∈ edgesWithFrequency events ∧ participantIdFrom e = p)
      ∧ tw = outgoing_weight p (edgesWithFrequency events).
Proof.
  unfold participantInteractions.
  rewrite (elem_of_groupby_sum Z.compare), key_total_outgoing, map_map. simpl.
  rewrite list_elem_of_fmap. split.
  - intros [(e & -> & Hin) ->]. split; [by exists e|reflexivity].
  - intros [(e & Hin & <-) ->]. split; [by exists e|reflexivity].
Qed.

Lemma participantInteractions_NoDup events :
  NoDup (map fst (participantInteractions events)).
Proof. apply (ascending_NoDup Z.compare), ascending_groupby_sum. apply _. Qed.

Lemma participantInteractions_ascending events :
  StronglySorted (fun a b : Z * Z => fst a < fst b) (participantInteractions events).
Proof.
  pose proof (ascending_strongly Z.compare _
                (ascending_groupby_sum Z.compare
                   (map (fun e => (participantIdFrom e, weight e))
                      (edgesWithFrequency events)))) as Hs.
  unfold participantInteractions.
  eapply StronglySorted_weaken; [|exact Hs].
  intros a b. simpl. by rewrite Z.compare_lt_iff.
Qed.

End SocialFacts.

Section NLargestFacts.
Import Social.
Implicit Types (row : Z * Z) (rows sorted : list (Z * Z)).

Lemma insert_desc_Permutation row sorted : insert_desc row sorted ≡ₚ row :: sorted.
Proof.
  induction sorted as [|r sorted IH]; simpl; [reflexivity|].
  destruct (snd r <? snd row); [reflexivity|].
  rewrite IH. apply Permutation_swap.
Qed.

(** A row with a larger identifier than all the rows placed so far
    finds its place in the order of selection. *)
Lemma insert_desc_sorted row sorted :
  StronglySorted before sorted ->
  Forall (fun r => fst r < fst row) sorted ->
  StronglySorted before (insert_desc row sorted).
Proof.
  induction 1 as [|r sorted Hs IH Hall]; simpl; intros Hids.
  - repeat constructor.
  - apply Forall_cons in Hids as [Hr Hids].
    destruct (Z.ltb_spec (snd r) (snd row)) as [Hlt|Hge].
    + constructor; [by constructor|].
      constructor; [by left|].
      eapply List.Forall_impl; [|exact Hall].
      intros x Hx. left. destruct Hx as [Hx|[Hx _]]; lia.
    + constructor; [by apply IH|].
      rewrite insert_desc_Permutation. constructor; [|exact Hall].
      unfold before. lia.
Qed.

Lemma sort_desc_fold rows sorted :
  StronglySorted before sorted ->
  StronglySorted (fun a b => fst a < fst b) rows ->
  (∀ a b, a ∈ sorted -> b ∈ rows -> fst a < fst b) ->
  let result := fold_left (fun sorted row => insert_desc row sorted) rows sorted in
  StronglySorted before result ∧ result ≡ₚ sorted ++ rows.
Proof.
  revert sorted. induction rows as [|row rows IH]; intros sorted Hs Hrows Hlt; simpl.
  - split; [exact Hs|]. by rewrite app_nil_r.
  - apply StronglySorted_inv in Hrows as [Hrows Hrow].
    destruct (IH (insert_desc row sorted)) as [Hres Hperm].
    + apply insert_desc_sorted; [exact Hs|].
      apply Forall_forall. intros a Ha. apply Hlt; [exact Ha|]. by left.
    + exact Hrows.
    + intros a b Ha Hb. rewrite insert_desc_Permutation in Ha.
      apply elem_of_cons in Ha as [->|Ha].
      * rewrite List.Forall_forall in Hrow. apply Hrow. by apply list_elem_of_In.
      * apply Hlt; [exact Ha|]. by right.
    + split; [exact Hres|].
      rewrite Hperm, insert_desc_Permutation. simpl. apply Permutation_middle.
Qed.

(** On rows in ascending order of identifier, [nlargest] takes a
    prefix of the rows in the order of selection. *)
Lemma nlargest_split (n : nat) rows :
  StronglySorted (fun a b => fst a < fst b) rows ->
  ∃ rest, StronglySorted before (nlargest n rows ++ rest)
          ∧ nlargest n rows ++ rest ≡ₚ rows
          ∧ List.length (nlargest n rows) = Nat.min n (List.length rows).
Proof.
  intros Hrows. unfold nlargest.
  destruct (sort_desc_fold rows [] (SSorted_nil _) Hrows) as [Hs Hperm].
  { intros a b Ha. by apply elem_of_nil in Ha. }
  simpl in Hs, Hperm.
  exists (drop n (fold_left (fun sorted row => insert_desc row sorted) rows [])).
  rewrite take_drop. split; [exact Hs|]. split; [exact Hperm|].
  rewrite length_take, Hperm. reflexivity.
Qed.

End NLargestFacts.

Section SocialGraphTheorems.
Import Social.
Implicit Types (events : list Event) (e : Edge).

Lemma isin_spec (v : Z) (values : list Z) : isin v values = true <-> v ∈ values.
Proof.
  unfold isin. rewrite existsb_exists. split.
  - intros (x & Hin & ->%Z.eqb_eq). by apply list_elem_of_In.
  - intros Hin. exists v. split; [by apply list_elem_of_In|apply Z.eqb_refl].
Qed.

Lemma NoDup_keys_functional {K} `{EqDecision K} (k : K) (v v' : Z) (g : list (K * Z)) :
  NoDup (map fst g) -> (k, v) ∈ g -> (k, v') ∈ g -> v = v'.
Proof.
  intros Hnd Hv Hv'.
  rewrite <- (NoDup_key_total k v g Hnd Hv). by apply NoDup_key_total.
Qed.

Lemma topParticipants_elem (p : Z) events :
  p ∈ topParticipants events
  <-> ∃ tw, (p, tw) ∈ nlargest 10 (participantInteractions events).
Proof.
  unfold topParticipants. rewrite list_elem_of_fmap. split.
  - intros ([p' tw] & -> & Hin). by exists tw.
  - intros [tw Hin]. by exists (p, tw).
Qed.

(** Whoever is selected comes, in the order of selection, before
    whoever is not. *)
Lemma topParticipants_before events (p q wp wq : Z) :
  (p, wp) ∈ participantInteractions events ->
  (q, wq) ∈ participantInteractions events ->
  p ∈ topParticipants events ->
  q ∉ topParticipants events ->
  before (p, wp) (q, wq).
Proof.
  intros Hp Hq Htop Hnot.
  destruct (nlargest_split 10 _ (participantInteractions_ascending events))
    as (rest & Hs & Hperm & _).
  apply topParticipants_elem in Htop as [wp' Hp'].
  assert (wp' = wp) as ->.
  { apply (NoDup_keys_functional p wp' wp (participantInteractions events));
      [apply participantInteractions_NoDup| |exact Hp].
    rewrite <- Hperm. apply elem_of_app. by left. }
  rewrite <- Hperm in Hq. apply elem_of_app in Hq as [Hq|Hq].
  - exfalso. apply Hnot. apply topParticipants_elem. by exists wq.
  - eapply StronglySorted_app_1_elem_of; [exact Hs|exact Hp'|exact Hq].
Qed.

Lemma topParticipants_shape events :
  List.length (topParticipants events)
    = Nat.min 10 (List.length (participantInteractions events))
  ∧ NoDup (topParticipants events)
  ∧ (∀ p, p ∈ topParticipants events -> p ∈ map fst (participantInteractions events)).
Proof.
  destruct (nlargest_split 10 _ (participantInteractions_ascending events))
    as (rest & Hs & Hperm & Hlen).
  pose proof (participantInteractions_NoDup events) as Hnd.
  assert (map fst (nlargest 10 (participantInteractions events)) ++ map fst rest
          ≡ₚ map fst (participantInteractions events)) as Hkeys.
  { rewrite <- map_app. by apply fmap_Permutation. }
  unfold topParticipants. split; [|split].
  - rewrite length_map. exact Hlen.
  - rewrite <- Hkeys in Hnd. by apply NoDup_app in Hnd as (Hnd & _).
  - intros p Hp. rewrite <- Hkeys. apply elem_of_app. by left.
Qed.

Lemma elem_of_filteredEdges e events :
  e ∈ filteredEdges events
  <-> e ∈ edgesWithFrequency events
      ∧ (participantIdFrom e ∈ topParticipants events
         ∨ participantIdTo e ∈ topParticipants events)
      ∧ 200 < weight e.
Proof.
  unfold filteredEdges.
  rewrite !list_elem_of_In, !filter_In, <- !list_elem_of_In.
  rewrite Z.ltb_lt, orb_true_iff, !isin_spec. tauto.
Qed.

Lemma elem_of_nodes (n : Z) events :
  n ∈ nodes events
  <-> ∃ e, e ∈ filteredEdges events ∧ (n = participantIdFrom e ∨ n = participantIdTo e).
Proof.
  unfold nodes. rewrite elem_of_union, !elem_of_list_to_set, !list_elem_of_fmap.
  split.
  - intros [(e & -> & Hin)|(e & -> & Hin)]; exists e; tauto.
  - intros (e & Hin & [->| ->]); [left|right]; by exists e.
Qed.

(** C3.  The edges are the pairs that occur (with both identifiers),
    weighted by their number of rows; a participant's total is the
    sum of the weights of the edges that leave them; the top
    participants are ten of them (all, if there are fewer), none of
    whom has a smaller total than one left out; an edge is kept
    exactly when it touches a top participant and weighs more than
    200, so an edge between two others is dropped whatever it
    weighs; the nodes are the endpoints of the kept edges. *)
Theorem social_graph_construction events :
  (∀ e, e ∈ edgesWithFrequency events
        <-> (Some (participantIdFrom e), Some (participantIdTo e)) ∈ events
            ∧ weight e = occurrences (participantIdFrom e) (participantIdTo e) events)
  ∧ (∀ p tw, (p, tw) ∈ participantInteractions events
             <-> (∃ e, e ∈ edgesWithFrequency events ∧ participantIdFrom e = p)
                 ∧ tw = outgoing_weight p (edgesWithFrequency events))
  ∧ List.length (topParticipants events)
      = Nat.min 10 (List.length (participantInteractions events))
  ∧ NoDup (topParticipants events)
  ∧ (∀ p, p ∈ topParticipants events -> p ∈ map fst (participantInteractions events))
  ∧ (∀ p q wp wq,
       (p, wp) ∈ participantInteractions events ->
       (q, wq) ∈ participantInteractions events ->
       p ∈ topParticipants events -> q ∉ topParticipants events -> wq <= wp)
  ∧ (∀ e, e ∈ filteredEdges events
          <-> e ∈ edgesWithFrequency events
              ∧ (participantIdFrom e ∈ topParticipants events
                 ∨ participantIdTo e ∈ topParticipants events)
              ∧ 200 < weight e)
  ∧ (∀ e, participantIdFrom e ∉ topParticipants events ->
          participantIdTo e ∉ topParticipants events ->
          e ∉ filteredEdges events)
  ∧ (∀ n, n ∈ nodes events
          <-> ∃ e, e ∈ filteredEdges events
                   ∧ (n = participantIdFrom e ∨ n = participantIdTo e)).
Proof.
  destruct (topParticipants_shape events) as (Hlen & Hnd & Hsub).
  split; [intros e; apply elem_of_edgesWithFrequency|].
  split; [intros p tw; apply elem_of_participantInteractions|].
  split; [exact Hlen|]. split; [exact Hnd|]. split; [exact Hsub|].
  split.
  { intros p q wp wq Hp Hq Htop Hnot.
    destruct (topParticipants_before events p q wp wq Hp Hq Htop Hnot) as [?|[? _]];
      simpl in *; lia. }
  split; [intros e; apply elem_of_filteredEdges|].
  split.
  { intros e Hf Ht (_ & [?|?] & _)%elem_of_filteredEdges; tauto. }
  intros n. apply elem_of_nodes.
Qed.

End SocialGraphTheorems.

(** Settle a decidable closed proposition by running its decision
    procedure. *)
Ltac by_computation :=
  match goal with
  | |- ?P => apply (bool_decide_unpack P); vm_compute; exact I
  end.

Section SocialGraphExamples.
Import Social.

Lemma social_graph_construction_witness :
  (11, 12, 300) ∈ edgesWithFrequency events_heavy
  ∧ (11, 12, 300) ∉ filteredEdges events_heavy
  ∧ (1, 0, 301) ∈ filteredEdges events_heavy
  ∧ 300 <= 301.
Proof.
  destruct (social_graph_construction events_heavy)
    as (_ & _ & _ & _ & _ & Hdom & Hkeep & Hdrop & _).
  split; [|split; [|split]].
  - by_computation.
  - apply Hdrop; by_computation.
  - apply Hkeep. split; [|split].
    + by_computation.
    + left. by_computation.
    + reflexivity.
  - apply (Hdom 1 11 301 300); by_computation.
Defined.

(** C6.  Between a participant who is selected and one who is not,
    the selected one has the larger total or, at equal totals, the
    smaller identifier; and the selection does not depend on the
    order of the rows of the table. *)
Theorem topParticipants_tie_break (events : list Event) :
  (∀ p q wp wq,
     (p, wp) ∈ participantInteractions events ->
     (q, wq) ∈ participantInteractions events ->
     p ∈ topParticipants events -> q ∉ topParticipants events ->
     wq < wp ∨ (wq = wp ∧ p < q))
  ∧ (∀ events', events ≡ₚ events' -> topParticipants events' = topParticipants events).
Proof.
  split.
  - intros p q wp wq Hp Hq Htop Hnot.
    destruct (topParticipants_before events p q wp wq Hp Hq Htop Hnot) as [?|[? ?]];
      simpl in *; [left|right]; lia.
  - intros events' Hperm. unfold topParticipants, participantInteractions.
    assert (edgesWithFrequency events' = edgesWithFrequency events) as ->; [|reflexivity].
    unfold edgesWithFrequency, groupby_size. symmetry.
    apply (groupby_sum_Permutation pair_compare).
    apply fmap_Permutation. by rewrite Hperm.
Qed.

Lemma topParticipants_tie_break_witness :
  topParticipants events_tied = [12; 1; 2; 3; 4; 5; 6; 7; 8; 9]
  ∧ (1 < 1 ∨ (1 = 1 ∧ 9 < 10))
  ∧ topParticipants (reverse events_tied) = topParticipants events_tied.
Proof.
  destruct (topParticipants_tie_break events_tied) as [Htie Hperm].
  split; [reflexivity|]. split.
  - apply (Htie 9 10 1 1); by_computation.
  - apply Hperm. symmetry. apply reverse_Permutation.
Defined.

(** C10, as the code has it.  The weights of the edges add up to the
    number of rows that have both identifiers; every participant's
    total is the sum of the weights of the edges that leave them, and
    the totals add up to the same number. *)
Theorem edge_weight_conservation (events : list Event) :
  sum_values (edgesWithFrequency events)
    = Z.of_nat (List.length (List.filter complete events))
  ∧ Forall (fun row => snd row = outgoing_weight (fst row) (edgesWithFrequency events))
      (participantInteractions events)
  ∧ sum_values (participantInteractions events) = sum_values (edgesWithFrequency events).
Proof.
  split; [apply total_weight_edges|]. split.
  - apply Forall_forall. intros [p tw] Hin.
    by apply elem_of_participantInteractions in Hin as [_ ->].
  - unfold participantInteractions.
    rewrite (sum_values_groupby_sum Z.compare).
    induction (edgesWithFrequency events) as [|e l IH]; [reflexivity|].
    simpl in *. unfold weight at 1. lia.
Qed.

(** A row without a receiver is in the table and in no edge. *)
Lemma edge_weights_skip_incomplete_rows :
  events_of [("participantIdFrom", [Int 1; Int 2]); ("participantIdTo", [Int 2; NaN])]
    = Ok events_with_gap
  ∧ edgesWithFrequency events_with_gap = [((1, 2), 1)]
  ∧ sum_values (edgesWithFrequency events_with_gap) = 1
  ∧ Z.of_nat (List.length events_with_gap) = 2
  ∧ sum_values (edgesWithFrequency events_with_gap)
    ≠ Z.of_nat (List.length events_with_gap).
Proof. repeat split. by vm_compute. Qed.

End SocialGraphExamples.

(* --------------------------------------------------------------------- *)
(** ** Script steps: what they leave alone                                *)
(* --------------------------------------------------------------------- *)

Section Confinement.
Context `{PandasLib}.
Implicit Types (S : ref -> Prop) (w : World) (r : ref) (d : DataFrame).

Lemma confined_ret {A} S (a : A) : confined S (ret a).
Proof. intros w. simpl. auto. Qed.

Lemma confined_raise {A} S (e : Exn) : confined S (raise (A := A) e).
Proof. intros w. simpl. auto. Qed.

Lemma confined_lift {A} S (x : Res A) : confined S (lift x).
Proof. destruct x; [apply confined_ret|apply confined_raise]. Qed.

Lemma confined_bind {A B} S (m : M A) (f : A -> M B) :
  confined S m -> (forall a, confined S (f a)) -> confined S (bind m f).
Proof.
  intros Hm Hf w. unfold bind. destruct (Hm w) as (Hp & Hl & Hh).
  destruct (m w) as [[a|e] w1]; simpl in *; [|auto].
  destruct (Hf a w1) as (Hp' & Hl' & Hh'). split; [congruence|]. split; [lia|].
  intros r d Hr HS. apply Hh'; [|exact HS]. by apply Hh.
Qed.

Lemma confined_alloc S d : confined S (alloc d).
Proof.
  intros w. simpl. split; [reflexivity|]. split.
  - rewrite length_app. lia.
  - intros r d' Hr _. by apply lookup_app_l_Some.
Qed.

Lemma confined_deref S r : confined S (deref r).
Proof. intros w. unfold deref. destruct (heap w !! r); simpl; auto. Qed.

Lemma confined_store S r d : S r -> confined S (store r d).
Proof.
  intros HS w. simpl. split; [reflexivity|]. split.
  - by rewrite length_insert.
  - intros r' d' Hr' HnS. rewrite list_lookup_insert_ne; [exact Hr'|].
    intros ->. by apply HnS.
Qed.

Lemma confined_weaken {A} S S' (m : M A) :
  (forall r, S r -> S' r) -> confined S m -> confined S' m.
Proof.
  intros Hsub Hm w. destruct (Hm w) as (Hp & Hl & Hh). split; [exact Hp|].
  split; [exact Hl|]. intros r d Hr HnS. apply Hh; [exact Hr|]. intros HS. by apply HnS, Hsub.
Qed.

Lemma confined_for_each {A} S (xs : list A) (body : A -> M unit) :
  (forall x, x ∈ xs -> confined S (body x)) -> confined S (for_each xs body).
Proof.
  induction xs as [|x xs IH]; intros Hbody; simpl.
  - apply confined_ret.
  - apply confined_bind; [apply Hbody; by left|].
    intros _. apply IH. intros y Hy. apply Hbody. by right.
Qed.

Lemma confined_list_comprehension {A B} S (xs : list A) (f : A -> M B) :
  (forall x, confined S (f x)) -> confined S (list_comprehension xs f).
Proof.
  intros Hf. induction xs as [|x xs IH]; simpl.
  - apply confined_ret.
  - apply confined_bind; [apply Hf|]. intros b.
    apply confined_bind; [exact IH|]. intros bs. apply confined_ret.
Qed.

Lemma confined_dict_comprehension S (ks : list string) (f : string -> M ref) (dict : Dict) :
  (forall k, confined S (f k)) -> confined S (dict_comprehension ks f dict).
Proof.
  intros Hf. revert dict. induction ks as [|k ks IH]; intros dict; simpl.
  - apply confined_ret.
  - apply confined_bind; [apply Hf|]. intros v. apply IH.
Qed.

Lemma confined_read_csv S (ds : Datasets) (path : string) : confined S (read_csv ds path).
Proof.
  unfold read_csv. destruct (csv_files ds !! path); [apply confined_alloc|apply confined_raise].
Qed.

Lemma confined_read_pickle S (path : string) : confined S (read_pickle path).
Proof.
  intros w. unfold read_pickle. destruct (pickles w !! path) as [blob|]; [|simpl; auto].
  destruct (pickle_loads blob); [apply confined_alloc|simpl; auto].
Qed.

Lemma confined_listdir S (ds : Datasets) (dir : string) : confined S (listdir ds dir).
Proof.
  unfold listdir. destruct (directories ds !! dir); [apply confined_ret|apply confined_raise].
Qed.

Lemma confined_method_dropna S r : confined S (method_dropna r).
Proof.
  unfold method_dropna. apply confined_bind; [apply confined_deref|].
  intros d. apply confined_alloc.
Qed.

Lemma confined_pd_concat S (frames : list ref) : confined S (pd_concat frames).
Proof.
  unfold pd_concat. apply confined_bind.
  - apply confined_list_comprehension. intros r. apply confined_deref.
  - intros [|d ds]; [apply confined_raise|apply confined_alloc].
Qed.

Lemma confined_frame_getitem S r (col : string) : confined S (frame_getitem r col).
Proof.
  unfold frame_getitem. apply confined_bind; [apply confined_deref|].
  intros d. destruct (Frame.getitem d col); [apply confined_ret|apply confined_raise].
Qed.

Lemma confined_frame_setitem S r (col : string) (cells : list Cell) :
  S r -> confined S (frame_setitem r col cells).
Proof.
  intros HS. unfold frame_setitem. apply confined_bind; [apply confined_deref|].
  intros d. by apply confined_store.
Qed.

Lemma confined_convertToDatetime S r (columns : list string) :
  S r -> confined S (convertToDatetime r columns).
Proof.
  intros HS. unfold convertToDatetime. apply confined_bind; [|intros _; apply confined_ret].
  apply confined_for_each. intros col _.
  apply confined_bind; [apply confined_deref|]. intros d.
  destruct (existsb _ _); [|apply confined_ret].
  apply confined_bind; [apply confined_frame_getitem|]. intros cells.
  apply confined_bind; [apply confined_lift|]. intros converted.
  by apply confined_frame_setitem.
Qed.

Lemma confined_drop_missing S (tables : Dict) : confined S (drop_missing tables).
Proof.
  unfold drop_missing. apply confined_for_each. intros [name r] _.
  apply confined_bind; [apply confined_method_dropna|]. intros _. apply confined_ret.
Qed.

Lemma confined_convert_time_columns (tables : Dict) :
  confined (fun r => r ∈ map snd tables) (convert_time_columns tables).
Proof.
  unfold convert_time_columns. apply confined_for_each. intros [name r] Hin.
  apply confined_bind; [apply confined_deref|]. intros d.
  destruct (time_columns d); [apply confined_ret|].
  apply confined_bind; [|intros _; apply confined_ret].
  apply confined_convertToDatetime. apply list_elem_of_fmap. by exists (name, r).
Qed.

Lemma confined_load_folder S (ds : Datasets) (folder : string) :
  confined S (load_folder ds folder).
Proof.
  unfold load_folder. apply confined_bind; [apply confined_listdir|]. intros names.
  apply confined_dict_comprehension. intros k. apply confined_read_csv.
Qed.

Lemma confined_load_status_logs S (ds : Datasets) : confined S (load_status_logs ds).
Proof.
  unfold load_status_logs. apply confined_bind.
  - apply confined_list_comprehension. intros i. apply confined_read_csv.
  - intros rs. apply confined_bind; [apply confined_pd_concat|]. intros logs.
    apply confined_bind; [apply confined_method_dropna|]. intros _. apply confined_ret.
Qed.

Lemma confined_clean_timestamp S r : S r -> confined S (clean_timestamp r).
Proof.
  intros HS. unfold clean_timestamp.
  apply confined_bind; [apply confined_frame_getitem|]. intros column.
  apply confined_bind; [apply confined_lift|]. intros converted.
  by apply confined_frame_setitem.
Qed.

(** How a confined step is used: on a run from [w] to [w']. *)
Lemma confined_run {A} S (m : M A) w (res : Res A) w' :
  confined S m -> m w = (res, w') ->
  pickles w' = pickles w
  ∧ (List.length (heap w) <= List.length (heap w'))%nat
  ∧ forall r d, heap w !! r = Some d -> ~ S r -> heap w' !! r = Some d.
Proof. intros Hm Hrun. specialize (Hm w). by rewrite Hrun in Hm. Qed.

End Confinement.

(* --------------------------------------------------------------------- *)
(** ** Dicts of frames                                                    *)
(* --------------------------------------------------------------------- *)

Lemma existsb_eqb_elem (k : string) (keys : list string) :
  existsb (String.eqb k) keys = true <-> k ∈ keys.
Proof.
  rewrite existsb_exists. split.
  - intros (x & Hin & ->%String.eqb_eq). by apply list_elem_of_In.
  - intros Hin. exists k. split; [by apply list_elem_of_In|apply String.eqb_refl].
Qed.

Lemma elem_of_add_key (k k' : string) (keys : list string) :
  k' ∈ add_key keys k <-> k' = k ∨ k' ∈ keys.
Proof.
  unfold add_key. destruct (existsb (String.eqb k) keys) eqn:Hk.
  - apply existsb_eqb_elem in Hk. split; [auto|]. by intros [->|?].
  - rewrite elem_of_app, list_elem_of_singleton. tauto.
Qed.

Lemma NoDup_add_key (k : string) (keys : list string) :
  NoDup keys -> NoDup (add_key keys k).
Proof.
  intros Hnd. unfold add_key. destruct (existsb (String.eqb k) keys) eqn:Hk; [exact Hnd|].
  apply NoDup_app. split; [exact Hnd|]. split; [|apply NoDup_singleton].
  intros x Hx ->%list_elem_of_singleton.
  apply existsb_eqb_elem in Hx. congruence.
Qed.

Lemma fold_add_key (ks acc : list string) :
  (forall k, k ∈ fold_left add_key ks acc <-> k ∈ acc ∨ k ∈ ks)
  ∧ (NoDup acc -> NoDup (fold_left add_key ks acc)).
Proof.
  revert acc. induction ks as [|k0 ks IH]; intros acc; simpl.
  - split; [|auto]. intros k. rewrite elem_of_nil. tauto.
  - destruct (IH (add_key acc k0)) as [Hel Hnd]. split.
    + intros k. rewrite Hel, elem_of_add_key, elem_of_cons. tauto.
    + intros Hacc. by apply Hnd, NoDup_add_key.
Qed.

Lemma elem_of_dict_keys (k : string) (ks : list string) : k ∈ dict_keys ks <-> k ∈ ks.
Proof.
  unfold dict_keys. destruct (fold_add_key ks []) as [Hel _].
  rewrite Hel, elem_of_nil. tauto.
Qed.

Lemma NoDup_dict_keys (ks : list string) : NoDup (dict_keys ks).
Proof. apply fold_add_key. constructor. Qed.

Lemma dict_set_keys (dict : Dict) (k : string) (r : ref) :
  map fst (dict_set dict k r) = add_key (map fst dict) k.
Proof.
  unfold add_key. induction dict as [|[k' r'] dict IH]; simpl; [reflexivity|].
  rewrite (String.eqb_sym k k'). destruct (String.eqb k' k) eqn:Hk; simpl; [reflexivity|].
  rewrite IH. by destruct (existsb (String.eqb k) (map fst dict)).
Qed.

Lemma elem_of_dict_set (dict : Dict) (k k' : string) (r r' : ref) :
  (k', r') ∈ dict_set dict k r -> (k', r') = (k, r) ∨ (k', r') ∈ dict.
Proof.
  induction dict as [|[k0 r0] dict IH]; simpl.
  - intros ->%list_elem_of_singleton. by left.
  - destruct (String.eqb_spec k0 k) as [->|Hne].
    + intros [->|Hin]%elem_of_cons; [by left|]. right. by right.
    + intros [->|Hin]%elem_of_cons; [right; by left|].
      destruct (IH Hin) as [?|?]; [by left|]. right. by right.
Qed.

Lemma dict_set_refs (dict : Dict) (k : string) (r r' : ref) :
  r' ∈ map snd (dict_set dict k r) -> r' = r ∨ r' ∈ map snd dict.
Proof.
  intros ([k0 r0] & -> & Hin)%list_elem_of_fmap.
  destruct (elem_of_dict_set _ _ _ _ _ Hin) as [[= -> ->]|Hold]; [by left|].
  right. apply list_elem_of_fmap. by exists (k0, r0).
Qed.

Lemma NoDup_dict_set (dict : Dict) (k : string) (r : ref) :
  NoDup (map snd dict) -> r ∉ map snd dict -> NoDup (map snd (dict_set dict k r)).
Proof.
  induction dict as [|[k0 r0] dict IH]; simpl.
  - intros _ _. apply NoDup_singleton.
  - intros [Hr0 Hnd]%NoDup_cons Hr. destruct (String.eqb k0 k); simpl.
    + apply NoDup_cons. split; [set_solver|exact Hnd].
    + apply NoDup_cons. split.
      * intros [->|Hin]%dict_set_refs; [set_solver|by apply Hr0].
      * apply IH; [exact Hnd|set_solver].
Qed.

Lemma dict_get_elem (dict : Dict) (k : string) (r : ref) :
  NoDup (map fst dict) -> dict_get dict k = Some r <-> (k, r) ∈ dict.
Proof.
  induction dict as [|[k0 r0] dict IH]; simpl.
  - intros _. split; [discriminate|by intros ?%elem_of_nil].
  - intros [Hk0 Hnd]%NoDup_cons. destruct (String.eqb_spec k0 k) as [->|Hne].
    + split.
      * intros [= ->]. by left.
      * intros [[= ->]|Hin]%elem_of_cons; [reflexivity|].
        exfalso. apply Hk0. apply list_elem_of_fmap. by exists (k, r).
    + rewrite (IH Hnd). split; [by right|].
      intros [[= -> ->]|Hin]%elem_of_cons; [done|exact Hin].
Qed.

Section DictComprehension.
Context `{PandasLib}.

Lemma allocates_confined S src (f : string -> M ref) (k : string) :
  allocates_from src f -> confined S (f k).
Proof.
  intros Hf w. specialize (Hf k w). destruct (src (pickles w) k) as [df|].
  - rewrite Hf. apply confined_alloc.
  - destruct Hf as [e ->]. simpl. auto.
Qed.

(** A dict comprehension over allocating steps: the keys, the fresh
    references, the objects behind them; it fails only where the
    source has nothing. *)
Lemma dict_comprehension_run src (f : string -> M ref) (ks : list string)
      (dict : Dict) (w : World) (res : Res Dict) (w' : World) :
  allocates_from src f ->
  NoDup (map snd dict) ->
  (forall k r, (k, r) ∈ dict -> (r < List.length (heap w))%nat) ->
  dict_comprehension ks f dict w = (res, w') ->
  match res with
  | Ok dict' =>
      map fst dict' = fold_left add_key ks (map fst dict)
      ∧ NoDup (map snd dict')
      ∧ (forall k r, (k, r) ∈ dict' ->
           (k, r) ∈ dict
           ∨ (k ∈ ks ∧ (List.length (heap w) <= r)%nat
              ∧ exists df, src (pickles w) k = Some df ∧ heap w' !! r = Some df))
  | Raise _ => exists k, k ∈ ks ∧ src (pickles w) k = None
  end.
Proof.
  intros Hf. revert dict w. induction ks as [|k ks IH]; intros dict w Hnd Hlt; simpl.
  - intros [= <- <-]. split; [reflexivity|]. split; [exact Hnd|]. auto.
  - unfold bind. pose proof (Hf k w) as Hk.
    destruct (src (pickles w) k) as [df|] eqn:Hsrc.
    + rewrite Hk. cbn [alloc]. intros Hrun.
      set (w1 := {| heap := heap w ++ [df]; pickles := pickles w |}) in *.
      assert (Hfresh : List.length (heap w) ∉ map snd dict).
      { intros ([k0 r0] & Heq & Hin)%list_elem_of_fmap. simpl in Heq. subst r0.
        specialize (Hlt _ _ Hin). lia. }
      pose proof (IH (dict_set dict k (List.length (heap w))) w1) as IH1.
      destruct (confined_run (fun _ => False) _ w1 res w'
                  (confined_dict_comprehension _ ks f _
                     (fun k0 => allocates_confined _ src f k0 Hf)) Hrun)
        as (_ & _ & Hkeep).
      specialize (IH1 (NoDup_dict_set _ _ _ Hnd Hfresh)).
      assert (Hlt1 : forall k0 r0, (k0, r0) ∈ dict_set dict k (List.length (heap w)) ->
                                   (r0 < List.length (heap w1))%nat).
      { intros k0 r0 [[= -> ->]|Hin]%elem_of_dict_set; simpl; rewrite length_app; simpl.
        - lia.
        - specialize (Hlt _ _ Hin). lia. }
      specialize (IH1 Hlt1 Hrun). destruct res as [dict'|e].
      * destruct IH1 as (Hkeys & Hnd' & Hel). split; [|split; [exact Hnd'|]].
        -- by rewrite Hkeys, dict_set_keys.
        -- intros k0 r0 Hin. destruct (Hel _ _ Hin) as [Hold|(Hk0 & Hr0 & df0 & Hs0 & Hh0)].
           ++ apply elem_of_dict_set in Hold as [[= -> ->]|Hold]; [|by left].
              right. split; [by left|]. split; [lia|]. exists df. split; [exact Hsrc|].
              apply Hkeep; [|tauto]. simpl. by apply list_lookup_middle.
           ++ right. split; [by right|]. split.
              ** simpl in Hr0. rewrite length_app in Hr0. lia.
              ** by exists df0.
      * destruct IH1 as (k0 & Hk0 & Hs0). exists k0. split; [by right|exact Hs0].
    + destruct Hk as [e ->]. intros [= <- <-]. exists k. split; [by left|exact Hsrc].
Qed.

End DictComprehension.

(* --------------------------------------------------------------------- *)
(** ** Frames: columns read and written                                   *)
(* --------------------------------------------------------------------- *)

Lemma getitem_columns (d : DataFrame) (col : string) :
  existsb (String.eqb col) (Frame.columns d) = true <-> is_Some (Frame.getitem d col).
Proof.
  induction d as [|[name cells] d IH]; simpl.
  - split; [discriminate|by intros [? ?]].
  - rewrite (String.eqb_sym col name). destruct (String.eqb name col); simpl; [|exact IH].
    split; eauto.
Qed.

Lemma getitem_setitem_eq (d : DataFrame) (col : string) (cells : list Cell) :
  Frame.getitem (Frame.setitem d col cells) col = Some cells.
Proof.
  induction d as [|[name old] d IH]; simpl.
  - by rewrite String.eqb_refl.
  - destruct (String.eqb name col) eqn:Hn; simpl; by rewrite Hn.
Qed.

Lemma getitem_setitem_ne (d : DataFrame) (col col' : string) (cells : list Cell) :
  col ≠ col' -> Frame.getitem (Frame.setitem d col cells) col' = Frame.getitem d col'.
Proof.
  intros Hne. induction d as [|[name old] d IH]; simpl.
  - apply String.eqb_neq in Hne. by rewrite Hne.
  - destruct (String.eqb_spec name col) as [->|Hn]; simpl.
    + apply String.eqb_neq in Hne. by rewrite Hne.
    + by rewrite IH.
Qed.

Lemma columns_setitem (d : DataFrame) (col : string) (cells : list Cell) :
  is_Some (Frame.getitem d col) ->
  Frame.columns (Frame.setitem d col cells) = Frame.columns d.
Proof.
  induction d as [|[name old] d IH]; simpl.
  - by intros [? ?].
  - destruct (String.eqb name col); simpl; [reflexivity|].
    intros Hsome. by rewrite IH.
Qed.

Section ToDatetime.
Context `{PandasLib}.

Lemma to_datetime_cell_ok (parse : string -> option Z) (c c' : Cell) :
  to_datetime_cell parse c = Ok c' ->
  is_datetime c' = true ∧ (isna c = true -> c' = NaT).
Proof.
  destruct c; simpl; try (intros [= <-]; by split).
  destruct (parse s); [|discriminate]. intros [= <-]. by split.
Qed.

Lemma to_datetime_format_cell_ok (fmt : string) (c c' : Cell) :
  to_datetime_format_cell fmt c = Ok c' ->
  is_datetime c' = true ∧ (isna c = true -> c' = NaT).
Proof.
  destruct c; simpl; try (intros [= <-]; by split).
  - destruct (strptime fmt s); [|discriminate]. intros [= <-]. by split.
  - destruct (strptime fmt (py_str_int z)); [|discriminate]. intros [= <-]. by split.
Qed.

(** A converted column: as long as the old one, of datetime type,
    with [NaT] wherever a value was missing. *)
Lemma converted_column (f : Cell -> Res Cell) (cells cells' : list Cell) :
  (forall c c', f c = Ok c' -> is_datetime c' = true ∧ (isna c = true -> c' = NaT)) ->
  res_map f cells = Ok cells' ->
  List.length cells' = List.length cells
  ∧ Forall (fun c => is_datetime c = true) cells'
  ∧ (forall i c, cells !! i = Some c -> isna c = true -> cells' !! i = Some NaT).
Proof.
  intros Hf Hmap. split; [by apply res_map_ok_length in Hmap|].
  apply res_map_ok_Forall2 in Hmap. split.
  - induction Hmap as [|c c' cells cells' Hc _ IH]; constructor; [|exact IH].
    by apply Hf in Hc as [? _].
  - intros i c Hi Hna.
    destruct (Forall2_lookup_l _ _ _ _ _ Hmap Hi) as (c' & Hi' & Hc).
    apply Hf in Hc as [_ Hnat]. by rewrite Hi', Hnat.
Qed.

Lemma to_datetime_ok (cells cells' : list Cell) :
  to_datetime cells = Ok cells' ->
  List.length cells' = List.length cells
  ∧ Forall (fun c => is_datetime c = true) cells'
  ∧ (forall i c, cells !! i = Some c -> isna c = true -> cells' !! i = Some NaT).
Proof. apply converted_column. apply to_datetime_cell_ok. Qed.

Lemma to_datetime_format_ok (fmt : string) (cells cells' : list Cell) :
  to_datetime_format fmt cells = Ok cells' ->
  List.length cells' = List.length cells
  ∧ Forall (fun c => is_datetime c = true) cells'
  ∧ (forall i c, cells !! i = Some c -> isna c = true -> cells' !! i = Some NaT).
Proof. apply converted_column. apply to_datetime_format_cell_ok. Qed.

End ToDatetime.

(* --------------------------------------------------------------------- *)
(** ** The conversion loops, run                                          *)
(* --------------------------------------------------------------------- *)

Section ConversionRuns.
Context `{PandasLib}.
Implicit Types (w : World) (r : ref) (d : DataFrame).

Lemma deref_run w r d : heap w !! r = Some d -> deref r w = (Ok d, w).
Proof. intros Hr. unfold deref. by rewrite Hr. Qed.

Lemma set_object_id w r d : heap w !! r = Some d -> set_object w r d = w.
Proof.
  intros Hr. unfold set_object. rewrite list_insert_id by exact Hr. by destruct w.
Qed.

Lemma set_object_lookup w r d d' : heap w !! r = Some d -> heap (set_object w r d') !! r = Some d'.
Proof. intros Hr. simpl. apply list_lookup_insert_eq. by eapply lookup_lt_Some. Qed.

Lemma set_object_twice w r d d' : set_object (set_object w r d) r d' = set_object w r d'.
Proof. unfold set_object. simpl. by rewrite list_insert_insert_eq. Qed.

(** One turn of the loop of [convertToDatetime] is [convert_column] on
    the object behind the reference. *)
Lemma convert_turn_run w r d (col : string) :
  heap w !! r = Some d ->
  (d0 <- deref r ;;
   if existsb (String.eqb col) (Frame.columns d0) then
     cells <- frame_getitem r col ;;
     converted <- lift (to_datetime cells) ;;
     frame_setitem r col converted
   else ret tt)%script w
  = match convert_column d col with
    | Ok d' => (Ok tt, set_object w r d')
    | Raise e => (Raise e, w)
    end.
Proof.
  intros Hr. unfold bind at 1. rewrite (deref_run _ _ _ Hr). unfold convert_column.
  destruct (existsb (String.eqb col) (Frame.columns d)).
  - unfold bind, frame_getitem, bind. rewrite (deref_run _ _ _ Hr).
    destruct (Frame.getitem d col) as [cells|]; [|reflexivity]. cbn [ret].
    destruct (to_datetime cells) as [converted|e]; [|reflexivity]. cbn [lift ret].
    unfold frame_setitem, bind. by rewrite (deref_run _ _ _ Hr).
  - cbn [ret]. by rewrite (set_object_id _ _ _ Hr).
Qed.

Lemma convertToDatetime_run (cols : list string) w r d :
  heap w !! r = Some d ->
  exists w',
    convertToDatetime r cols w
    = (match convert_columns cols d with Ok _ => Ok r | Raise e => Raise e end, w')
    ∧ forall d', convert_columns cols d = Ok d' -> w' = set_object w r d'.
Proof.
  unfold convertToDatetime. revert w d.
  induction cols as [|col cols IH]; intros w d Hr.
  - exists w. split; [reflexivity|]. intros d' [= <-]. by rewrite set_object_id.
  - cbn [for_each convert_columns]. unfold bind at 1 2.
    rewrite (convert_turn_run _ _ _ col Hr).
    destruct (convert_column d col) as [d1|e].
    + destruct (IH (set_object w r d1) d1 (set_object_lookup _ _ _ _ Hr)) as (w' & Hrun & Hw').
      unfold bind in Hrun. exists w'. split.
      * destruct (for_each cols _ (set_object w r d1)) as [[[]|e] w2];
          destruct (convert_columns cols d1); simpl in *; congruence.
      * intros d' Hd'. rewrite (Hw' d' Hd'). apply set_object_twice.
    + exists w. split; [reflexivity|discriminate].
Qed.

(** One turn of the loop of lines 26-29 is [convert_frame] on the
    object behind the reference. *)
Lemma convert_table_run (name : string) w r d :
  heap w !! r = Some d ->
  exists w',
    (d0 <- deref r ;;
     match time_columns d0 with
     | [] => ret tt
     | _ => convertToDatetime r (time_columns d0) ;;; ret tt
     end)%script w
    = (match convert_frame d with Ok _ => Ok tt | Raise e => Raise e end, w')
    ∧ forall d', convert_frame d = Ok d' -> w' = set_object w r d'.
Proof.
  intros Hr. unfold bind at 1. rewrite (deref_run _ _ _ Hr). unfold convert_frame.
  destruct (convertToDatetime_run (time_columns d) w r d Hr) as (w' & Hrun & Hw').
  destruct (time_columns d) as [|col cols] eqn:Hcols.
  - exists w. split; [reflexivity|]. intros d' [= <-]. by rewrite set_object_id.
  - exists w'. split; [|exact Hw'].
    unfold bind. rewrite Hrun. by destruct (convert_columns (col :: cols) d).
Qed.

(** Lines 26-29 and 39-42 on a dict of distinct, live references: the
    loop succeeds exactly when every table converts, and then every
    table has been replaced, in place, by its conversion. *)
Lemma convert_time_columns_run (tables : Dict) w (res : Res unit) w' :
  NoDup (map snd tables) ->
  (forall name r, (name, r) ∈ tables -> is_Some (heap w !! r)) ->
  convert_time_columns tables w = (res, w') ->
  match res with
  | Ok _ => forall name r d, (name, r) ∈ tables -> heap w !! r = Some d ->
              exists d', convert_frame d = Ok d' ∧ heap w' !! r = Some d'
  | Raise _ => exists name r d e, (name, r) ∈ tables ∧ heap w !! r = Some d
                                  ∧ convert_frame d = Raise e
  end.
Proof.
  revert w. induction tables as [|[name r] tables IH]; intros w Hnd Hlive.
  - intros [= <- <-]. intros ? ? ? Hin. by apply elem_of_nil in Hin.
  - simpl in Hnd. apply NoDup_cons in Hnd as [Hr Hnd].
    destruct (Hlive name r) as [d Hd]; [by left|].
    unfold convert_time_columns. cbn [for_each]. unfold bind at 1.
    destruct (convert_table_run name w r d Hd) as (w1 & Hrun & Hw1). rewrite Hrun.
    destruct (convert_frame d) as [d1|e] eqn:Hconv.
    + specialize (Hw1 d1 eq_refl). subst w1. intros Hrest.
      assert (Hother : forall r', r' ≠ r -> heap (set_object w r d1) !! r' = heap w !! r').
      { intros r' Hne. simpl. by apply list_lookup_insert_ne. }
      assert (Hrest_ne : forall name' r', (name', r') ∈ tables -> r' ≠ r).
      { intros name' r' Hin ->. apply Hr. apply list_elem_of_fmap. by exists (name', r). }
      specialize (IH (set_object w r d1) Hnd).
      destruct (confined_run _ _ _ _ _ (confined_convert_time_columns tables) Hrest)
        as (_ & _ & Hkeep).
      unfold convert_time_columns in IH. specialize (fun Hl => IH Hl Hrest).
      destruct res as [[]|e].
      * intros name' r' d' [[= -> ->]|Hin]%elem_of_cons Hd'.
        -- exists d1. split; [congruence|].
           apply Hkeep; [by eapply set_object_lookup|exact Hr].
        -- apply (IH (fun n' r0 Hin0 => ltac:(rewrite (Hother r0 (Hrest_ne _ _ Hin0));
                                               by eapply Hlive; right)) name' r' d' Hin).
           by rewrite (Hother r' (Hrest_ne _ _ Hin)).
      * destruct IH as (name' & r' & d' & e' & Hin & Hd' & He').
        { intros n' r0 Hin0. rewrite (Hother r0 (Hrest_ne _ _ Hin0)).
          eapply Hlive. by right. }
        exists name', r', d', e'. split; [by right|]. split; [|exact He'].
        by rewrite <- (Hother r' (Hrest_ne _ _ Hin)).
    + intros [= <- <-]. exists name, r, d, e. split; [by left|]. by split.
Qed.

Lemma clean_timestamp_run w r d :
  heap w !! r = Some d ->
  clean_timestamp r w
  = match clean_frame d with
    | Ok d' => (Ok tt, set_object w r d')
    | Raise e => (Raise e, w)
    end.
Proof.
  intros Hr. unfold clean_timestamp, clean_frame, bind, frame_getitem, bind.
  rewrite (deref_run _ _ _ Hr).
  destruct (Frame.getitem d "timestamp") as [column|]; [|reflexivity]. cbn [ret].
  destruct (to_datetime_format timestamp_format column) as [converted|e]; [|reflexivity].
  cbn [lift ret]. unfold frame_setitem, bind. by rewrite (deref_run _ _ _ Hr).
Qed.

End ConversionRuns.

(* --------------------------------------------------------------------- *)
(** ** Snapshot file names                                                *)
(* --------------------------------------------------------------------- *)

Lemma append_length (a b : string) :
  String.length (a +:+ b) = (String.length a + String.length b)%nat.
Proof. induction a as [|c a IH]; [reflexivity|]. rewrite append_cons. simpl. by rewrite IH. Qed.

Lemma append_assoc (a b c : string) : (a +:+ b) +:+ c = a +:+ (b +:+ c).
Proof. induction a as [|x a IH]; [reflexivity|]. rewrite !append_cons. by rewrite IH. Qed.

Lemma append_inj_prefix (p a b : string) : p +:+ a = p +:+ b -> a = b.
Proof.
  induction p as [|c p IH]; [by rewrite !append_nil|].
  rewrite !append_cons. intros [= Heq]. by apply IH.
Qed.

(** Two names with tails of the same length have the same tail. *)
Lemma append_inj_suffix (a b s t : string) :
  String.length s = String.length t -> a +:+ s = b +:+ t -> a = b ∧ s = t.
Proof.
  intros Hlen. revert b. induction a as [|c a IH]; intros [|c' b].
  - rewrite !append_nil. auto.
  - rewrite append_nil. intros ->. rewrite append_length in Hlen. simpl in Hlen. lia.
  - rewrite append_nil. intros <-. rewrite append_length in Hlen. simpl in Hlen. lia.
  - rewrite !append_cons. intros [= -> Heq]. destruct (IH _ Heq) as [-> ->]. auto.
Qed.

Lemma snapshot_name_inj (suffix a b : string) :
  snapshot_name a suffix = snapshot_name b suffix -> a = b.
Proof.
  unfold snapshot_name. intros Heq%append_inj_prefix.
  by apply append_inj_suffix in Heq as [? _].
Qed.

Lemma snapshot_attributes_journals (a b : string) :
  snapshot_name a "_attributes.pkl" ≠ snapshot_name b "_journals.pkl".
Proof.
  unfold snapshot_name. intros Heq%append_inj_prefix.
  change "_attributes.pkl" with ("_attribut" +:+ "es.pkl") in Heq.
  change "_journals.pkl" with ("_journa" +:+ "ls.pkl") in Heq.
  rewrite <- !append_assoc in Heq.
  by apply append_inj_suffix in Heq as [_ ?].
Qed.

Lemma snapshot_attributes_logs (a : string) :
  snapshot_name a "_attributes.pkl" ≠ "processed_participant_status_logs.pkl".
Proof.
  unfold snapshot_name.
  change "processed_participant_status_logs.pkl"
    with ("processed_" +:+ "participant_status_lo" +:+ "gs.pkl").
  intros Heq%append_inj_prefix.
  change "_attributes.pkl" with ("_attribut" +:+ "es.pkl") in Heq.
  rewrite <- !append_assoc in Heq.
  by apply append_inj_suffix in Heq as [_ ?].
Qed.

Lemma snapshot_journals_logs (a : string) :
  snapshot_name a "_journals.pkl" ≠ "processed_participant_status_logs.pkl".
Proof.
  unfold snapshot_name.
  change "processed_participant_status_logs.pkl"
    with ("processed_" +:+ "participant_status_lo" +:+ "gs.pkl").
  intros Heq%append_inj_prefix.
  change "_journals.pkl" with ("_journa" +:+ "ls.pkl") in Heq.
  rewrite <- !append_assoc in Heq.
  by apply append_inj_suffix in Heq as [_ ?].
Qed.

Lemma snapshot_attributes_counts (a : string) :
  snapshot_name a "_attributes.pkl" ≠ "processed_household_kid_counts.pkl".
Proof.
  unfold snapshot_name.
  change "processed_household_kid_counts.pkl"
    with ("processed_" +:+ "household_kid_coun" +:+ "ts.pkl").
  intros Heq%append_inj_prefix.
  change "_attributes.pkl" with ("_attribut" +:+ "es.pkl") in Heq.
  rewrite <- !append_assoc in Heq.
  by apply append_inj_suffix in Heq as [_ ?].
Qed.

Lemma snapshot_journals_counts (a : string) :
  snapshot_name a "_journals.pkl" ≠ "processed_household_kid_counts.pkl".
Proof.
  unfold snapshot_name.
  change "processed_household_kid_counts.pkl"
    with ("processed_" +:+ "household_kid_coun" +:+ "ts.pkl").
  intros Heq%append_inj_prefix.
  change "_journals.pkl" with ("_journa" +:+ "ls.pkl") in Heq.
  rewrite <- !append_assoc in Heq.
  by apply append_inj_suffix in Heq as [_ ?].
Qed.

(* --------------------------------------------------------------------- *)
(** ** Loading and saving, run                                            *)
(* --------------------------------------------------------------------- *)

Section LoadSaveRuns.
Context `{PandasLib}.
Implicit Types (w : World) (r : ref) (d : DataFrame).

Lemma read_all_run {A} (ds : Datasets) (path : A -> string) (xs : list A) w
      (res : Res (list ref)) w' :
  list_comprehension xs (fun x => read_csv ds (path x)) w = (res, w') ->
  match res with
  | Ok rs => exists dfs,
      Forall2 (fun x d => csv_files ds !! path x = Some d) xs dfs
      ∧ heap w' = heap w ++ dfs
      ∧ rs = seq (List.length (heap w)) (List.length xs)
  | Raise _ => exists x, x ∈ xs ∧ csv_files ds !! path x = None
  end.
Proof.
  revert w res w'. induction xs as [|x xs IH]; intros w res w'.
  - intros [= <- <-]. exists []. split; [constructor|]. by rewrite app_nil_r.
  - cbn [list_comprehension]. unfold bind at 1, read_csv at 1.
    destruct (csv_files ds !! path x) as [d|] eqn:Hx.
    + cbn [alloc]. unfold bind at 1.
      destruct (list_comprehension xs _ _) as [[rs|e] w1] eqn:Hrest;
        apply IH in Hrest; cbn [ret]; intros [= <- <-].
      * destruct Hrest as (dfs & Hall & Hheap & Hrs). exists (d :: dfs).
        split; [by constructor|]. simpl in *. split.
        -- by rewrite Hheap, <- app_assoc.
        -- rewrite Hrs, length_app. simpl. do 2 f_equal. lia.
      * destruct Hrest as (x' & Hin & Hnone). exists x'. split; [by right|exact Hnone].
    + cbn [raise]. intros [= <- <-]. exists x. split; [by left|exact Hx].
Qed.

Lemma deref_all_run (rs : list ref) (dfs : list DataFrame) w :
  Forall2 (fun r d => heap w !! r = Some d) rs dfs ->
  list_comprehension rs deref w = (Ok dfs, w).
Proof.
  induction 1 as [|r d rs dfs Hr _ IH]; [reflexivity|].
  cbn [list_comprehension]. unfold bind. by rewrite (deref_run _ _ _ Hr), IH.
Qed.

Lemma lookup_fresh_objects (old dfs : list DataFrame) :
  Forall2 (fun r d => (old ++ dfs) !! r = Some d)
          (seq (List.length old) (List.length dfs)) dfs.
Proof.
  revert old. induction dfs as [|d dfs IH]; intros old; [constructor|].
  simpl. constructor; [by apply list_lookup_middle|].
  specialize (IH (old ++ [d])). rewrite length_app in IH. simpl in IH.
  rewrite <- app_assoc in IH. simpl in IH.
  by replace (S (List.length old)) with (List.length old + 1)%nat by lia.
Qed.

Lemma shards_of_unique (ds : Datasets) (s1 s2 : list DataFrame) :
  shards_of ds s1 -> shards_of ds s2 -> s1 = s2.
Proof.
  unfold shards_of. generalize (seq 0 72). intros xs H1. revert s2.
  induction H1 as [|x d xs s1 Hx _ IH]; intros s2 H2.
  - by apply Forall2_nil_inv_l in H2.
  - apply Forall2_cons_inv_l in H2 as (d' & s2' & Hx' & H2 & ->).
    f_equal; [congruence|by apply IH].
Qed.

(** Lines 11-16: the variable ends up bound to the concatenation of
    the seventy-two shards, all rows included. *)
Lemma load_status_logs_run (ds : Datasets) w (res : Res ref) w' :
  load_status_logs ds w = (res, w') ->
  match res with
  | Ok logs => exists shards,
      shards_of ds shards ∧ heap w' !! logs = Some (Frame.concat shards)
  | Raise _ => forall shards, ~ shards_of ds shards
  end.
Proof.
  unfold load_status_logs. unfold bind at 1.
  destruct (list_comprehension (seq 0 72) _ w) as [[rs|e] w1] eqn:Hread;
    apply read_all_run in Hread.
  - destruct Hread as (dfs & Hall & Hheap & Hrs).
    assert (Hlen : List.length dfs = 72%nat).
    { apply Forall2_length in Hall. by rewrite <- Hall. }
    unfold bind at 1, pd_concat, bind at 1.
    rewrite (deref_all_run rs dfs w1).
    2:{ rewrite Hrs, Hheap, length_seq, <- Hlen. apply lookup_fresh_objects. }
    destruct dfs as [|d0 dfs0] eqn:Hdfs; [discriminate|]. rewrite <- Hdfs in *.
    cbn [alloc]. unfold bind at 1, method_dropna, bind at 1.
    erewrite deref_run by (simpl; apply list_lookup_middle; reflexivity).
    cbn [alloc ret heap]. intros [= <- <-]. exists dfs. split; [exact Hall|].
    simpl. rewrite lookup_app_l by (rewrite length_app; simpl; lia).
    by apply list_lookup_middle.
  - intros [= <- <-]. destruct Hread as (i & Hin & Hnone). intros shards Hall.
    apply list_elem_of_lookup in Hin as [j Hj].
    destruct (Forall2_lookup_l _ _ _ _ _ Hall Hj) as (d & _ & Hd). congruence.
Qed.

Lemma read_csv_allocates (ds : Datasets) (folder : string) :
  allocates_from (fun _ k => csv_files ds !! path_join folder k)
                 (fun k => read_csv ds (path_join folder k)).
Proof.
  intros k w. unfold read_csv. destruct (csv_files ds !! path_join folder k); [reflexivity|].
  by eexists.
Qed.

Lemma read_pickle_allocates (suffix : string) :
  allocates_from (fun files k => files !! snapshot_name k suffix ≫= pickle_loads)
                 (fun k => read_pickle (snapshot_name k suffix)).
Proof.
  intros k w. unfold read_pickle.
  destruct (pickles w !! snapshot_name k suffix) as [blob|]; simpl; [|by eexists].
  destruct (pickle_loads blob); [reflexivity|by eexists].
Qed.

Lemma to_pickle_run w r d (path : string) :
  heap w !! r = Some d ->
  to_pickle r path w
  = (Ok tt, {| heap := heap w; pickles := <[path := pickle_dumps d]> (pickles w) |}).
Proof. intros Hr. unfold to_pickle, bind. by rewrite (deref_run _ _ _ Hr). Qed.

(** Lines 49-52: one snapshot per entry of the dict, under the name
    made from its key; nothing else in the cache directory changes. *)
Lemma save_loop_run (suffix : string) (tables : Dict) w :
  (forall name r, (name, r) ∈ tables -> is_Some (heap w !! r)) ->
  exists w',
    for_each tables (fun '(name, df) => to_pickle df (snapshot_name name suffix)) w
    = (Ok tt, w')
    ∧ heap w' = heap w
    ∧ (forall path, (forall name, name ∈ map fst tables -> snapshot_name name suffix ≠ path) ->
         pickles w' !! path = pickles w !! path)
    ∧ (NoDup (map fst tables) ->
       forall name r d, (name, r) ∈ tables -> heap w !! r = Some d ->
         pickles w' !! snapshot_name name suffix = Some (pickle_dumps d)).
Proof.
  revert w. induction tables as [|[name r] tables IH]; intros w Hlive.
  - exists w. split; [reflexivity|]. split; [reflexivity|]. split; [auto|].
    intros _ ? ? ? Hin. by apply elem_of_nil in Hin.
  - destruct (Hlive name r) as [d Hd]; [by left|].
    cbn [for_each]. unfold bind. rewrite (to_pickle_run _ _ _ _ Hd).
    set (w1 := {| heap := heap w; pickles := _ |}).
    destruct (IH w1) as (w' & Hrun & Hheap & Hother & Hmine).
    { intros name' r' Hin. simpl. apply (Hlive name' r'). by right. }
    exists w'. split; [exact Hrun|]. split; [by rewrite Hheap|]. split.
    + intros path Hpath. rewrite Hother.
      * simpl. apply lookup_insert_ne. apply Hpath. by left.
      * intros name' Hin. apply Hpath. by right.
    + simpl. intros [Hname Hnd]%NoDup_cons name' r' d' [[= -> ->]|Hin]%elem_of_cons Hd'.
      * rewrite Hother.
        -- simpl. rewrite lookup_insert_eq. congruence.
        -- intros name' Hin Heq%snapshot_name_inj. by subst name'.
      * by apply (Hmine Hnd name' r' d' Hin).
Qed.

End LoadSaveRuns.

(* --------------------------------------------------------------------- *)
(** ** [dataFiles.py], run                                                *)
(* --------------------------------------------------------------------- *)

Section DataFilesRun.
Context `{PandasLib}.
Implicit Types (w : World) (r : ref) (d : DataFrame).

Lemma load_folder_run (ds : Datasets) (folder : string) w (res : Res Dict) w' :
  load_folder ds folder w = (res, w') ->
  match res with
  | Ok tables =>
      (exists names, csv_entries ds folder names ∧ map fst tables = dict_keys names)
      ∧ NoDup (map snd tables)
      ∧ forall name r, (name, r) ∈ tables ->
          (List.length (heap w) <= r)%nat
          ∧ exists d0, csv_files ds !! path_join folder name = Some d0
                       ∧ heap w' !! r = Some d0
  | Raise _ => True
  end.
Proof.
  unfold load_folder, bind, listdir.
  destruct (directories ds !! folder) as [listing|] eqn:Hdir; cbn [ret raise].
  - intros Hrun.
    apply (dict_comprehension_run _ _ _ _ _ _ _ (read_csv_allocates ds folder)) in Hrun.
    + destruct res as [tables|e]; [|exact I].
      destruct Hrun as (Hkeys & Hnd & Hel). split; [|split; [exact Hnd|]].
      * eexists. split; [by exists listing|exact Hkeys].
      * intros name r Hin. destruct (Hel _ _ Hin) as [Hold|(_ & Hr & d0 & Hsrc & Hd0)].
        -- by apply elem_of_nil in Hold.
        -- split; [exact Hr|]. by exists d0.
    + constructor.
    + intros k r Hin. by apply elem_of_nil in Hin.
  - by intros [= <- <-].
Qed.

(** Lines 10-45 write no snapshot, and when they succeed the three
    variables hold the loaded and converted tables. *)
Lemma load_and_clean_run (ds : Datasets) w (res : Res (ref * Dict * Dict)) w' :
  load_and_clean ds w = (res, w') ->
  pickles w' = pickles w
  ∧ match res with
    | Ok (logs, attrs, jrnls) =>
        logs_loaded ds w' logs
        ∧ folder_loaded ds w' "Datasets/Attributes" attrs
        ∧ folder_loaded ds w' "Datasets/Journals" jrnls
    | Raise _ => True
    end.
Proof.
  unfold load_and_clean. unfold bind at 1.
  (* lines 11-16 *)
  destruct (load_status_logs ds w) as [[logs|e] w1] eqn:H1;
    destruct (confined_run (fun _ => False) _ _ _ _ (confined_load_status_logs _ ds) H1)
      as (Hp1 & _ & _);
    [|intros [= <- <-]; by split].
  apply load_status_logs_run in H1 as (shards & Hshards & Hlogs1).
  pose proof (lookup_lt_Some _ _ _ Hlogs1) as Hlt1.
  (* lines 19-21 *)
  unfold bind at 1.
  destruct (load_folder ds "Datasets/Attributes" w1) as [[attrs|e] w2] eqn:H2;
    destruct (confined_run (fun _ => False) _ _ _ _ (confined_load_folder _ ds _) H2)
      as (Hp2 & Hl2 & Hk2);
    [|intros [= <- <-]; split; [congruence|exact I]].
  apply load_folder_run in H2 as (Hkeys2 & Hnd2 & Hel2).
  (* lines 22-23 *)
  unfold bind at 1.
  destruct (drop_missing attrs w2) as [[[]|e] w3] eqn:H3;
    destruct (confined_run (fun _ => False) _ _ _ _ (confined_drop_missing _ attrs) H3)
      as (Hp3 & Hl3 & Hk3);
    [|intros [= <- <-]; split; [congruence|exact I]].
  (* lines 26-29 *)
  unfold bind at 1.
  destruct (convert_time_columns attrs w3) as [[[]|e] w4] eqn:H4;
    destruct (confined_run _ _ _ _ _ (confined_convert_time_columns attrs) H4)
      as (Hp4 & Hl4 & Hk4);
    [|intros [= <- <-]; split; [congruence|exact I]].
  assert (Hlive3 : forall name r, (name, r) ∈ attrs -> is_Some (heap w3 !! r)).
  { intros name r Hin. destruct (Hel2 _ _ Hin) as (_ & d0 & _ & Hd0).
    exists d0. apply Hk3; [exact Hd0|tauto]. }
  apply convert_time_columns_run in H4; [|exact Hnd2|exact Hlive3].
  assert (Hattrs4 : forall name r, (name, r) ∈ attrs ->
            (List.length (heap w1) <= r < List.length (heap w4))%nat
            ∧ exists d0 d1, csv_files ds !! path_join "Datasets/Attributes" name = Some d0
                            ∧ convert_frame d0 = Ok d1 ∧ heap w4 !! r = Some d1).
  { intros name r Hin. destruct (Hel2 _ _ Hin) as (Hge & d0 & Hcsv & Hd0).
    destruct (H4 name r d0 Hin) as (d1 & Hconv & Hd1); [apply Hk3; [exact Hd0|tauto]|].
    split; [split; [exact Hge|by eapply lookup_lt_Some]|]. by exists d0, d1. }
  assert (Hlogs4 : heap w4 !! logs = Some (Frame.concat shards)).
  { apply Hk4; [apply Hk3; [apply Hk2; [exact Hlogs1|tauto]|tauto]|].
    intros ([name r] & Heq & Hin)%list_elem_of_fmap. simpl in Heq. subst r.
    destruct (Hattrs4 _ _ Hin) as [[Hge _] _]. lia. }
  (* lines 32-34 *)
  unfold bind at 1.
  destruct (load_folder ds "Datasets/Journals" w4) as [[jrnls|e] w5] eqn:H5;
    destruct (confined_run (fun _ => False) _ _ _ _ (confined_load_folder _ ds _) H5)
      as (Hp5 & Hl5 & Hk5);
    [|intros [= <- <-]; split; [congruence|exact I]].
  apply load_folder_run in H5 as (Hkeys5 & Hnd5 & Hel5).
  (* lines 35-36 *)
  unfold bind at 1.
  destruct (drop_missing jrnls w5) as [[[]|e] w6] eqn:H6;
    destruct (confined_run (fun _ => False) _ _ _ _ (confined_drop_missing _ jrnls) H6)
      as (Hp6 & Hl6 & Hk6);
    [|intros [= <- <-]; split; [congruence|exact I]].
  (* lines 39-42 *)
  unfold bind at 1.
  destruct (convert_time_columns jrnls w6) as [[[]|e] w7] eqn:H7;
    destruct (confined_run _ _ _ _ _ (confined_convert_time_columns jrnls) H7)
      as (Hp7 & Hl7 & Hk7);
    [|intros [= <- <-]; split; [congruence|exact I]].
  assert (Hlive6 : forall name r, (name, r) ∈ jrnls -> is_Some (heap w6 !! r)).
  { intros name r Hin. destruct (Hel5 _ _ Hin) as (_ & d0 & _ & Hd0).
    exists d0. apply Hk6; [exact Hd0|tauto]. }
  apply convert_time_columns_run in H7; [|exact Hnd5|exact Hlive6].
  assert (Hfresh : forall r, r ∈ map snd jrnls -> (List.length (heap w4) <= r)%nat).
  { intros r ([name r'] & Heq & Hin)%list_elem_of_fmap. simpl in Heq. subst r'.
    by destruct (Hel5 _ _ Hin) as (Hge & _). }
  assert (Hkeep7 : forall r d, heap w4 !! r = Some d -> heap w7 !! r = Some d).
  { intros r d Hr. apply Hk7; [apply Hk6; [apply Hk5; [exact Hr|tauto]|tauto]|].
    intros Hin%Hfresh. apply lookup_lt_Some in Hr. lia. }
  (* line 45 *)
  unfold bind at 1. rewrite (clean_timestamp_run w7 logs _ (Hkeep7 _ _ Hlogs4)).
  destruct (clean_frame (Frame.concat shards)) as [cleaned|e] eqn:Hclean;
    [|intros [= <- <-]; split; [congruence|exact I]].
  cbn [ret]. intros [= <- <-]. split; [simpl; congruence|].
  assert (Hother : forall r d, r ≠ logs -> heap w7 !! r = Some d ->
                               heap (set_object w7 logs cleaned) !! r = Some d).
  { intros r d Hne Hr. simpl. by rewrite list_lookup_insert_ne. }
  split; [|split].
  - exists shards, cleaned. split; [exact Hshards|]. split; [exact Hclean|].
    eapply set_object_lookup. by apply Hkeep7.
  - split; [exact Hkeys2|]. split; [exact Hnd2|].
    intros name r Hin. destruct (Hattrs4 _ _ Hin) as ([Hge _] & d0 & d1 & Hcsv & Hconv & Hd1).
    exists d0, d1. split; [exact Hcsv|]. split; [exact Hconv|].
    apply Hother; [lia|by apply Hkeep7].
  - split; [exact Hkeys5|]. split; [exact Hnd5|].
    intros name r Hin. destruct (Hel5 _ _ Hin) as (Hge & d0 & Hcsv & Hd0).
    destruct (H7 name r d0 Hin) as (d1 & Hconv & Hd1); [apply Hk6; [exact Hd0|tauto]|].
    exists d0, d1. split; [exact Hcsv|]. split; [exact Hconv|].
    apply Hother; [|exact Hd1].
    apply lookup_lt_Some in Hlogs4. lia.
Qed.

End DataFilesRun.

Lemma dict_get_Some_elem (dict : Dict) (k : string) (r : ref) :
  dict_get dict k = Some r -> (k, r) ∈ dict.
Proof.
  induction dict as [|[k0 r0] dict IH]; simpl; [discriminate|].
  destruct (String.eqb_spec k0 k) as [->|Hne].
  - intros [= ->]. by left.
  - intros Hget. right. by apply IH.
Qed.

Section DataFilesDone.
Context `{PandasLib}.
Implicit Types (w : World) (r : ref) (d : DataFrame).

Lemma folder_loaded_NoDup_keys (ds : Datasets) w (folder : string) (tables : Dict) :
  folder_loaded ds w folder tables -> NoDup (map fst tables).
Proof. intros ((names & _ & ->) & _). apply NoDup_dict_keys. Qed.

Lemma folder_loaded_grow (ds : Datasets) w w' (folder : string) (tables : Dict) :
  (forall r d, heap w !! r = Some d -> heap w' !! r = Some d) ->
  folder_loaded ds w folder tables -> folder_loaded ds w' folder tables.
Proof.
  intros Hgrow (Hkeys & Hnd & Hel). split; [exact Hkeys|]. split; [exact Hnd|].
  intros name r Hin. destruct (Hel _ _ Hin) as (d0 & d1 & ? & ? & Hd1).
  exists d0, d1. auto.
Qed.

(** A raise in lines 10-45 ends the script there. *)
Lemma dataFiles_raise_early (ds : Datasets) w (e : Exn) w1 :
  load_and_clean ds w = (Raise e, w1) -> dataFiles ds w = (Raise e, w1).
Proof. intros Hrun. unfold dataFiles, bind. by rewrite Hrun. Qed.

(** The script, when it succeeds, ends in [etl_done]. *)
Lemma dataFiles_run (ds : Datasets) w (res : Res EtlVars) w' :
  dataFiles ds w = (res, w') ->
  match res with
  | Ok vars => etl_done ds vars w'
  | Raise _ => True
  end.
Proof.
  unfold dataFiles. unfold bind at 1.
  destruct (load_and_clean ds w) as [[[[logs attrs] jrnls]|e] w1] eqn:H1;
    [|by intros [= <- <-]].
  apply load_and_clean_run in H1 as (_ & Hlogs & Hattrs & Hjrnls).
  pose proof (folder_loaded_NoDup_keys _ _ _ _ Hattrs) as Hka.
  pose proof (folder_loaded_NoDup_keys _ _ _ _ Hjrnls) as Hkj.
  destruct Hlogs as (shards & dlogs & Hshards & Hclean & Hdlogs).
  (* line 48 *)
  unfold bind at 1, save_tables, bind at 1. rewrite (to_pickle_run _ _ _ _ Hdlogs).
  set (w2 := {| heap := heap w1; pickles := _ |}).
  (* lines 49-50 *)
  destruct (save_loop_run "_attributes.pkl" attrs w2) as (w3 & Hrun3 & Hh3 & Ho3 & Hm3).
  { intros name r Hin. destruct Hattrs as (_ & _ & Hel).
    destruct (Hel _ _ Hin) as (d0 & d1 & _ & _ & Hd1). by exists d1. }
  unfold bind at 1. rewrite Hrun3.
  (* lines 51-52 *)
  destruct (save_loop_run "_journals.pkl" jrnls w3) as (w4 & Hrun4 & Hh4 & Ho4 & Hm4).
  { intros name r Hin. destruct Hjrnls as (_ & _ & Hel). rewrite Hh3.
    destruct (Hel _ _ Hin) as (d0 & d1 & _ & _ & Hd1). by exists d1. }
  rewrite Hrun4.
  (* lines 55-56 *)
  unfold bind at 1, save_household_kid_counts, bind at 1, dict_getitem.
  destruct (dict_get attrs "Participants.csv") as [rp|] eqn:Hget;
    [|by intros [= <- <-]].
  cbn [ret]. unfold bind at 1.
  assert (Hheap4 : heap w4 = heap w1) by (by rewrite Hh4, Hh3).
  destruct Hattrs as (Hkeysa & Hnda & Hela).
  destruct (Hela _ _ (dict_get_Some_elem _ _ _ Hget)) as (dp0 & dp & _ & _ & Hdp).
  rewrite (deref_run w4 rp dp) by (by rewrite Hheap4).
  unfold bind at 1.
  destruct (FrameGroup.groupby_size dp _ _) as [counts|e]; [|by intros [= <- <-]].
  cbn [lift ret]. unfold bind at 1. cbn [alloc]. unfold bind at 1.
  rewrite (to_pickle_run _ (List.length (heap w4)) counts)
    by (simpl; by apply list_lookup_middle).
  cbn [ret heap pickles]. intros [= <- <-].
  assert (Hgrow : forall r d, heap w1 !! r = Some d -> (heap w4 ++ [counts]) !! r = Some d).
  { intros r d Hr. rewrite Hheap4. by apply lookup_app_l_Some. }
  unfold etl_done. cbn [dfParticipantStatusLogs attributes journals householdKidCounts
                        heap pickles].
  split; [|split; [|split; [|split; [|split; [|split]]]]].
  - exists shards, dlogs. auto.
  - exists dlogs. split; [auto|].
    rewrite lookup_insert_ne by done.
    rewrite Ho4 by (intros name _; apply snapshot_journals_logs).
    rewrite Ho3 by (intros name _; apply snapshot_attributes_logs).
    apply lookup_insert_eq.
  - apply (folder_loaded_grow ds w1); [exact Hgrow|]. by split.
  - intros name r Hin. destruct (Hela _ _ Hin) as (d0 & d1 & _ & _ & Hd1).
    exists d1. cbn [heap pickles]. split; [auto|].
    rewrite lookup_insert_ne by (apply not_eq_sym, snapshot_attributes_counts).
    rewrite Ho4 by (intros name' _; apply not_eq_sym, snapshot_attributes_journals).
    by apply (Hm3 Hka name r d1 Hin).
  - by apply (folder_loaded_grow ds w1).
  - intros name r Hin. destruct Hjrnls as (_ & _ & Helj).
    destruct (Helj _ _ Hin) as (d0 & d1 & _ & _ & Hd1).
    exists d1. cbn [heap pickles]. split; [auto|].
    rewrite lookup_insert_ne by (apply not_eq_sym, snapshot_journals_counts).
    apply (Hm4 Hkj name r d1 Hin). by rewrite Hh3.
  - exists counts. split; [by apply list_lookup_middle|apply lookup_insert_eq].
Qed.

End DataFilesDone.

(* --------------------------------------------------------------------- *)
(** ** Rows are kept                                                      *)
(* --------------------------------------------------------------------- *)

Lemma same_rows_refl (d : DataFrame) : same_rows d d.
Proof.
  induction d as [|c d IH]; constructor; [|exact IH].
  split; [reflexivity|]. split; [reflexivity|]. eauto.
Qed.

Lemma same_rows_trans (d0 d1 d2 : DataFrame) :
  same_rows d0 d1 -> same_rows d1 d2 -> same_rows d0 d2.
Proof.
  intros H01. revert d2. induction H01 as [|c0 c1 d0 d1 (Hn & Hl & Hna) _ IH]; intros d2 H12.
  - apply Forall2_nil_inv_l in H12 as ->. constructor.
  - apply Forall2_cons_inv_l in H12 as (c2 & d2' & (Hn' & Hl' & Hna') & H12 & ->).
    constructor; [|by apply IH].
    split; [congruence|]. split; [congruence|].
    intros i c Hc Hisna. destruct (Hna i c Hc Hisna) as (c' & Hc' & Hisna'). eauto.
Qed.

Lemma same_rows_setitem (d : DataFrame) (col : string) (cells cells' : list Cell) :
  Frame.getitem d col = Some cells ->
  List.length cells' = List.length cells ->
  (forall i c, cells !! i = Some c -> isna c = true -> cells' !! i = Some NaT) ->
  same_rows d (Frame.setitem d col cells').
Proof.
  intros Hget Hlen Hna. induction d as [|[name old] d IH]; simpl in *; [discriminate|].
  destruct (String.eqb name col).
  - injection Hget as ->. constructor; [|apply same_rows_refl].
    simpl. split; [reflexivity|]. split; [exact Hlen|].
    intros i c Hc Hisna. exists NaT. split; [by eapply Hna|reflexivity].
  - constructor; [|by apply IH]. split; [reflexivity|]. split; [reflexivity|]. eauto.
Qed.

Lemma same_rows_columns (d0 d1 : DataFrame) :
  same_rows d0 d1 -> Frame.columns d1 = Frame.columns d0.
Proof.
  induction 1 as [|c0 c1 d0 d1 (Hn & _) _ IH]; [reflexivity|]. simpl. by rewrite Hn, IH.
Qed.

Lemma same_rows_nrows (d0 d1 : DataFrame) : same_rows d0 d1 -> Frame.nrows d1 = Frame.nrows d0.
Proof.
  destruct 1 as [|[n0 c0] [n1 c1] d0 d1 (_ & Hl & _) _]; [reflexivity|]. exact Hl.
Qed.

(** A row with a missing value is still a row with a missing value. *)
Lemma same_rows_has_na (d0 d1 : DataFrame) (i : nat) :
  same_rows d0 d1 -> Frame.row_has_na d0 i = true -> Frame.row_has_na d1 i = true.
Proof.
  unfold Frame.row_has_na.
  induction 1 as [|[n0 c0] [n1 c1] d0 d1 (_ & _ & Hna) _ IH]; [done|].
  simpl in *. intros [Hhere|Hrest]%orb_true_iff; apply orb_true_iff.
  - left. destruct (c0 !! i) as [c|] eqn:Hc; [|discriminate].
    destruct (Hna i c Hc Hhere) as (c' & -> & Hc'). exact Hc'.
  - right. by apply IH.
Qed.

Section RowsKept.
Context `{PandasLib}.

Lemma convert_column_same_rows (d d' : DataFrame) (col : string) :
  convert_column d col = Ok d' -> same_rows d d'.
Proof.
  unfold convert_column. destruct (existsb _ _); [|intros [= <-]; apply same_rows_refl].
  destruct (Frame.getitem d col) as [cells|] eqn:Hget; [|discriminate].
  destruct (to_datetime cells) as [converted|] eqn:Hconv; [|discriminate].
  intros [= <-]. apply to_datetime_ok in Hconv as (Hlen & _ & Hna).
  by eapply same_rows_setitem.
Qed.

Lemma convert_columns_same_rows (cols : list string) (d d' : DataFrame) :
  convert_columns cols d = Ok d' -> same_rows d d'.
Proof.
  revert d. induction cols as [|col cols IH]; intros d; simpl.
  - intros [= <-]. apply same_rows_refl.
  - destruct (convert_column d col) as [d1|] eqn:Hcol; [|discriminate].
    intros Hrest. eapply same_rows_trans; [by eapply convert_column_same_rows|by apply IH].
Qed.

Lemma convert_frame_same_rows (d d' : DataFrame) : convert_frame d = Ok d' -> same_rows d d'.
Proof. apply convert_columns_same_rows. Qed.

Lemma clean_frame_same_rows (d d' : DataFrame) : clean_frame d = Ok d' -> same_rows d d'.
Proof.
  unfold clean_frame. destruct (Frame.getitem d "timestamp") as [column|] eqn:Hget; [|discriminate].
  destruct (to_datetime_format _ column) as [converted|] eqn:Hconv; [|discriminate].
  intros [= <-]. apply to_datetime_format_ok in Hconv as (Hlen & _ & Hna).
  by eapply same_rows_setitem.
Qed.

Lemma method_dropna_run (w : World) (r : ref) (d : DataFrame) :
  heap w !! r = Some d ->
  method_dropna r w
  = (Ok (List.length (heap w)),
     {| heap := heap w ++ [Frame.dropna d]; pickles := pickles w |}).
Proof. intros Hr. unfold method_dropna, bind. by rewrite (deref_run _ _ _ Hr). Qed.

Lemma folder_keeps_rows (ds : Datasets) (w : World) (folder suffix : string) (tables : Dict) :
  folder_loaded ds w folder tables -> folder_saved w suffix tables ->
  forall name r, (name, r) ∈ tables ->
    exists d0, csv_files ds !! path_join folder name = Some d0
               ∧ snapshot_keeps_rows w (snapshot_name name suffix) d0.
Proof.
  intros (_ & _ & Hloaded) Hsaved name r Hin.
  destruct (Hloaded _ _ Hin) as (d0 & d1 & Hcsv & Hconv & Hd1).
  destruct (Hsaved _ _ Hin) as (d1' & Hd1' & Hpickle).
  exists d0. split; [exact Hcsv|]. exists d1. split; [congruence|].
  by apply convert_frame_same_rows.
Qed.

(** C2.  [df.dropna()] makes a new frame and the statement drops it:
    the loops of lines 22-23 and 35-36 leave every object and every
    snapshot as they were, and so does line 16; when the script
    succeeds, the snapshot of the status log has every row of the
    concatenated shards, and the snapshot of every attributes and
    journals table has every row of its file, rows with a missing
    value included. *)
Theorem dropna_result_discarded (ds : Datasets) (w : World) (vars : EtlVars) (w' : World) :
  (forall tables w0,
     pickles (snd (drop_missing tables w0)) = pickles w0
     ∧ forall r d, heap w0 !! r = Some d -> heap (snd (drop_missing tables w0)) !! r = Some d)
  ∧ (forall r w0 d, heap w0 !! r = Some d ->
       method_dropna r w0
       = (Ok (List.length (heap w0)),
          {| heap := heap w0 ++ [Frame.dropna d]; pickles := pickles w0 |})
       ∧ heap (snd (method_dropna r w0)) !! r = Some d)
  ∧ (dataFiles ds w = (Ok vars, w') ->
     (exists shards, shards_of ds shards
        ∧ snapshot_keeps_rows w' "processed_participant_status_logs.pkl" (Frame.concat shards))
     ∧ (forall name r, (name, r) ∈ attributes vars ->
          exists d0, csv_files ds !! path_join "Datasets/Attributes" name = Some d0
                     ∧ snapshot_keeps_rows w' (snapshot_name name "_attributes.pkl") d0)
     ∧ (forall name r, (name, r) ∈ journals vars ->
          exists d0, csv_files ds !! path_join "Datasets/Journals" name = Some d0
                     ∧ snapshot_keeps_rows w' (snapshot_name name "_journals.pkl") d0)).
Proof.
  split; [|split].
  - intros tables w0.
    destruct (confined_drop_missing (fun _ => False) tables w0) as (Hp & _ & Hk).
    split; [exact Hp|]. intros r d Hr. apply Hk; [exact Hr|tauto].
  - intros r w0 d Hr. split; [by apply method_dropna_run|].
    rewrite (method_dropna_run _ _ _ Hr). simpl. by apply lookup_app_l_Some.
  - intros Hrun. apply dataFiles_run in Hrun
      as ((shards & dl & Hshards & Hclean & Hdl) & (dl' & Hdl' & Hpl) & Hla & Hsa & Hlj & Hsj & _).
    split; [|split].
    + exists shards. split; [exact Hshards|]. exists dl. split; [congruence|].
      by apply clean_frame_same_rows.
    + by apply folder_keeps_rows.
    + by apply folder_keeps_rows.
Qed.

End RowsKept.

Section RowsKeptExample.
Local Existing Instance Demo.lib.

Lemma run_with_gap_ok : Demo.run_with_gap = (Ok Demo.vars_with_gap, snd Demo.run_with_gap).
Proof.
  assert (Hfst : fst Demo.run_with_gap = Ok Demo.vars_with_gap) by (vm_compute; reflexivity).
  destruct Demo.run_with_gap as [res w']. simpl in *. by rewrite Hfst.
Qed.

Lemma dropna_result_discarded_witness :
  Frame.row_has_na Demo.log_with_gap 1 = true
  ∧ Frame.nrows (Frame.dropna Demo.log_with_gap) = 1%nat
  ∧ (exists shards, shards_of Demo.dataset_with_gap shards
       ∧ snapshot_keeps_rows (snd Demo.run_with_gap)
           "processed_participant_status_logs.pkl" (Frame.concat shards))
  ∧ pickles (snd Demo.run_with_gap) !! "processed_participant_status_logs.pkl"
    = Some [("timestamp", [Datetime 1646121600000000000; NaT]);
            ("participantId", [Int 1; Int 2])].
Proof.
  split; [reflexivity|]. split; [reflexivity|]. split; [|vm_compute; reflexivity].
  destruct (dropna_result_discarded Demo.dataset_with_gap Demo.empty_world
              Demo.vars_with_gap (snd Demo.run_with_gap)) as (_ & _ & Hrun).
  destruct (Hrun run_with_gap_ok) as (Hlogs & _). exact Hlogs.
Defined.

End RowsKeptExample.

(* --------------------------------------------------------------------- *)
(** ** From the ETL to the dashboard                                      *)
(* --------------------------------------------------------------------- *)

Section RoundTrip.
Context `{PandasLib}.
Hypothesis pickle_round_trip : forall d, pickle_loads (pickle_dumps d) = Some d.
Implicit Types (w : World) (r : ref) (d : DataFrame).

Lemma read_pickle_run w (path : string) d :
  pickles w !! path = Some (pickle_dumps d) -> read_pickle path w = alloc d w.
Proof. intros Hp. unfold read_pickle. by rewrite Hp, pickle_round_trip. Qed.

Lemma confined_load_snapshots S (ds : Datasets) (suffix folder : string) :
  confined S (load_snapshots ds suffix folder).
Proof.
  unfold load_snapshots. apply confined_bind; [apply confined_listdir|]. intros names.
  apply confined_dict_comprehension. intros k. apply confined_read_pickle.
Qed.

Lemma elem_of_keys (tables : Dict) (name : string) :
  name ∈ map fst tables -> exists r, (name, r) ∈ tables.
Proof. intros ([name' r] & -> & Hin)%list_elem_of_fmap. by exists r. Qed.

(** Lines 11-12: every snapshot the ETL wrote for a folder is read
    back under its key. *)
Lemma load_snapshots_run (ds : Datasets) (suffix folder : string) (names : list string)
      (tables : Dict) (etl w : World) :
  csv_entries ds folder names ->
  map fst tables = dict_keys names ->
  (forall name r, (name, r) ∈ tables ->
     exists d, heap etl !! r = Some d
               ∧ pickles w !! snapshot_name name suffix = Some (pickle_dumps d)) ->
  exists tables' w',
    load_snapshots ds suffix folder w = (Ok tables', w')
    ∧ same_tables etl tables w' tables'.
Proof.
  intros (listing & Hdir & ->) Hkeys Hsaved.
  assert (Hsrc : forall name, name ∈ List.filter (PyStr.endswith ".csv") listing ->
            exists r d, (name, r) ∈ tables ∧ heap etl !! r = Some d
              ∧ (pickles w !! snapshot_name name suffix ≫= pickle_loads) = Some d).
  { intros name Hin. apply elem_of_dict_keys in Hin. rewrite <- Hkeys in Hin.
    apply elem_of_keys in Hin as [r Hin]. destruct (Hsaved _ _ Hin) as (d & Hd & Hp).
    exists r, d. split; [exact Hin|]. split; [exact Hd|]. rewrite Hp. simpl.
    apply pickle_round_trip. }
  unfold load_snapshots, bind, listdir. rewrite Hdir. cbn [ret].
  destruct (dict_comprehension _ _ [] w) as [res w'] eqn:Hrun.
  apply (dict_comprehension_run _ _ _ _ _ _ _ (read_pickle_allocates suffix)) in Hrun.
  - destruct res as [tables'|e].
    + destruct Hrun as (Hkeys' & _ & Hel). exists tables', w'. split; [reflexivity|].
      split; [by rewrite Hkeys', Hkeys|].
      intros name r' Hin. destruct (Hel _ _ Hin) as [Hold|(Hname & _ & df & Hdf & Hr')].
      * by apply elem_of_nil in Hold.
      * destruct (Hsrc _ Hname) as (r & d & Hr & Hd & Hload).
        assert (Heq : Some df = Some d) by (rewrite <- Hdf; exact Hload).
        injection Heq as ->. exists r. split; [exact Hr|]. by exists d.
    + destruct Hrun as (k & Hk & Hnone). destruct (Hsrc _ Hk) as (r & d & _ & _ & Hload).
      assert (Heq : None = Some d) by (rewrite <- Hnone; exact Hload). discriminate.
  - constructor.
  - intros k r Hin. by apply elem_of_nil in Hin.
Qed.

Lemma same_tables_grow (etl : World) (tables : Dict) w w' (tables' : Dict) :
  (forall r d, heap w !! r = Some d -> heap w' !! r = Some d) ->
  same_tables etl tables w tables' -> same_tables etl tables w' tables'.
Proof.
  intros Hgrow [Hkeys Hel]. split; [exact Hkeys|].
  intros name r' Hin. destruct (Hel _ _ Hin) as (r & Hr & d & Hd & Hd').
  exists r. split; [exact Hr|]. exists d. auto.
Qed.

(** X19.  The dashboard reads the files the ETL wrote.  Given a
    snapshot codec that gives back the frame it was given, after a
    run of the ETL that reaches its end the loading stage of the
    dashboard (lines 10-15) succeeds, and every table it holds is the
    table the ETL held: the status log, every attributes table and
    every journals table under its own key, and the household counts,
    each with the same columns in the same order and the same cells.
    The names of lines 48-56 do not collide and are the names lines
    10-15 ask for. *)
Theorem snapshot_round_trip (ds : Datasets) (w : World) (vars : EtlVars) (w' : World) :
  dataFiles ds w = (Ok vars, w') ->
  exists vars' w'',
    vast2022app_load ds (fresh_process w') = (Ok vars', w'')
    ∧ same_table w' (dfParticipantStatusLogs vars) w'' (dfParticipantStatusLogs vars')
    ∧ same_tables w' (attributes vars) w'' (attributes vars')
    ∧ same_tables w' (journals vars) w'' (journals vars')
    ∧ same_table w' (householdKidCounts vars) w'' (householdKidCounts vars').
Proof.
  intros Hrun. apply dataFiles_run in Hrun
    as (_ & (dl & Hdl & Hpl) & Hla & Hsa & Hlj & Hsj & (dc & Hdc & Hpc)).
  destruct Hla as ((namesa & Hentriesa & Hkeysa) & _).
  destruct Hlj as ((namesj & Hentriesj & Hkeysj) & _).
  unfold vast2022app_load. unfold bind at 1.
  rewrite (read_pickle_run (fresh_process w') _ dl Hpl). cbn [alloc fresh_process heap pickles].
  set (w1 := {| heap := [] ++ [dl]; pickles := pickles w' |}).
  destruct (load_snapshots_run ds "_attributes.pkl" _ namesa (attributes vars) w' w1
              Hentriesa Hkeysa Hsa) as (attrs' & w2 & Hrun2 & Hsame2).
  destruct (confined_run (fun _ => False) _ _ _ _
              (confined_load_snapshots _ ds _ _) Hrun2) as (Hp2 & _ & Hk2).
  unfold bind at 1. rewrite Hrun2.
  destruct (load_snapshots_run ds "_journals.pkl" _ namesj (journals vars) w' w2
              Hentriesj Hkeysj) as (jrnls' & w3 & Hrun3 & Hsame3).
  { intros name r Hin. rewrite Hp2. by apply Hsj. }
  destruct (confined_run (fun _ => False) _ _ _ _
              (confined_load_snapshots _ ds _ _) Hrun3) as (Hp3 & _ & Hk3).
  unfold bind at 1. rewrite Hrun3.
  unfold bind at 1. rewrite (read_pickle_run w3 _ dc) by (by rewrite Hp3, Hp2).
  cbn [alloc ret]. eexists _, _. split; [reflexivity|].
  cbn [dfParticipantStatusLogs attributes journals householdKidCounts].
  assert (Hgrow3 : forall r d, heap w3 !! r = Some d ->
                               heap {| heap := heap w3 ++ [dc]; pickles := pickles w3 |} !! r
                               = Some d).
  { intros r d Hr. simpl. by apply lookup_app_l_Some. }
  split; [|split; [|split]].
  - exists dl. split; [exact Hdl|].
    apply Hgrow3, Hk3; [|tauto]. apply Hk2; [|tauto]. reflexivity.
  - apply (same_tables_grow _ _ w2); [|exact Hsame2].
    intros r d Hr. apply Hgrow3, Hk3; [exact Hr|tauto].
  - by apply (same_tables_grow _ _ w3).
  - exists dc. split; [exact Hdc|]. simpl. by apply list_lookup_middle.
Qed.

End RoundTrip.

Section RoundTripExample.
Local Existing Instance Demo.lib.

Lemma snapshot_round_trip_witness :
  exists vars' w'',
    vast2022app_load Demo.dataset_with_gap (fresh_process (snd Demo.run_with_gap))
    = (Ok vars', w'')
    ∧ same_table (snd Demo.run_with_gap) 72%nat w'' (dfParticipantStatusLogs vars')
    ∧ same_tables (snd Demo.run_with_gap) [("Participants.csv", 74%nat)] w'' (attributes vars')
    ∧ same_tables (snd Demo.run_with_gap) [("SocialNetwork.csv", 76%nat)] w'' (journals vars')
    ∧ same_table (snd Demo.run_with_gap) 78%nat w'' (householdKidCounts vars').
Proof.
  exact (snapshot_round_trip (fun d => eq_refl) Demo.dataset_with_gap Demo.empty_world
           Demo.vars_with_gap (snd Demo.run_with_gap) run_with_gap_ok).
Defined.

End RoundTripExample.

(* --------------------------------------------------------------------- *)
(** ** Parse errors                                                       *)
(* --------------------------------------------------------------------- *)

Section ParseErrors.
Context `{PandasLib}.
Implicit Types (w : World) (d : DataFrame).

Lemma clean_frame_raises d (column : list Cell) (c : Cell) (e0 : Exn) :
  Frame.getitem d "timestamp" = Some column ->
  c ∈ column ->
  to_datetime_format_cell timestamp_format c = Raise e0 ->
  exists e, clean_frame d = Raise e.
Proof.
  intros Hget Hin Hbad. unfold clean_frame, to_datetime_format. rewrite Hget.
  destruct (res_map_raise _ _ _ _ Hin Hbad) as [e ->]. by exists e.
Qed.

(** C7, as the code has it.  A missing timestamp is not an error: it
    becomes [NaT].  A timestamp that is there and that the format
    rejects (a string, or a number through its [str]) is one: the
    script raises before any snapshot is written. *)
Theorem timestamp_parse_error_aborts (ds : Datasets) (w : World)
        (shards : list DataFrame) (column : list Cell) (c : Cell) (e0 : Exn) :
  (forall c0, isna c0 = true -> to_datetime_format_cell timestamp_format c0 = Ok NaT)
  ∧ (forall s, strptime timestamp_format s = None ->
               to_datetime_format_cell timestamp_format (Str s) = Raise (ValueError s))
  ∧ (shards_of ds shards ->
     Frame.getitem (Frame.concat shards) "timestamp" = Some column ->
     c ∈ column ->
     to_datetime_format_cell timestamp_format c = Raise e0 ->
     exists e, fst (dataFiles ds w) = Raise e
               ∧ pickles (snd (dataFiles ds w)) = pickles w).
Proof.
  split; [|split].
  - intros [] Hna; try discriminate; reflexivity.
  - intros s Hs. simpl. by rewrite Hs.
  - intros Hshards Hget Hin Hbad.
    destruct (clean_frame_raises _ _ _ _ Hget Hin Hbad) as [e1 Hraise].
    destruct (load_and_clean ds w) as [[[[logs attrs] jrnls]|e] w1] eqn:Hrun.
    + apply load_and_clean_run in Hrun as (_ & (shards' & dl & Hshards' & Hclean & _) & _).
      rewrite (shards_of_unique _ _ _ Hshards' Hshards) in Hclean. congruence.
    + rewrite (dataFiles_raise_early _ _ _ _ Hrun). exists e. split; [reflexivity|].
      by apply load_and_clean_run in Hrun as [Hp _].
Qed.

Lemma getitem_is_column d (col : string) (cells : list Cell) :
  Frame.getitem d col = Some cells -> col ∈ Frame.columns d.
Proof.
  intros Hget. apply existsb_eqb_elem, getitem_columns. by exists cells.
Qed.

Lemma convert_column_columns d d' (col : string) :
  convert_column d col = Ok d' -> Frame.columns d' = Frame.columns d.
Proof. intros Hc. by apply convert_column_same_rows, same_rows_columns in Hc. Qed.

Lemma convert_column_other d d' (col col' : string) :
  convert_column d col = Ok d' -> col ≠ col' -> Frame.getitem d' col' = Frame.getitem d col'.
Proof.
  unfold convert_column. destruct (existsb _ _); [|by intros [= <-]].
  destruct (Frame.getitem d col) as [cells|]; [|discriminate].
  destruct (to_datetime cells) as [converted|]; [|discriminate].
  intros [= <-] Hne. by apply getitem_setitem_ne.
Qed.

Lemma convert_column_datetime d d' (col : string) (cells : list Cell) :
  convert_column d col = Ok d' -> Frame.getitem d' col = Some cells ->
  Forall (fun c => is_datetime c = true) cells.
Proof.
  unfold convert_column. destruct (existsb _ _) eqn:Hcol.
  - destruct (Frame.getitem d col) as [old|]; [|discriminate].
    destruct (to_datetime old) as [converted|] eqn:Hconv; [|discriminate].
    intros [= <-]. rewrite getitem_setitem_eq. intros [= <-].
    by apply to_datetime_ok in Hconv as (_ & ? & _).
  - intros [= <-] Hget. apply getitem_is_column, existsb_eqb_elem in Hget. congruence.
Qed.

(** Once converted, a column stays of datetime type through the
    conversions that follow. *)
Lemma convert_columns_keep_datetime (cols : list string) d d' (col : string) :
  convert_columns cols d = Ok d' ->
  (forall cells, Frame.getitem d col = Some cells ->
                 Forall (fun c => is_datetime c = true) cells) ->
  forall cells, Frame.getitem d' col = Some cells ->
                Forall (fun c => is_datetime c = true) cells.
Proof.
  revert d. induction cols as [|c0 cols IH]; intros d; simpl.
  - by intros [= <-].
  - destruct (convert_column d c0) as [d1|] eqn:Hc0; [|discriminate].
    intros Hrest Hd. apply (IH d1 Hrest). intros cells Hget.
    destruct (decide (c0 = col)) as [->|Hne].
    + by eapply convert_column_datetime.
    + apply Hd. by rewrite <- (convert_column_other _ _ _ _ Hc0 Hne).
Qed.

Lemma convert_columns_datetime (cols : list string) d d' (col : string) (cells : list Cell) :
  convert_columns cols d = Ok d' -> col ∈ cols ->
  Frame.getitem d' col = Some cells ->
  Forall (fun c => is_datetime c = true) cells.
Proof.
  revert d. induction cols as [|c0 cols IH]; intros d; simpl.
  - intros _ Hin. by apply elem_of_nil in Hin.
  - destruct (convert_column d c0) as [d1|] eqn:Hc0; [|discriminate].
    intros Hrest Hin Hget. destruct (decide (col ∈ cols)) as [Hlater|Hnot].
    + by apply (IH d1).
    + apply elem_of_cons in Hin as [->|Hin]; [|done].
      eapply (convert_columns_keep_datetime cols d1 d' c0 Hrest); [|exact Hget].
      intros cells1. apply (convert_column_datetime d d1 c0 cells1 Hc0).
Qed.

Lemma elem_of_time_columns d (col : string) :
  col ∈ time_columns d
  <-> col ∈ Frame.columns d ∧ PyStr.contains "time" (PyStr.lower col) = true.
Proof.
  unfold time_columns. rewrite !list_elem_of_In, filter_In. tauto.
Qed.

(** After lines 26-29 every column with [time] in its name is of
    datetime type. *)
Lemma convert_frame_datetime d d' :
  convert_frame d = Ok d' -> time_columns_datetime d'.
Proof.
  intros Hconv col cells Hname Hget.
  apply (convert_columns_datetime _ _ _ col cells Hconv); [|exact Hget].
  apply elem_of_time_columns. split; [|exact Hname].
  rewrite <- (same_rows_columns _ _ (convert_frame_same_rows _ _ Hconv)).
  by eapply getitem_is_column.
Qed.

Lemma convert_columns_raises (cols : list string) d (col : string) (cells : list Cell)
      (c : Cell) (e0 : Exn) :
  col ∈ cols ->
  Frame.getitem d col = Some cells ->
  c ∈ cells ->
  to_datetime_cell (inferred_parser cells) c = Raise e0 ->
  exists e, convert_columns cols d = Raise e.
Proof.
  revert d. induction cols as [|c0 cols IH]; intros d Hin Hget Hc Hbad.
  - by apply elem_of_nil in Hin.
  - simpl. destruct (decide (c0 = col)) as [->|Hne].
    + unfold convert_column.
      rewrite (proj2 (getitem_columns d col)) by (by exists cells).
      rewrite Hget. unfold to_datetime.
      destruct (res_map_raise _ _ _ _ Hc Hbad) as [e ->]. by exists e.
    + destruct (convert_column d c0) as [d1|e] eqn:Hc0; [|by exists e].
      apply (IH d1); [set_solver| |exact Hc|exact Hbad].
      by rewrite (convert_column_other _ _ _ _ Hc0 Hne).
Qed.

(** A value in a [time] column that the inferred parser rejects makes
    the conversion of its table raise. *)
Lemma convert_frame_raises d (col : string) (cells : list Cell) (c : Cell) (e0 : Exn) :
  PyStr.contains "time" (PyStr.lower col) = true ->
  Frame.getitem d col = Some cells ->
  c ∈ cells ->
  to_datetime_cell (inferred_parser cells) c = Raise e0 ->
  exists e, convert_frame d = Raise e.
Proof.
  intros Hname Hget Hc Hbad. apply (convert_columns_raises _ _ col cells c e0); try done.
  apply elem_of_time_columns. split; [by eapply getitem_is_column|exact Hname].
Qed.

Lemma folder_loaded_datetime (ds : Datasets) w (folder suffix : string) (tables : Dict) :
  folder_loaded ds w folder tables -> folder_saved w suffix tables ->
  forall name r, (name, r) ∈ tables ->
    exists d, heap w !! r = Some d
              ∧ pickles w !! snapshot_name name suffix = Some (pickle_dumps d)
              ∧ time_columns_datetime d.
Proof.
  intros (_ & _ & Hloaded) Hsaved name r Hin.
  destruct (Hloaded _ _ Hin) as (d0 & d1 & _ & Hconv & Hd1).
  destruct (Hsaved _ _ Hin) as (d1' & Hd1' & Hp).
  exists d1. split; [exact Hd1|]. split; [congruence|]. by eapply convert_frame_datetime.
Qed.

Lemma folder_loaded_converts (ds : Datasets) w (folder : string) (tables : Dict)
      (names : list string) (name : string) d0 :
  folder_loaded ds w folder tables ->
  csv_entries ds folder names -> name ∈ names ->
  csv_files ds !! path_join folder name = Some d0 ->
  exists d1, convert_frame d0 = Ok d1.
Proof.
  intros ((names' & (listing' & Hdir' & ->) & Hkeys) & _ & Hloaded)
         (listing & Hdir & ->) Hname Hcsv.
  assert (listing' = listing) as -> by congruence.
  apply elem_of_dict_keys in Hname. rewrite <- Hkeys in Hname.
  apply list_elem_of_fmap in Hname as ([name' r] & -> & Hin).
  destruct (Hloaded _ _ Hin) as (d0' & d1 & Hcsv' & Hconv & _).
  exists d1. simpl in *. congruence.
Qed.

(** C8.  When the script succeeds, every attributes and journals
    table, in memory and in its snapshot, has datetime type ([NaT] for
    a missing value) in every column whose lower-cased name contains
    [time]; and a value in such a column of a [.csv] file of either
    folder that the parser rejects makes the script raise. *)
Theorem time_columns_are_datetime (ds : Datasets) (w : World) :
  (forall vars w', dataFiles ds w = (Ok vars, w') ->
     (forall name r, (name, r) ∈ attributes vars ->
        exists d, heap w' !! r = Some d
                  ∧ pickles w' !! snapshot_name name "_attributes.pkl" = Some (pickle_dumps d)
                  ∧ time_columns_datetime d)
     ∧ (forall name r, (name, r) ∈ journals vars ->
          exists d, heap w' !! r = Some d
                    ∧ pickles w' !! snapshot_name name "_journals.pkl" = Some (pickle_dumps d)
                    ∧ time_columns_datetime d))
  ∧ (forall folder names name d0 col cells c e0,
       folder = "Datasets/Attributes" ∨ folder = "Datasets/Journals" ->
       csv_entries ds folder names -> name ∈ names ->
       csv_files ds !! path_join folder name = Some d0 ->
       PyStr.contains "time" (PyStr.lower col) = true ->
       Frame.getitem d0 col = Some cells ->
       c ∈ cells ->
       to_datetime_cell (inferred_parser cells) c = Raise e0 ->
       exists e, fst (dataFiles ds w) = Raise e).
Proof.
  split.
  - intros vars w' Hrun.
    apply dataFiles_run in Hrun as (_ & _ & Hla & Hsa & Hlj & Hsj & _).
    split; by eapply folder_loaded_datetime.
  - intros folder names name d0 col cells c e0 Hfolder Hentries Hname Hcsv Hcol Hget Hc Hbad.
    destruct (convert_frame_raises _ _ _ _ _ Hcol Hget Hc Hbad) as [e1 Hraise].
    destruct (dataFiles ds w) as [[vars|e] w'] eqn:Hrun; [|by exists e].
    apply dataFiles_run in Hrun as (_ & _ & Hla & _ & Hlj & _).
    destruct Hfolder as [-> | ->].
    + destruct (folder_loaded_converts _ _ _ _ _ _ _ Hla Hentries Hname Hcsv) as [d1 Hd1].
      congruence.
    + destruct (folder_loaded_converts _ _ _ _ _ _ _ Hlj Hentries Hname Hcsv) as [d1 Hd1].
      congruence.
Qed.

End ParseErrors.

Section ParseErrorExamples.
Local Existing Instance Demo.lib.

Lemma shards_malformed_log :
  shards_of Demo.dataset_malformed_log (map snd (Demo.shards Demo.log_malformed)).
Proof. unfold shards_of. by_computation. Qed.

Lemma shards_with_gap :
  shards_of Demo.dataset_with_gap (map snd (Demo.shards Demo.log_with_gap)).
Proof. unfold shards_of. by_computation. Qed.

Lemma timestamp_parse_error_aborts_witness :
  exists e, fst (dataFiles Demo.dataset_malformed_log Demo.empty_world) = Raise e
            ∧ pickles (snd (dataFiles Demo.dataset_malformed_log Demo.empty_world))
              = pickles Demo.empty_world.
Proof.
  destruct (timestamp_parse_error_aborts Demo.dataset_malformed_log Demo.empty_world
              (map snd (Demo.shards Demo.log_malformed))
              [Str "2022-03-01T08:00:00Z"; Str "01/03/2022 08:00"]
              (Str "01/03/2022 08:00") (ValueError "01/03/2022 08:00"))
    as (_ & _ & Hraise).
  apply Hraise.
  - exact shards_malformed_log.
  - vm_compute; reflexivity.
  - right. left.
  - vm_compute; reflexivity.
Defined.

(** A status log with a missing timestamp: the value is in the column,
    it is not a string in the format, and the script succeeds with
    [NaT] in its place. *)
Lemma missing_timestamp_is_not_an_error :
  shards_of Demo.dataset_with_gap (map snd (Demo.shards Demo.log_with_gap))
  ∧ Frame.getitem (Frame.concat (map snd (Demo.shards Demo.log_with_gap))) "timestamp"
    = Some [Str "2022-03-01T08:00:00Z"; NaN]
  ∧ ~ (exists s, NaN = Str s ∧ is_Some (strptime timestamp_format s))
  ∧ fst (dataFiles Demo.dataset_with_gap Demo.empty_world) = Ok Demo.vars_with_gap
  ∧ pickles (snd (dataFiles Demo.dataset_with_gap Demo.empty_world))
      !! "processed_participant_status_logs.pkl"
    = Some [("timestamp", [Datetime 1646121600000000000; NaT]);
            ("participantId", [Int 1; Int 2])].
Proof.
  split; [exact shards_with_gap|].
  split; [vm_compute; reflexivity|]. split; [by intros (s & Hs & _)|].
  split; vm_compute; reflexivity.
Qed.

Lemma time_columns_are_datetime_witness :
  (exists d, pickles (snd Demo.run_with_gap) !! snapshot_name "SocialNetwork.csv" "_journals.pkl"
               = Some (pickle_dumps d)
             ∧ time_columns_datetime d)
  ∧ Frame.getitem Demo.social "Timestamp"
    = Some [Str "2022-03-01T08:00:00Z"; Str "2022-03-01T23:00:00Z"; Str "2022-03-02T00:00:01Z"]
  ∧ pickles (snd Demo.run_with_gap) !! snapshot_name "SocialNetwork.csv" "_journals.pkl"
    = Some [("participantIdFrom", [Int 1; Int 1; Int 2]);
            ("participantIdTo", [Int 2; Int 2; NaN]);
            ("Timestamp", [Datetime 1646121600000000000; Datetime 1646175600000000000;
                           Datetime 1646179201000000000])]
  ∧ exists e, fst (dataFiles Demo.dataset_malformed_journal Demo.empty_world) = Raise e.
Proof.
  destruct (time_columns_are_datetime Demo.dataset_with_gap Demo.empty_world) as [Hok _].
  destruct (time_columns_are_datetime Demo.dataset_malformed_journal Demo.empty_world)
    as [_ Hraise].
  split; [|split; [reflexivity|split; [vm_compute; reflexivity|]]].
  - destruct (Hok _ _ run_with_gap_ok) as [_ Hj].
    destruct (Hj "SocialNetwork.csv" 76%nat) as (d & _ & Hp & Hd); [left|].
    exists d. by split.
  - apply (Hraise "Datasets/Journals" ["SocialNetwork.csv"] "SocialNetwork.csv"
             Demo.social_malformed "timestamp" [Str "yesterday"] (Str "yesterday")
             (ValueError "yesterday")).
    + by right.
    + exists ["SocialNetwork.csv"]. split; vm_compute; reflexivity.
    + left.
    + vm_compute; reflexivity.
    + reflexivity.
    + reflexivity.
    + left.
    + vm_compute; reflexivity.
Defined.

End ParseErrorExamples.

(* --------------------------------------------------------------------- *)
(** ** [dataFiles.py]: when it succeeds and how it fails                  *)
(* --------------------------------------------------------------------- *)

Section EtlSteps.
Context `{PandasLib}.
Implicit Types (w : World) (r : ref) (d : DataFrame).

(** A comprehension over files stops at the first that is missing. *)
Lemma read_all_first_missing {A} (ds : Datasets) (path : A -> string)
      (pre : list A) (x : A) (post : list A) w :
  (forall y, y ∈ pre -> is_Some (csv_files ds !! path y)) ->
  csv_files ds !! path x = None ->
  exists w',
    list_comprehension (pre ++ x :: post) (fun y => read_csv ds (path y)) w
    = (Raise (FileNotFoundError (path x)), w')
    ∧ pickles w' = pickles w.
Proof.
  revert w. induction pre as [|y pre IH]; intros w Hpre Hx.
  - exists w. cbn [app list_comprehension]. unfold bind, read_csv. rewrite Hx. by split.
  - destruct (Hpre y) as [dy Hy]; [by left|].
    cbn [app list_comprehension]. unfold bind at 1, read_csv at 1. rewrite Hy. cbn [alloc].
    destruct (IH {| heap := heap w ++ [dy]; pickles := pickles w |}) as (w' & Hrun & Hp).
    { intros z Hz. apply Hpre. by right. }
    { exact Hx. }
    exists w'. unfold bind at 1. rewrite Hrun. by split.
Qed.

Lemma load_status_logs_ok (ds : Datasets) (shards : list DataFrame) w :
  shards_of ds shards ->
  exists logs w',
    load_status_logs ds w = (Ok logs, w')
    ∧ heap w' !! logs = Some (Frame.concat shards)
    ∧ pickles w' = pickles w
    ∧ forall r d, heap w !! r = Some d -> heap w' !! r = Some d.
Proof.
  intros Hshards. destruct (load_status_logs ds w) as [[logs|e] w'] eqn:Hrun.
  - destruct (confined_run (fun _ => False) _ _ _ _ (confined_load_status_logs _ ds) Hrun)
      as (Hp & _ & Hk).
    apply load_status_logs_run in Hrun as (shards' & Hshards' & Hlogs).
    rewrite (shards_of_unique _ _ _ Hshards' Hshards) in Hlogs.
    exists logs, w'. split; [reflexivity|]. split; [exact Hlogs|]. split; [exact Hp|].
    intros r d Hr. apply Hk; [exact Hr|tauto].
  - apply load_status_logs_run in Hrun. by destruct (Hrun shards).
Qed.

Lemma load_status_logs_missing (ds : Datasets) (i : nat) w :
  first_missing_shard ds i ->
  exists w',
    load_status_logs ds w = (Raise (FileNotFoundError (status_log_path i)), w')
    ∧ pickles w' = pickles w.
Proof.
  intros (Hi & Hnone & Hbefore).
  assert (Hseq : seq 0 72 = seq 0 i ++ i :: seq (S i) (72 - S i)).
  { replace 72%nat with (i + S (72 - S i))%nat at 1 by lia.
    rewrite seq_app. simpl. reflexivity. }
  destruct (read_all_first_missing ds status_log_path (seq 0 i) i (seq (S i) (72 - S i)) w)
    as (w' & Hrun & Hp).
  { intros j Hj. apply Hbefore. apply list_elem_of_In, in_seq in Hj. lia. }
  { exact Hnone. }
  exists w'. unfold load_status_logs, bind. rewrite Hseq, Hrun. by split.
Qed.

(** The loops of lines 22-23 and 35-36 cannot fail. *)
Lemma drop_missing_ok (tables : Dict) w :
  (forall name r, (name, r) ∈ tables -> is_Some (heap w !! r)) ->
  exists w', drop_missing tables w = (Ok tt, w').
Proof.
  revert w. induction tables as [|[name r] tables IH]; intros w Hlive.
  - by exists w.
  - destruct (Hlive name r) as [d Hd]; [by left|].
    unfold drop_missing. cbn [for_each]. unfold bind at 1 2.
    rewrite (method_dropna_run _ _ _ Hd). cbn [ret].
    apply IH. intros name' r' Hin. destruct (Hlive name' r') as [d' Hd']; [by right|].
    exists d'. simpl. by apply lookup_app_l_Some.
Qed.

Lemma load_folder_ok (ds : Datasets) (folder : string) (listing : list string) w :
  directories ds !! folder = Some listing ->
  (forall name, name ∈ List.filter (PyStr.endswith ".csv") listing ->
                is_Some (csv_files ds !! path_join folder name)) ->
  exists tables w', load_folder ds folder w = (Ok tables, w').
Proof.
  intros Hdir Hfiles. destruct (load_folder ds folder w) as [[tables|e] w'] eqn:Hrun;
    [by exists tables, w'|].
  exfalso. revert Hrun. unfold load_folder, bind, listdir. rewrite Hdir. cbn [ret].
  intros Hrun.
  apply (dict_comprehension_run _ _ _ _ _ _ _ (read_csv_allocates ds folder)) in Hrun.
  - destruct Hrun as (k & Hk & Hnone). destruct (Hfiles k Hk) as [d Hd].
    cbv beta in Hnone. congruence.
  - constructor.
  - intros k r Hin. by apply elem_of_nil in Hin.
Qed.

Lemma load_folder_no_directory (ds : Datasets) (folder : string) w :
  directories ds !! folder = None ->
  load_folder ds folder w = (Raise (FileNotFoundError folder), w).
Proof. intros Hdir. unfold load_folder, bind, listdir. by rewrite Hdir. Qed.

End EtlSteps.

Section EtlStages.
Context `{PandasLib}.
Implicit Types (w : World) (r : ref) (d : DataFrame).

(** Lines 19-29 (and 32-42) on a folder that is ready: the three
    steps succeed, write no snapshot and leave the objects that were
    there before as they were. *)
Lemma folder_stage_ok (ds : Datasets) (folder : string) w :
  folder_ready ds folder ->
  exists tables w1 w2 w3,
    load_folder ds folder w = (Ok tables, w1)
    ∧ drop_missing tables w1 = (Ok tt, w2)
    ∧ convert_time_columns tables w2 = (Ok tt, w3)
    ∧ pickles w3 = pickles w
    ∧ forall r d, heap w !! r = Some d -> heap w3 !! r = Some d.
Proof.
  intros (listing & Hdir & Hready).
  destruct (load_folder_ok ds folder listing w Hdir) as (tables & w1 & H1).
  { intros name Hname. destruct (Hready name Hname) as (d0 & _ & Hcsv & _). by exists d0. }
  destruct (confined_run (fun _ => False) _ _ _ _ (confined_load_folder _ ds _) H1)
    as (Hp1 & _ & Hk1).
  pose proof (load_folder_run _ _ _ _ _ H1) as ((names & (listing' & Hdir' & ->) & Hkeys)
                                                & Hnd & Hel).
  assert (listing' = listing) as -> by congruence.
  destruct (drop_missing_ok tables w1) as (w2 & H2).
  { intros name r Hin. destruct (Hel _ _ Hin) as (_ & d0 & _ & Hd0). by exists d0. }
  destruct (confined_run (fun _ => False) _ _ _ _ (confined_drop_missing _ tables) H2)
    as (Hp2 & _ & Hk2).
  destruct (convert_time_columns tables w2) as [res w3] eqn:H3.
  destruct (confined_run _ _ _ _ _ (confined_convert_time_columns tables) H3)
    as (Hp3 & _ & Hk3).
  exists tables, w1, w2, w3.
  assert (res = Ok tt) as ->.
  { apply convert_time_columns_run in H3; [|exact Hnd|].
    - destruct res as [[]|e]; [reflexivity|]. exfalso.
      destruct H3 as (name & r & d & e' & Hin & Hd & Hraise).
      destruct (Hel _ _ Hin) as (_ & d0 & Hcsv & Hd0).
      assert (d = d0) as ->.
      { apply (Hk2 r d0) in Hd0; [congruence|tauto]. }
      assert (Hname : name ∈ List.filter (PyStr.endswith ".csv") listing).
      { apply elem_of_dict_keys. rewrite <- Hkeys. apply list_elem_of_fmap.
        by exists (name, r). }
      destruct (Hready name Hname) as (d0' & d1 & Hcsv' & Hconv). congruence.
    - intros name r Hin. destruct (Hel _ _ Hin) as (_ & d0 & _ & Hd0).
      exists d0. apply Hk2; [exact Hd0|tauto]. }
  split; [exact H1|]. split; [exact H2|]. split; [exact H3|].
  split; [congruence|].
  intros r d Hr. apply Hk3; [apply Hk2; [apply Hk1; [exact Hr|tauto]|tauto]|].
  intros ([name r'] & Heq & Hin)%list_elem_of_fmap. simpl in Heq. subst r'.
  destruct (Hel _ _ Hin) as (Hge & _). apply lookup_lt_Some in Hr. lia.
Qed.

(** Lines 10-45 on shards and folders that are ready: everything up
    to line 45 succeeds, and line 45 decides. *)
Lemma load_and_clean_exact (ds : Datasets) (shards : list DataFrame) w :
  shards_of ds shards ->
  folder_ready ds "Datasets/Attributes" ->
  folder_ready ds "Datasets/Journals" ->
  exists logs attrs jrnls w7,
    load_and_clean ds w
    = match clean_frame (Frame.concat shards) with
      | Ok cleaned => (Ok (logs, attrs, jrnls), set_object w7 logs cleaned)
      | Raise e => (Raise e, w7)
      end
    ∧ pickles w7 = pickles w
    ∧ heap w7 !! logs = Some (Frame.concat shards).
Proof.
  intros Hshards Ha Hj.
  destruct (load_status_logs_ok ds shards w Hshards) as (logs & w1 & H1 & Hlogs1 & Hp1 & _).
  destruct (folder_stage_ok ds _ w1 Ha) as (attrs & w2 & w3 & w4 & H2 & H3 & H4 & Hp4 & Hk4).
  destruct (folder_stage_ok ds _ w4 Hj) as (jrnls & w5 & w6 & w7 & H5 & H6 & H7 & Hp7 & Hk7).
  exists logs, attrs, jrnls, w7.
  split; [|split; [congruence|by apply Hk7, Hk4]].
  unfold load_and_clean.
  unfold bind at 1. rewrite H1. unfold bind at 1. rewrite H2.
  unfold bind at 1. rewrite H3. unfold bind at 1. rewrite H4.
  unfold bind at 1. rewrite H5. unfold bind at 1. rewrite H6.
  unfold bind at 1. rewrite H7. unfold bind at 1.
  rewrite (clean_timestamp_run w7 logs (Frame.concat shards)) by (by apply Hk7, Hk4).
  by destruct (clean_frame (Frame.concat shards)).
Qed.

End EtlStages.

Lemma dict_get_None (dict : Dict) (k : string) :
  dict_get dict k = None <-> k ∉ map fst dict.
Proof.
  induction dict as [|[k0 r0] dict IH]; simpl.
  - split; [intros _ Hin; by apply elem_of_nil in Hin|done].
  - destruct (String.eqb_spec k0 k) as [->|Hne].
    + split; [discriminate|]. intros Hnot. exfalso. apply Hnot. by left.
    + rewrite IH. split.
      * intros Hnot [->|Hin]%elem_of_cons; [done|by apply Hnot].
      * intros Hnot Hin. apply Hnot. by right.
Qed.

Lemma all_columns_two (d : DataFrame) (a b : string) :
  FrameGroup.all_columns d [a; b] = true
  <-> is_Some (Frame.getitem d a) ∧ is_Some (Frame.getitem d b).
Proof.
  unfold FrameGroup.all_columns. simpl. rewrite andb_true_r, andb_true_iff.
  by rewrite !getitem_columns.
Qed.

Lemma size_by_two_columns (d : DataFrame) (a b name : string) :
  match FrameGroup.size_by_columns d [a; b] name with
  | Ok _ => is_Some (Frame.getitem d a) ∧ is_Some (Frame.getitem d b)
  | Raise e => (Frame.getitem d a = None ∧ e = KeyError a)
               ∨ (is_Some (Frame.getitem d a) ∧ Frame.getitem d b = None ∧ e = KeyError b)
  end.
Proof.
  unfold FrameGroup.size_by_columns. cbn [res_map].
  destruct (Frame.getitem d a) as [ca|]; [|by left].
  destruct (Frame.getitem d b) as [cb|]; [by split|].
  right. split; [by eexists|]. by split.
Qed.

(** With both keys among the columns the grouping is by columns. *)
Lemma groupby_size_columns (d : DataFrame) (a b name : string) :
  is_Some (Frame.getitem d a) -> is_Some (Frame.getitem d b) ->
  FrameGroup.groupby_size d [a; b] name = FrameGroup.size_by_columns d [a; b] name.
Proof.
  intros Ha Hb. unfold FrameGroup.groupby_size.
  by rewrite (proj2 (all_columns_two d a b) (conj Ha Hb)).
Qed.

(** With a key that is no column and exactly two rows, the two keys
    are the labels of the two rows. *)
Lemma groupby_size_labels (d : DataFrame) (a b name : string) :
  ~ (is_Some (Frame.getitem d a) ∧ is_Some (Frame.getitem d b)) ->
  Frame.nrows d = 2%nat ->
  FrameGroup.groupby_size d [a; b] name = Ok (FrameGroup.size_by_labels [a; b] name).
Proof.
  intros Hnot Hrows. unfold FrameGroup.groupby_size. rewrite Hrows.
  destruct (FrameGroup.all_columns d [a; b]) eqn:Hall; [|reflexivity].
  by apply all_columns_two in Hall.
Qed.

Lemma groupby_two_columns (d : DataFrame) (a b name : string) :
  match FrameGroup.groupby_size d [a; b] name with
  | Ok _ => (is_Some (Frame.getitem d a) ∧ is_Some (Frame.getitem d b))
            ∨ Frame.nrows d = 2%nat
  | Raise e => Frame.nrows d ≠ 2%nat
               ∧ ((Frame.getitem d a = None ∧ e = KeyError a)
                  ∨ (is_Some (Frame.getitem d a) ∧ Frame.getitem d b = None
                     ∧ e = KeyError b))
  end.
Proof.
  unfold FrameGroup.groupby_size.
  destruct (FrameGroup.all_columns d [a; b]) eqn:Hall; cbn [negb andb List.length].
  - apply all_columns_two in Hall. pose proof (size_by_two_columns d a b name) as Hsize.
    destruct (FrameGroup.size_by_columns d [a; b] name) as [counts|e]; [by left|].
    exfalso. destruct Hall as [[? Ha] [? Hb]].
    destruct Hsize as [[Hnone _]|(_ & Hnone & _)]; congruence.
  - destruct (Nat.eqb_spec 2 (Frame.nrows d)) as [Heq|Hne]; [by right|].
    pose proof (size_by_two_columns d a b name) as Hsize.
    destruct (FrameGroup.size_by_columns d [a; b] name) as [counts|e].
    + apply all_columns_two in Hsize. congruence.
    + split; [congruence|exact Hsize].
Qed.

Lemma household_groupable_iff (d : DataFrame) :
  household_groupable d
  <-> exists counts,
        FrameGroup.groupby_size d ["householdSize"; "haveKids"] "count" = Ok counts.
Proof.
  pose proof (groupby_two_columns d "householdSize" "haveKids" "count") as Hgroup.
  destruct (FrameGroup.groupby_size d _ _) as [counts|e].
  - split; [by eexists|]. intros _. exact Hgroup.
  - split; [|by intros [? ?]]. intros [[[? Hsize] [? Hkids]]|Hrows]; exfalso.
    + destruct Hgroup as (_ & [[Hnone _]|(_ & Hnone & _)]); congruence.
    + by destruct Hgroup as [Hne _].
Qed.

Lemma same_rows_groupable (d0 d1 : DataFrame) :
  same_rows d0 d1 -> household_groupable d0 <-> household_groupable d1.
Proof.
  intros Hsame. unfold household_groupable, household_columns.
  rewrite <- !getitem_columns.
  by rewrite (same_rows_columns _ _ Hsame), (same_rows_nrows _ _ Hsame).
Qed.

Section EtlTail.
Context `{PandasLib}.
Implicit Types (w : World) (r : ref) (d : DataFrame).

(** Lines 48-52 cannot fail on live tables; they write the three
    kinds of snapshot and nothing else. *)
Lemma save_tables_run (logs : ref) (attrs jrnls : Dict) w (dl : DataFrame) :
  heap w !! logs = Some dl ->
  (forall name r, (name, r) ∈ attrs -> is_Some (heap w !! r)) ->
  (forall name r, (name, r) ∈ jrnls -> is_Some (heap w !! r)) ->
  exists w',
    save_tables logs attrs jrnls w = (Ok tt, w')
    ∧ heap w' = heap w
    ∧ pickles w' !! "processed_participant_status_logs.pkl" = Some (pickle_dumps dl)
    ∧ (NoDup (map fst attrs) ->
       forall name r d, (name, r) ∈ attrs -> heap w !! r = Some d ->
         pickles w' !! snapshot_name name "_attributes.pkl" = Some (pickle_dumps d))
    ∧ (NoDup (map fst jrnls) ->
       forall name r d, (name, r) ∈ jrnls -> heap w !! r = Some d ->
         pickles w' !! snapshot_name name "_journals.pkl" = Some (pickle_dumps d))
    ∧ (forall path,
         path ≠ "processed_participant_status_logs.pkl" ->
         (forall name, name ∈ map fst attrs -> snapshot_name name "_attributes.pkl" ≠ path) ->
         (forall name, name ∈ map fst jrnls -> snapshot_name name "_journals.pkl" ≠ path) ->
         pickles w' !! path = pickles w !! path).
Proof.
  intros Hdl Hla Hlj. unfold save_tables. unfold bind at 1.
  rewrite (to_pickle_run _ _ _ _ Hdl).
  set (w1 := {| heap := heap w; pickles := _ |}).
  destruct (save_loop_run "_attributes.pkl" attrs w1 Hla) as (w2 & H2 & Hh2 & Ho2 & Hm2).
  destruct (save_loop_run "_journals.pkl" jrnls w2) as (w3 & H3 & Hh3 & Ho3 & Hm3).
  { intros name r Hin. rewrite Hh2. by apply (Hlj name r). }
  exists w3. unfold bind at 1. rewrite H2, H3.
  split; [reflexivity|]. split; [by rewrite Hh3, Hh2|].
  split; [|split; [|split]].
  - rewrite Ho3 by (intros name _; apply snapshot_journals_logs).
    rewrite Ho2 by (intros name _; apply snapshot_attributes_logs).
    apply lookup_insert_eq.
  - intros Hnd name r d Hin Hd.
    rewrite Ho3 by (intros name' _; apply not_eq_sym, snapshot_attributes_journals).
    by apply (Hm2 Hnd name r d Hin).
  - intros Hnd name r d Hin Hd. apply (Hm3 Hnd name r d Hin). by rewrite Hh2.
  - intros path Hlogs Ha Hj. rewrite (Ho3 path Hj), (Ho2 path Ha).
    simpl. by apply lookup_insert_ne.
Qed.

(** Lines 55-56, case by case. *)
Lemma save_household_kid_counts_run (attrs : Dict) w :
  save_household_kid_counts attrs w
  = match dict_get attrs "Participants.csv" with
    | None => (Raise (KeyError "Participants.csv"), w)
    | Some r =>
        match heap w !! r with
        | None => (Raise TypeError, w)
        | Some d =>
            match FrameGroup.groupby_size d ["householdSize"; "haveKids"] "count" with
            | Raise e => (Raise e, w)
            | Ok counts =>
                (Ok (List.length (heap w)),
                 {| heap := heap w ++ [counts];
                    pickles := <["processed_household_kid_counts.pkl" := pickle_dumps counts]>
                                 (pickles w) |})
            end
        end
    end.
Proof.
  unfold save_household_kid_counts, bind, dict_getitem.
  destruct (dict_get attrs "Participants.csv") as [r|]; [|reflexivity]. cbn [ret].
  unfold deref. destruct (heap w !! r) as [d|]; [|reflexivity].
  destruct (FrameGroup.groupby_size d _ _) as [counts|e]; [|reflexivity].
  cbn [lift ret alloc]. unfold to_pickle, bind, deref. cbn [heap pickles].
  by rewrite list_lookup_middle.
Qed.

(** The script after line 45: the table snapshots are written, and
    lines 55-56 decide. *)
Lemma dataFiles_after_clean (ds : Datasets) w (logs : ref) (attrs jrnls : Dict) w1 :
  load_and_clean ds w = (Ok (logs, attrs, jrnls), w1) ->
  exists w2,
    save_tables logs attrs jrnls w1 = (Ok tt, w2)
    ∧ dataFiles ds w
      = match save_household_kid_counts attrs w2 with
        | (Ok counts, w3) =>
            (Ok {| dfParticipantStatusLogs := logs; attributes := attrs;
                   journals := jrnls; householdKidCounts := counts |}, w3)
        | (Raise e, w3) => (Raise e, w3)
        end.
Proof.
  intros Hrun. pose proof (load_and_clean_run _ _ _ _ Hrun) as (_ & Hlogs & Ha & Hj).
  destruct Hlogs as (shards & dl & _ & _ & Hdl).
  destruct (save_tables_run logs attrs jrnls w1 dl Hdl) as (w2 & H2 & _).
  { intros name r Hin. destruct Ha as (_ & _ & Hel).
    destruct (Hel _ _ Hin) as (? & d1 & _ & _ & ?). by exists d1. }
  { intros name r Hin. destruct Hj as (_ & _ & Hel).
    destruct (Hel _ _ Hin) as (? & d1 & _ & _ & ?). by exists d1. }
  exists w2. split; [exact H2|]. unfold dataFiles. unfold bind at 1. rewrite Hrun.
  unfold bind at 1. rewrite H2. unfold bind at 1.
  by destruct (save_household_kid_counts attrs w2) as [[counts|e] w3].
Qed.

End EtlTail.


Section EtlOutcome.
Context `{PandasLib}.
Implicit Types (w : World) (r : ref) (d : DataFrame).

Lemma same_rows_has_column (d0 d1 : DataFrame) (col : string) :
  same_rows d0 d1 -> is_Some (Frame.getitem d0 col) <-> is_Some (Frame.getitem d1 col).
Proof.
  intros Hsame. rewrite <- !getitem_columns. by rewrite (same_rows_columns _ _ Hsame).
Qed.

Lemma folder_loaded_ready (ds : Datasets) w (folder : string) (tables : Dict) :
  folder_loaded ds w folder tables -> folder_ready ds folder.
Proof.
  intros ((names & (listing & Hdir & ->) & Hkeys) & _ & Hel).
  exists listing. split; [exact Hdir|]. intros name Hname.
  apply elem_of_dict_keys in Hname. rewrite <- Hkeys in Hname.
  apply list_elem_of_fmap in Hname as ([name' r] & -> & Hin).
  destruct (Hel _ _ Hin) as (d0 & d1 & Hcsv & Hconv & _). by exists d0, d1.
Qed.

Lemma folder_loaded_entry (ds : Datasets) w (folder : string) (tables : Dict)
      (listing : list string) (name : string) :
  folder_loaded ds w folder tables ->
  directories ds !! folder = Some listing ->
  name ∈ map fst tables <-> name ∈ List.filter (PyStr.endswith ".csv") listing.
Proof.
  intros ((names & (listing' & Hdir' & ->) & Hkeys) & _) Hdir.
  assert (listing' = listing) as -> by congruence.
  by rewrite Hkeys, elem_of_dict_keys.
Qed.

Lemma csv_name_listed (listing : list string) :
  "Participants.csv" ∈ List.filter (PyStr.endswith ".csv") listing
  <-> "Participants.csv" ∈ listing.
Proof. rewrite !list_elem_of_In, filter_In. split; [tauto|]. intros Hin. by split. Qed.

(** Lines 11-50 after a successful load: the three kinds of table
    snapshots are written, the objects stay as they are, and the
    script's outcome is the outcome of lines 52-56. *)
Lemma clean_then_save (ds : Datasets) w (logs : ref) (attrs jrnls : Dict) w1 :
  load_and_clean ds w = (Ok (logs, attrs, jrnls), w1) ->
  exists dl w2,
    heap w1 !! logs = Some dl
    ∧ heap w2 = heap w1
    ∧ dataFiles ds w
      = match save_household_kid_counts attrs w2 with
        | (Ok counts, w3) =>
            (Ok {| dfParticipantStatusLogs := logs; attributes := attrs;
                   journals := jrnls; householdKidCounts := counts |}, w3)
        | (Raise e, w3) => (Raise e, w3)
        end
    ∧ pickles w2 !! "processed_participant_status_logs.pkl" = Some (pickle_dumps dl)
    ∧ (forall name r d, (name, r) ∈ attrs -> heap w1 !! r = Some d ->
         pickles w2 !! snapshot_name name "_attributes.pkl" = Some (pickle_dumps d))
    ∧ (forall name r d, (name, r) ∈ jrnls -> heap w1 !! r = Some d ->
         pickles w2 !! snapshot_name name "_journals.pkl" = Some (pickle_dumps d))
    ∧ (forall path,
         path ≠ "processed_participant_status_logs.pkl" ->
         (forall name, name ∈ map fst attrs -> snapshot_name name "_attributes.pkl" ≠ path) ->
         (forall name, name ∈ map fst jrnls -> snapshot_name name "_journals.pkl" ≠ path) ->
         pickles w2 !! path = pickles w !! path).
Proof.
  intros Hload.
  pose proof (load_and_clean_run _ _ _ _ Hload) as (Hp & (shards & dl & _ & _ & Hdl) & Ha & Hj).
  destruct (dataFiles_after_clean _ _ _ _ _ _ Hload) as (w2 & Hsave & Hfiles).
  destruct (save_tables_run logs attrs jrnls w1 dl Hdl)
    as (w2' & Hsave' & Hheap & Hl & Hsa & Hsj & Ho).
  { intros name r Hin. destruct Ha as (_ & _ & Hel).
    destruct (Hel _ _ Hin) as (? & d1 & _ & _ & ?). by exists d1. }
  { intros name r Hin. destruct Hj as (_ & _ & Hel).
    destruct (Hel _ _ Hin) as (? & d1 & _ & _ & ?). by exists d1. }
  assert (w2' = w2) as -> by congruence.
  exists dl, w2. split; [exact Hdl|]. split; [exact Hheap|]. split; [exact Hfiles|].
  split; [exact Hl|].
  split; [exact (Hsa (folder_loaded_NoDup_keys _ _ _ _ Ha))|].
  split; [exact (Hsj (folder_loaded_NoDup_keys _ _ _ _ Hj))|].
  intros path H1 H2 H3. rewrite (Ho path H1 H2 H3). by rewrite Hp.
Qed.

(** A ready input runs to the end, and the last step is the grouping
    of the converted participants table. *)
Lemma dataFiles_ready_run (ds : Datasets) (w : World) :
  etl_ready ds ->
  exists logs attrs jrnls w1 w2 r d1 counts,
    load_and_clean ds w = (Ok (logs, attrs, jrnls), w1)
    ∧ heap w2 = heap w1
    ∧ dict_get attrs "Participants.csv" = Some r
    ∧ heap w1 !! r = Some d1
    ∧ FrameGroup.groupby_size d1 ["householdSize"; "haveKids"] "count" = Ok counts
    ∧ dataFiles ds w
      = (Ok {| dfParticipantStatusLogs := logs; attributes := attrs;
               journals := jrnls; householdKidCounts := List.length (heap w2) |},
         {| heap := heap w2 ++ [counts];
            pickles := <["processed_household_kid_counts.pkl" := pickle_dumps counts]>
                         (pickles w2) |}).
Proof.
  intros ((shards & dl & Hshards & Hclean) & Ha & Hj & Hp).
  destruct (load_and_clean_exact ds shards w Hshards Ha Hj)
    as (logs & attrs & jrnls & w7 & Hrun & _ & _).
  rewrite Hclean in Hrun.
  destruct (clean_then_save _ _ _ _ _ _ Hrun) as (dl' & w2 & _ & Hheap & Hfiles & _).
  pose proof (load_and_clean_run _ _ _ _ Hrun) as (_ & _ & Hloaded & _).
  destruct Hp as (listing & d0 & Hdir & Hlisted & Hcsv & Hcols).
  assert (Hkey : "Participants.csv" ∈ map fst attrs).
  { apply (folder_loaded_entry _ _ _ _ listing _ Hloaded Hdir). by apply csv_name_listed. }
  apply list_elem_of_fmap in Hkey as ([name r] & Hname & Hin). simpl in Hname. subst name.
  pose proof (folder_loaded_NoDup_keys _ _ _ _ Hloaded) as Hnd.
  pose proof (proj2 (dict_get_elem _ _ _ Hnd) Hin) as Hget.
  destruct Hloaded as (_ & _ & Hel).
  destruct (Hel _ _ Hin) as (d0' & d1 & Hcsv' & Hconv & Hd1).
  assert (d0' = d0) as -> by congruence.
  rewrite save_household_kid_counts_run, Hget, Hheap, Hd1 in Hfiles.
  pose proof (convert_frame_same_rows _ _ Hconv) as Hsame.
  apply (same_rows_groupable _ _ Hsame), household_groupable_iff in Hcols as [counts Hcounts].
  rewrite Hcounts in Hfiles.
  exists logs, attrs, jrnls, (set_object w7 logs dl), w2, r, d1, counts.
  rewrite Hheap. by repeat split.
Qed.

End EtlOutcome.


Section EtlFailures.
Context `{PandasLib}.
Implicit Types (w : World) (r : ref) (d : DataFrame).

Lemma res_map_first_raise {A B} (f : A -> Res B) (good : list A) (a : A) (rest : list A)
      (e : Exn) :
  Forall (fun c => exists b, f c = Ok b) good -> f a = Raise e ->
  res_map f (good ++ a :: rest) = Raise e.
Proof.
  intros Hgood Ha. induction Hgood as [|c good [b Hb] _ IH]; simpl.
  - by rewrite Ha.
  - by rewrite Hb, IH.
Qed.

Lemma household_not_table (ds : Datasets) :
  ~ table_snapshot ds "processed_household_kid_counts.pkl".
Proof.
  intros [Hl|[(names & name & _ & _ & Heq)|(names & name & _ & _ & Heq)]].
  - discriminate.
  - by eapply snapshot_attributes_counts.
  - by eapply snapshot_journals_counts.
Qed.

Lemma folder_loaded_cached (ds : Datasets) w1 w2 (folder suffix : string) (tables : Dict) :
  folder_loaded ds w1 folder tables ->
  (forall name r d, (name, r) ∈ tables -> heap w1 !! r = Some d ->
     pickles w2 !! snapshot_name name suffix = Some (pickle_dumps d)) ->
  folder_cached ds w2 folder suffix.
Proof.
  intros ((names & Hnames & Hkeys) & _ & Hel) Hsaved names' name (listing & Hdir & ->) Hname.
  destruct Hnames as (listing' & Hdir' & ->).
  assert (listing' = listing) as -> by congruence.
  apply elem_of_dict_keys in Hname. rewrite <- Hkeys in Hname.
  apply list_elem_of_fmap in Hname as ([name' r] & -> & Hin).
  destruct (Hel _ _ Hin) as (d0 & d1 & Hcsv & Hconv & Hd1).
  exists d0, d1. split; [exact Hcsv|]. split; [exact Hconv|]. by eapply Hsaved.
Qed.

(** After a successful load, lines 48-52 write the table snapshots
    and nothing else; the outcome is that of lines 54-56. *)
Lemma tables_then_counts (ds : Datasets) w (logs : ref) (attrs jrnls : Dict) w1 :
  load_and_clean ds w = (Ok (logs, attrs, jrnls), w1) ->
  exists w2,
    heap w2 = heap w1
    ∧ dataFiles ds w
      = match save_household_kid_counts attrs w2 with
        | (Ok counts, w3) =>
            (Ok {| dfParticipantStatusLogs := logs; attributes := attrs;
                   journals := jrnls; householdKidCounts := counts |}, w3)
        | (Raise e, w3) => (Raise e, w3)
        end
    ∧ tables_cached ds w2
    ∧ (forall path, ~ table_snapshot ds path -> pickles w2 !! path = pickles w !! path).
Proof.
  intros Hload.
  destruct (clean_then_save _ _ _ _ _ _ Hload)
    as (dl & w2 & Hdl & Hheap & Hfiles & Hl & Hsa & Hsj & Ho).
  pose proof (load_and_clean_run _ _ _ _ Hload)
    as (_ & (shards & dl' & Hshards & Hclean & Hdl') & Ha & Hj).
  assert (dl' = dl) as -> by congruence.
  exists w2. split; [exact Hheap|]. split; [exact Hfiles|]. split.
  - split; [by exists shards, dl|]. split; by eapply folder_loaded_cached.
  - intros path Hpath. apply Ho.
    + intros ->. apply Hpath. by left.
    + intros name Hname <-. apply Hpath. right. left.
      destruct Ha as ((names & Hnames & Hkeys) & _).
      exists names, name. split; [exact Hnames|]. split; [|reflexivity].
      apply elem_of_dict_keys. by rewrite <- Hkeys.
    + intros name Hname <-. apply Hpath. right. right.
      destruct Hj as ((names & Hnames & Hkeys) & _).
      exists names, name. split; [exact Hnames|]. split; [|reflexivity].
      apply elem_of_dict_keys. by rewrite <- Hkeys.
Qed.

Lemma logs_stage_raise (ds : Datasets) w (e : Exn) w1 :
  load_status_logs ds w = (Raise e, w1) -> dataFiles ds w = (Raise e, w1).
Proof.
  intros Hrun. apply dataFiles_raise_early. unfold load_and_clean. unfold bind at 1.
  by rewrite Hrun.
Qed.

(** X2.  When a shard of the status log is missing, the script stops
    at the first missing one with [FileNotFoundError] for its path
    (lines 11-14), and the cache directory is as it was. *)
Theorem missing_shard_aborts (ds : Datasets) (i : nat) (w : World) :
  first_missing_shard ds i ->
  fst (dataFiles ds w) = Raise (FileNotFoundError (status_log_path i))
  ∧ pickles (snd (dataFiles ds w)) = pickles w.
Proof.
  intros Hmissing.
  destruct (load_status_logs_missing ds i w Hmissing) as (w' & Hrun & Hp).
  by rewrite (logs_stage_raise _ _ _ _ Hrun).
Qed.

Lemma attributes_stage_raise (ds : Datasets) (shards : list DataFrame) w :
  shards_of ds shards ->
  directories ds !! "Datasets/Attributes" = None ->
  exists w1, dataFiles ds w = (Raise (FileNotFoundError "Datasets/Attributes"), w1)
             ∧ pickles w1 = pickles w.
Proof.
  intros Hshards Hdir.
  destruct (load_status_logs_ok ds shards w Hshards) as (logs & w1 & H1 & _ & Hp & _).
  exists w1. split; [|exact Hp].
  apply dataFiles_raise_early. unfold load_and_clean. unfold bind at 1. rewrite H1.
  unfold bind at 1. by rewrite (load_folder_no_directory _ _ _ Hdir).
Qed.

Lemma journals_stage_raise (ds : Datasets) (shards : list DataFrame) w :
  shards_of ds shards ->
  folder_ready ds "Datasets/Attributes" ->
  directories ds !! "Datasets/Journals" = None ->
  exists w1, dataFiles ds w = (Raise (FileNotFoundError "Datasets/Journals"), w1)
             ∧ pickles w1 = pickles w.
Proof.
  intros Hshards Ha Hdir.
  destruct (load_status_logs_ok ds shards w Hshards) as (logs & w1 & H1 & _ & Hp1 & _).
  destruct (folder_stage_ok ds _ w1 Ha) as (attrs & w2 & w3 & w4 & H2 & H3 & H4 & Hp4 & _).
  exists w4. split; [|congruence].
  apply dataFiles_raise_early. unfold load_and_clean. unfold bind at 1. rewrite H1.
  unfold bind at 1. rewrite H2. unfold bind at 1. rewrite H3.
  unfold bind at 1. rewrite H4. unfold bind at 1.
  by rewrite (load_folder_no_directory _ _ _ Hdir).
Qed.

(** X3.  With all the shards there: a data set without the
    [Datasets/Attributes] folder makes [os.listdir] raise
    [FileNotFoundError] for it at line 20; a data set in which every
    attributes table can be read and converted and that has no
    [Datasets/Journals] folder makes it raise for that folder at
    line 33.  No snapshot is written in either case, although the
    tables before the line have been read. *)
Theorem missing_folder_aborts (ds : Datasets) (shards : list DataFrame) (w : World)
        (folder : string) :
  shards_of ds shards ->
  folder = "Datasets/Attributes"
  ∨ (folder = "Datasets/Journals" ∧ folder_ready ds "Datasets/Attributes") ->
  directories ds !! folder = None ->
  fst (dataFiles ds w) = Raise (FileNotFoundError folder)
  ∧ pickles (snd (dataFiles ds w)) = pickles w.
Proof.
  intros Hshards [->|[-> Ha]] Hdir.
  - destruct (attributes_stage_raise ds shards w Hshards Hdir) as (w1 & -> & Hp). by split.
  - destruct (journals_stage_raise ds shards w Hshards Ha Hdir) as (w1 & -> & Hp). by split.
Qed.

Lemma clean_stage_raise (ds : Datasets) (shards : list DataFrame) w (e : Exn) :
  shards_of ds shards ->
  folder_ready ds "Datasets/Attributes" -> folder_ready ds "Datasets/Journals" ->
  clean_frame (Frame.concat shards) = Raise e ->
  fst (dataFiles ds w) = Raise e ∧ pickles (snd (dataFiles ds w)) = pickles w.
Proof.
  intros Hshards Ha Hj Hclean.
  destruct (load_and_clean_exact ds shards w Hshards Ha Hj)
    as (logs & attrs & jrnls & w7 & Hrun & Hp & _).
  rewrite Hclean in Hrun. by rewrite (dataFiles_raise_early _ _ _ _ Hrun).
Qed.

(** X4.  With the shards and both folders readable, line 45 decides
    and its exception is exact: [KeyError 'timestamp'] when no shard
    has that column, and [ValueError] naming the first string the
    format rejects when all values before it convert.  No snapshot is
    written in either case. *)
Theorem timestamp_error_is_exact (ds : Datasets) (shards : list DataFrame) (w : World) :
  shards_of ds shards ->
  folder_ready ds "Datasets/Attributes" -> folder_ready ds "Datasets/Journals" ->
  (Frame.getitem (Frame.concat shards) "timestamp" = None ->
     fst (dataFiles ds w) = Raise (KeyError "timestamp")
     ∧ pickles (snd (dataFiles ds w)) = pickles w)
  ∧ (forall good s rest,
       Frame.getitem (Frame.concat shards) "timestamp" = Some (good ++ Str s :: rest) ->
       Forall (fun c => exists c', to_datetime_format_cell timestamp_format c = Ok c') good ->
       strptime timestamp_format s = None ->
       fst (dataFiles ds w) = Raise (ValueError s)
       ∧ pickles (snd (dataFiles ds w)) = pickles w).
Proof.
  intros Hshards Ha Hj. split.
  - intros Hnone. apply (clean_stage_raise ds shards w _ Hshards Ha Hj).
    unfold clean_frame. by rewrite Hnone.
  - intros good s rest Hcol Hgood Hs. apply (clean_stage_raise ds shards w _ Hshards Ha Hj).
    unfold clean_frame, to_datetime_format. rewrite Hcol.
    rewrite (res_map_first_raise _ good (Str s) rest (ValueError s) Hgood); [reflexivity|].
    simpl. by rewrite Hs.
Qed.

Lemma counts_stage_raise (ds : Datasets) w (logs : ref) (attrs jrnls : Dict) w1 w2 (e : Exn) :
  dataFiles ds w
  = match save_household_kid_counts attrs w2 with
    | (Ok counts, w3) =>
        (Ok {| dfParticipantStatusLogs := logs; attributes := attrs;
               journals := jrnls; householdKidCounts := counts |}, w3)
    | (Raise e, w3) => (Raise e, w3)
    end ->
  save_household_kid_counts attrs w2 = (Raise e, w1) ->
  dataFiles ds w = (Raise e, w1).
Proof. intros -> ->. reflexivity. Qed.

(** X5.  Without a [Participants.csv] entry in [Datasets/Attributes],
    line 55 raises [KeyError 'Participants.csv'], and it does so after
    lines 48-52: the snapshots of the status log, of every attributes
    table and of every journal have been written, while the household
    snapshot is the one that was there before, if any. *)
Theorem participants_missing_leaves_partial_cache (ds : Datasets) (shards : list DataFrame)
        (dl : DataFrame) (w : World) :
  shards_of ds shards ->
  clean_frame (Frame.concat shards) = Ok dl ->
  folder_ready ds "Datasets/Attributes" -> folder_ready ds "Datasets/Journals" ->
  (forall listing, directories ds !! "Datasets/Attributes" = Some listing ->
                   "Participants.csv" ∉ listing) ->
  fst (dataFiles ds w) = Raise (KeyError "Participants.csv")
  ∧ tables_cached ds (snd (dataFiles ds w))
  ∧ pickles (snd (dataFiles ds w)) !! "processed_household_kid_counts.pkl"
    = pickles w !! "processed_household_kid_counts.pkl".
Proof.
  intros Hshards Hclean Ha Hj Hnone.
  destruct (load_and_clean_exact ds shards w Hshards Ha Hj)
    as (logs & attrs & jrnls & w7 & Hrun & _ & _).
  rewrite Hclean in Hrun.
  destruct (tables_then_counts _ _ _ _ _ _ Hrun) as (w2 & _ & Hfiles & Hcached & Hother).
  pose proof (load_and_clean_run _ _ _ _ Hrun) as (_ & _ & Hloaded & _).
  assert (Hget : dict_get attrs "Participants.csv" = None).
  { apply dict_get_None. intros Hkey.
    pose proof Hloaded as ((names & (listing & Hdir & ->) & _) & _).
    apply (folder_loaded_entry _ _ _ _ listing _ Hloaded Hdir) in Hkey.
    apply (proj1 (csv_name_listed _)) in Hkey.
    by apply (Hnone listing Hdir). }
  rewrite (counts_stage_raise _ _ _ _ _ w2 w2 (KeyError "Participants.csv") Hfiles).
  - split; [reflexivity|]. split; [exact Hcached|]. apply Hother, household_not_table.
  - by rewrite save_household_kid_counts_run, Hget.
Qed.

End EtlFailures.


Section EtlCacheContent.
Context `{PandasLib}.
Implicit Types (w : World) (r : ref) (d : DataFrame).

Lemma dataFiles_ok_ready (ds : Datasets) w (vars : EtlVars) w' :
  dataFiles ds w = (Ok vars, w') -> etl_ready ds.
Proof.
  intros Hrun.
  destruct (load_and_clean ds w) as [[[[logs attrs] jrnls]|e] w1] eqn:Hload.
  2:{ rewrite (dataFiles_raise_early _ _ _ _ Hload) in Hrun. discriminate. }
  pose proof (load_and_clean_run _ _ _ _ Hload)
    as (_ & (shards & dl & Hshards & Hclean & _) & Ha & Hj).
  destruct (tables_then_counts _ _ _ _ _ _ Hload) as (w2 & Hheap & Hfiles & _).
  rewrite Hrun, save_household_kid_counts_run in Hfiles.
  destruct (dict_get attrs "Participants.csv") as [r|] eqn:Hget; [|discriminate].
  destruct (heap w2 !! r) as [d|] eqn:Hd; [|discriminate].
  assert (Hgroup : household_groupable d).
  { apply household_groupable_iff.
    destruct (FrameGroup.groupby_size d _ _) as [counts|e]; [by eexists|discriminate]. }
  split; [by exists shards, dl|]. split; [by eapply folder_loaded_ready|].
  split; [by eapply folder_loaded_ready|].
  pose proof (dict_get_Some_elem _ _ _ Hget) as Hin.
  pose proof Ha as ((names & (listing & Hdir & ->) & Hkeys) & _ & Hel).
  destruct (Hel _ _ Hin) as (d0 & d1 & Hcsv & Hconv & Hd1).
  exists listing, d0. split; [exact Hdir|]. split.
  - apply (proj1 (csv_name_listed _)), (folder_loaded_entry _ _ _ _ listing _ Ha Hdir).
    apply list_elem_of_fmap. by exists ("Participants.csv", r).
  - split; [exact Hcsv|].
    rewrite Hheap, Hd1 in Hd. injection Hd as <-.
    pose proof (convert_frame_same_rows _ _ Hconv) as Hsame.
    by apply (same_rows_groupable _ _ Hsame).
Qed.

(** X1.  The script runs to the end exactly when the input is ready:
    all 72 shards are there and their [timestamp] column converts,
    both folders can be listed and each of their [.csv] files can be
    read and converted, and [Participants.csv] is among the
    attributes and line 55 can group it: it has the [householdSize]
    and [haveKids] columns, or it has exactly two rows, in which case
    the two keys are taken as row labels.  Neither the objects
    already in memory nor the files already in the cache directory
    make a difference. *)
Theorem dataFiles_succeeds_iff (ds : Datasets) (w : World) :
  etl_ready ds <-> exists vars w', dataFiles ds w = (Ok vars, w').
Proof.
  split.
  - intros Hready.
    destruct (dataFiles_ready_run ds w Hready)
      as (logs & attrs & jrnls & w1 & w2 & r & d1 & counts & _ & _ & _ & _ & _ & Hrun).
    eauto.
  - intros (vars & w' & Hrun). by eapply dataFiles_ok_ready.
Qed.

Lemma folder_snapshot_dec (ds : Datasets) (folder suffix path : string) :
  (exists names name, csv_entries ds folder names ∧ name ∈ names
                      ∧ path = snapshot_name name suffix)
  ∨ ~ (exists names name, csv_entries ds folder names ∧ name ∈ names
                          ∧ path = snapshot_name name suffix).
Proof.
  destruct (directories ds !! folder) as [listing|] eqn:Hdir.
  - set (names := List.filter (PyStr.endswith ".csv") listing).
    destruct (decide (path ∈ map (fun n => snapshot_name n suffix) names)) as [Hin|Hout].
    + left. apply list_elem_of_fmap in Hin as (name & -> & Hin).
      exists names, name. split; [by exists listing|]. by split.
    + right. intros (names' & name & (listing' & Hdir' & ->) & Hin & ->).
      apply Hout. assert (listing' = listing) as -> by congruence.
      apply list_elem_of_fmap. by exists name.
  - right. intros (names' & name & (listing' & Hdir' & _) & _). congruence.
Qed.

Lemma written_dec (ds : Datasets) (path : string) : written ds path ∨ ~ written ds path.
Proof.
  unfold written, table_snapshot.
  destruct (decide (path = "processed_participant_status_logs.pkl")); [left; left; left; done|].
  destruct (decide (path = "processed_household_kid_counts.pkl")); [left; right; done|].
  destruct (folder_snapshot_dec ds "Datasets/Attributes" "_attributes.pkl" path) as [Ha|Ha];
    [left; left; right; left; done|].
  destruct (folder_snapshot_dec ds "Datasets/Journals" "_journals.pkl" path) as [Hj|Hj];
    [left; left; right; right; done|].
  right. intros [[?|[?|?]]|?]; tauto.
Qed.

Lemma tables_cached_agree (ds : Datasets) w w' :
  tables_cached ds w ->
  (forall path, table_snapshot ds path -> pickles w' !! path = pickles w !! path) ->
  tables_cached ds w'.
Proof.
  intros ((shards & dl & Hshards & Hclean & Hl) & Ha & Hj) Hagree. split; [|split].
  - exists shards, dl. split; [exact Hshards|]. split; [exact Hclean|].
    rewrite Hagree; [exact Hl|by left].
  - intros names name Hnames Hname.
    destruct (Ha names name Hnames Hname) as (d0 & d1 & ? & ? & Hp).
    exists d0, d1. split; [done|]. split; [done|].
    rewrite Hagree; [exact Hp|]. right. left. by exists names, name.
  - intros names name Hnames Hname.
    destruct (Hj names name Hnames Hname) as (d0 & d1 & ? & ? & Hp).
    exists d0, d1. split; [done|]. split; [done|].
    rewrite Hagree; [exact Hp|]. right. right. by exists names, name.
Qed.

(** What a successful run leaves in the cache directory, file by
    file, in terms of the input alone. *)
Lemma dataFiles_cache (ds : Datasets) w (vars : EtlVars) w' :
  dataFiles ds w = (Ok vars, w') ->
  tables_cached ds w' ∧ household_cached ds w'
  ∧ forall path, ~ written ds path -> pickles w' !! path = pickles w !! path.
Proof.
  intros Hrun.
  destruct (load_and_clean ds w) as [[[[logs attrs] jrnls]|e] w1] eqn:Hload.
  2:{ rewrite (dataFiles_raise_early _ _ _ _ Hload) in Hrun. discriminate. }
  pose proof (load_and_clean_run _ _ _ _ Hload) as (_ & _ & Ha & _).
  destruct (tables_then_counts _ _ _ _ _ _ Hload) as (w2 & Hheap & Hfiles & Hcached & Hother).
  rewrite Hrun, save_household_kid_counts_run in Hfiles.
  destruct (dict_get attrs "Participants.csv") as [r|] eqn:Hget; [|discriminate].
  destruct (heap w2 !! r) as [d|] eqn:Hd; [|discriminate].
  destruct (FrameGroup.groupby_size d _ _) as [counts|e] eqn:Hcounts; [|discriminate].
  injection Hfiles as _ ->. simpl.
  split; [|split].
  - apply (tables_cached_agree ds w2); [exact Hcached|]. intros path Hpath. simpl.
    apply lookup_insert_ne. intros <-. by apply (household_not_table ds).
  - pose proof (dict_get_Some_elem _ _ _ Hget) as Hin.
    destruct Ha as (_ & _ & Hel).
    destruct (Hel _ _ Hin) as (d0 & d1 & Hcsv & Hconv & Hd1).
    rewrite Hheap, Hd1 in Hd. injection Hd as <-.
    exists d0, d1, counts. split; [exact Hcsv|]. split; [exact Hconv|].
    split; [exact Hcounts|]. simpl. apply lookup_insert_eq.
  - intros path Hpath. simpl. rewrite lookup_insert_ne.
    + apply Hother. intros Htable. apply Hpath. by left.
    + intros <-. apply Hpath. by right.
Qed.

(** X7.  Whatever the outcome, the script leaves alone every file of
    the cache directory that is not one of its own: the status-log
    snapshot, the household snapshot and one snapshot per [.csv]
    entry of the two folders. *)
Theorem foreign_files_untouched (ds : Datasets) (w : World) (path : string) :
  ~ written ds path ->
  pickles (snd (dataFiles ds w)) !! path = pickles w !! path.
Proof.
  intros Hpath.
  destruct (dataFiles ds w) as [[vars|e] w'] eqn:Hrun.
  - by apply (dataFiles_cache _ _ _ _ Hrun).
  - simpl. destruct (load_and_clean ds w) as [[[[logs attrs] jrnls]|e1] w1] eqn:Hload.
    2:{ rewrite (dataFiles_raise_early _ _ _ _ Hload) in Hrun. injection Hrun as _ <-.
        apply load_and_clean_run in Hload as [Hp _]. by rewrite Hp. }
    destruct (tables_then_counts _ _ _ _ _ _ Hload) as (w2 & _ & Hfiles & _ & Hother).
    rewrite Hrun, save_household_kid_counts_run in Hfiles.
    assert (Hw2 : pickles w2 !! path = pickles w !! path).
    { apply Hother. intros Htable. apply Hpath. by left. }
    destruct (dict_get attrs "Participants.csv") as [r|]; [|by injection Hfiles as _ ->].
    destruct (heap w2 !! r) as [d|]; [|by injection Hfiles as _ ->].
    destruct (FrameGroup.groupby_size d _ _) as [counts|e2]; [discriminate|].
    by injection Hfiles as _ ->.
Qed.

Lemma same_files_refl (ds : Datasets) : same_files ds ds.
Proof.
  split; [reflexivity|]. intros folder. by destruct (directories ds !! folder).
Qed.

Lemma same_files_entries (ds ds' : Datasets) (folder : string) (names : list string) :
  same_files ds ds' -> csv_entries ds folder names ->
  exists names', csv_entries ds' folder names' ∧ forall name, name ∈ names <-> name ∈ names'.
Proof.
  intros [_ Hdirs] (listing & Hdir & ->). specialize (Hdirs folder). rewrite Hdir in Hdirs.
  destruct (directories ds' !! folder) as [listing'|] eqn:Hdir'; [|done].
  exists (List.filter (PyStr.endswith ".csv") listing'). split; [by exists listing'|].
  intros name. rewrite !list_elem_of_In, !filter_In, <- !list_elem_of_In.
  by rewrite Hdirs.
Qed.

Lemma same_files_sym (ds ds' : Datasets) : same_files ds ds' -> same_files ds' ds.
Proof.
  intros [Hcsv Hdirs]. split; [done|]. intros folder. specialize (Hdirs folder).
  destruct (directories ds !! folder), (directories ds' !! folder); done.
Qed.

Lemma same_files_shards (ds ds' : Datasets) (shards : list DataFrame) :
  same_files ds ds' -> shards_of ds shards -> shards_of ds' shards.
Proof. intros [Hcsv _]. unfold shards_of. by rewrite Hcsv. Qed.

Lemma same_files_folder_ready (ds ds' : Datasets) (folder : string) :
  same_files ds ds' -> folder_ready ds folder -> folder_ready ds' folder.
Proof.
  intros Hsame (listing & Hdir & Hready).
  destruct (same_files_entries ds ds' folder _ Hsame (ex_intro _ listing (conj Hdir eq_refl)))
    as (names' & (listing' & Hdir' & ->) & Hnames).
  exists listing'. split; [exact Hdir'|]. intros name Hname.
  apply Hnames in Hname. destruct Hsame as [-> _]. by apply Hready.
Qed.

Lemma same_files_ready (ds ds' : Datasets) :
  same_files ds ds' -> etl_ready ds -> etl_ready ds'.
Proof.
  intros Hsame ((shards & dl & Hshards & Hclean) & Ha & Hj & Hp).
  split; [exists shards, dl; split; [by eapply same_files_shards|done]|].
  split; [by eapply same_files_folder_ready|]. split; [by eapply same_files_folder_ready|].
  destruct Hp as (listing & d0 & Hdir & Hlisted & Hcsv & Hcols).
  pose proof Hsame as [Hfiles Hdirs]. specialize (Hdirs "Datasets/Attributes").
  rewrite Hdir in Hdirs.
  destruct (directories ds' !! "Datasets/Attributes") as [listing'|] eqn:Hdir'; [|done].
  exists listing', d0. split; [done|]. split; [by rewrite <- Hdirs|].
  split; [by rewrite Hfiles|done].
Qed.

Lemma same_files_written (ds ds' : Datasets) (path : string) :
  same_files ds ds' -> written ds path -> written ds' path.
Proof.
  intros Hsame [[Hl|[(names & name & Hnames & Hname & ->)|(names & name & Hnames & Hname & ->)]]|Hh].
  - left. by left.
  - destruct (same_files_entries _ _ _ _ Hsame Hnames) as (names' & Hnames' & Hiff).
    left. right. left. exists names', name. split; [done|]. split; [by apply Hiff|done].
  - destruct (same_files_entries _ _ _ _ Hsame Hnames) as (names' & Hnames' & Hiff).
    left. right. right. exists names', name. split; [done|]. split; [by apply Hiff|done].
  - by right.
Qed.

Lemma folder_cached_agree (ds ds' : Datasets) w w' (folder suffix : string)
      (names : list string) (name : string) :
  same_files ds ds' ->
  folder_cached ds w folder suffix -> folder_cached ds' w' folder suffix ->
  csv_entries ds folder names -> name ∈ names ->
  pickles w' !! snapshot_name name suffix = pickles w !! snapshot_name name suffix.
Proof.
  intros Hsame Hc Hc' Hnames Hname.
  destruct (same_files_entries _ _ _ _ Hsame Hnames) as (names' & Hnames' & Hiff).
  destruct (Hc names name Hnames Hname) as (d0 & d1 & Hcsv & Hconv & ->).
  destruct (Hc' names' name Hnames' (proj1 (Hiff name) Hname))
    as (d0' & d1' & Hcsv' & Hconv' & ->).
  destruct Hsame as [Hfiles _]. rewrite Hfiles in Hcsv'. congruence.
Qed.

(** The cache after a successful run is a function of the files and
    of what the cache held outside the script's own names; the order
    in which a folder is listed plays no part. *)
Lemma cache_determined (ds ds' : Datasets) w w' (vars vars' : EtlVars) w1 w1' :
  same_files ds ds' ->
  dataFiles ds w = (Ok vars, w1) -> dataFiles ds' w' = (Ok vars', w1') ->
  (forall path, ~ written ds path -> pickles w' !! path = pickles w !! path) ->
  pickles w1' = pickles w1.
Proof.
  intros Hsame Hrun Hrun' Hagree.
  destruct (dataFiles_cache _ _ _ _ Hrun) as (((shards & dl & Hshards & Hclean & Hl) & Ha & Hj)
                                               & (p0 & p1 & counts & Hp0 & Hp1 & Hcounts & Hh)
                                               & Hother).
  destruct (dataFiles_cache _ _ _ _ Hrun')
    as (((shards' & dl' & Hshards' & Hclean' & Hl') & Ha' & Hj')
        & (p0' & p1' & counts' & Hp0' & Hp1' & Hcounts' & Hh') & Hother').
  apply map_eq. intros path.
  destruct (written_dec ds path)
    as [[[-> | [(names & name & Hnames & Hname & ->) | (names & name & Hnames & Hname & ->)]] | ->]
        | Hout].
  - rewrite Hl, Hl'.
    rewrite (shards_of_unique _ _ _ Hshards' (same_files_shards _ _ _ Hsame Hshards)) in Hclean'.
    congruence.
  - by eapply folder_cached_agree.
  - by eapply folder_cached_agree.
  - rewrite Hh, Hh'. destruct Hsame as [Hfiles _]. rewrite Hfiles in Hp0'. congruence.
  - rewrite (Hother path Hout), <- (Hagree path Hout). apply Hother'.
    intros Hw. apply Hout. exact (same_files_written ds' ds path (same_files_sym _ _ Hsame) Hw).
Qed.

(** X8.  Running the script again on the same input succeeds again and
    leaves the cache directory exactly as the first run left it. *)
Theorem rerun_leaves_cache (ds : Datasets) (w : World) (vars : EtlVars) (w1 : World) :
  dataFiles ds w = (Ok vars, w1) ->
  exists vars' w2,
    dataFiles ds (fresh_process w1) = (Ok vars', w2) ∧ pickles w2 = pickles w1.
Proof.
  intros Hrun.
  destruct (dataFiles_ready_run ds (fresh_process w1) (dataFiles_ok_ready _ _ _ _ Hrun))
    as (logs & attrs & jrnls & v1 & v2 & r & d1 & counts & _ & _ & _ & _ & _ & Hrun').
  eexists _, _. split; [exact Hrun'|].
  apply map_eq. intros path.
  destruct (dataFiles_cache _ _ _ _ Hrun) as (Ht & Hh & _).
  destruct (dataFiles_cache _ _ _ _ Hrun') as (Ht' & Hh' & Hother').
  pose proof Ht as ((shards & dl & Hshards & Hclean & Hl) & Ha & Hj).
  pose proof Ht' as ((shards' & dl' & Hshards' & Hclean' & Hl') & Ha' & Hj').
  destruct Hh as (p0 & p1 & c & Hp0 & Hp1 & Hc & Hh).
  destruct Hh' as (p0' & p1' & c' & Hp0' & Hp1' & Hc' & Hh').
  destruct (written_dec ds path)
    as [[[-> | [(names & name & Hnames & Hname & ->) | (names & name & Hnames & Hname & ->)]] | ->]
        | Hout].
  - rewrite Hl, Hl'. rewrite (shards_of_unique _ _ _ Hshards' Hshards) in Hclean'. congruence.
  - by eapply (folder_cached_agree ds ds); [apply same_files_refl|..].
  - by eapply (folder_cached_agree ds ds); [apply same_files_refl|..].
  - rewrite Hh, Hh'. congruence.
  - by rewrite (Hother' path Hout).
Qed.

(** X9.  The cache does not depend on the order in which [os.listdir]
    returns the entries of a folder: on a data set with the same
    files and the same entries in another order the script succeeds
    as well and every file of the cache directory is the same. *)
Theorem listing_order_irrelevant (ds ds' : Datasets) (w : World) (vars : EtlVars)
        (w1 : World) :
  same_files ds ds' ->
  dataFiles ds w = (Ok vars, w1) ->
  exists vars' w1', dataFiles ds' w = (Ok vars', w1') ∧ pickles w1' = pickles w1.
Proof.
  intros Hsame Hrun.
  pose proof (same_files_ready _ _ Hsame (dataFiles_ok_ready _ _ _ _ Hrun)) as Hready.
  destruct (dataFiles_ready_run ds' w Hready)
    as (logs & attrs & jrnls & v1 & v2 & r & d1 & counts & _ & _ & _ & _ & _ & Hrun').
  eexists _, _. split; [exact Hrun'|].
  by apply (cache_determined ds ds' w w _ _ _ _ Hsame Hrun Hrun').
Qed.

End EtlCacheContent.


Section EtlInputs.
Context `{PandasLib}.

Lemma folder_ready_intro (ds : Datasets) (folder : string) (listing : list string) :
  directories ds !! folder = Some listing ->
  Forall (fun name => exists d0 d1, csv_files ds !! path_join folder name = Some d0
                                    ∧ convert_frame d0 = Ok d1)
         (List.filter (PyStr.endswith ".csv") listing) ->
  folder_ready ds folder.
Proof.
  intros Hdir Hall. exists listing. split; [exact Hdir|].
  intros name Hname. by apply (proj1 (Forall_forall _ _) Hall).
Qed.

Lemma written_first_char (ds : Datasets) (path : string) :
  written ds path -> exists rest, path = String "p" rest.
Proof.
  intros [[->|[(names & name & _ & _ & ->)|(names & name & _ & _ & ->)]]| ->];
    unfold snapshot_name; try rewrite append_cons; by eexists.
Qed.

Lemma with_listing_same_files (ds : Datasets) (folder : string) (listing listing' : list string) :
  directories ds !! folder = Some listing -> listing ≡ₚ listing' ->
  same_files ds (Sample.with_listing folder listing' ds).
Proof.
  intros Hdir Hperm. split; [reflexivity|]. intros other. simpl.
  destruct (decide (other = folder)) as [->|Hne].
  - by rewrite Hdir, lookup_insert_eq.
  - rewrite lookup_insert_ne by done. by destruct (directories ds !! other).
Qed.

End EtlInputs.
Section EtlExamples.
Local Existing Instance Demo.lib.

Lemma demo_folders_ready (log : DataFrame) :
  folder_ready (Demo.datasets log Demo.participants Demo.social) "Datasets/Attributes"
  ∧ folder_ready (Demo.datasets log Demo.participants Demo.social) "Datasets/Journals".
Proof.
  split.
  - apply (folder_ready_intro _ _ ["Participants.csv"; "notes.txt"]); [vm_compute; reflexivity|].
    constructor; [|constructor].
    exists Demo.participants. eexists. split; vm_compute; reflexivity.
  - apply (folder_ready_intro _ _ ["SocialNetwork.csv"]); [vm_compute; reflexivity|].
    constructor; [|constructor].
    exists Demo.social. eexists. split; vm_compute; reflexivity.
Qed.

Lemma dataFiles_succeeds_iff_witness :
  etl_ready Demo.dataset_with_gap
  ∧ exists vars w', dataFiles Demo.dataset_with_gap Sample.stale_world = (Ok vars, w').
Proof.
  assert (Hready : etl_ready Demo.dataset_with_gap).
  { apply (proj2 (dataFiles_succeeds_iff Demo.dataset_with_gap Demo.empty_world)).
    exists Demo.vars_with_gap, (snd Demo.run_with_gap). exact run_with_gap_ok. }
  split; [exact Hready|].
  exact (proj1 (dataFiles_succeeds_iff Demo.dataset_with_gap Sample.stale_world) Hready).
Defined.

Lemma missing_shard_aborts_witness :
  fst (dataFiles (Sample.without_shard 4 Demo.dataset_with_gap) Sample.stale_world)
  = Raise (FileNotFoundError "Datasets/ActivityLogs/ParticipantStatusLogs5.csv")
  ∧ pickles (snd (dataFiles (Sample.without_shard 4 Demo.dataset_with_gap) Sample.stale_world))
    = pickles Sample.stale_world.
Proof.
  refine (missing_shard_aborts (Sample.without_shard 4 Demo.dataset_with_gap) 4
            Sample.stale_world _).
  split; [lia|]. split; [vm_compute; reflexivity|].
  intros j Hj. destruct j as [|[|[|[|j]]]]; [vm_compute; by eexists ..|lia].
Defined.

Lemma shards_without_folder (folder : string) :
  shards_of (Sample.without_folder folder Demo.dataset_with_gap)
            (map snd (Demo.shards Demo.log_with_gap)).
Proof. exact shards_with_gap. Qed.

Lemma missing_folder_aborts_witness :
  fst (dataFiles (Sample.without_folder "Datasets/Journals" Demo.dataset_with_gap)
                 Sample.stale_world)
  = Raise (FileNotFoundError "Datasets/Journals")
  ∧ pickles (snd (dataFiles (Sample.without_folder "Datasets/Journals" Demo.dataset_with_gap)
                            Sample.stale_world))
    = pickles Sample.stale_world.
Proof.
  refine (missing_folder_aborts (Sample.without_folder "Datasets/Journals" Demo.dataset_with_gap)
            (map snd (Demo.shards Demo.log_with_gap)) Sample.stale_world "Datasets/Journals"
            (shards_without_folder _) _ _).
  - right. split; [reflexivity|].
    apply (folder_ready_intro _ _ ["Participants.csv"; "notes.txt"]); [vm_compute; reflexivity|].
    constructor; [|constructor].
    exists Demo.participants. eexists. split; vm_compute; reflexivity.
  - vm_compute; reflexivity.
Defined.

Lemma shards_no_timestamp :
  shards_of (Demo.datasets Sample.log_no_timestamp Demo.participants Demo.social)
            (map snd (Demo.shards Sample.log_no_timestamp)).
Proof. unfold shards_of. by_computation. Qed.

Lemma timestamp_error_is_exact_witness :
  fst (dataFiles (Demo.datasets Sample.log_no_timestamp Demo.participants Demo.social)
                 Demo.empty_world)
  = Raise (KeyError "timestamp")
  ∧ fst (dataFiles Demo.dataset_malformed_log Demo.empty_world)
    = Raise (ValueError "01/03/2022 08:00").
Proof.
  split.
  - refine (proj1 (proj1 (timestamp_error_is_exact
                     (Demo.datasets Sample.log_no_timestamp Demo.participants Demo.social)
                     (map snd (Demo.shards Sample.log_no_timestamp)) Demo.empty_world
                     shards_no_timestamp
                     (proj1 (demo_folders_ready _)) (proj2 (demo_folders_ready _))) _)).
    vm_compute; reflexivity.
  - refine (proj1 (proj2 (timestamp_error_is_exact
                     Demo.dataset_malformed_log
                     (map snd (Demo.shards Demo.log_malformed)) Demo.empty_world
                     shards_malformed_log
                     (proj1 (demo_folders_ready _)) (proj2 (demo_folders_ready _)))
                   [Str "2022-03-01T08:00:00Z"] "01/03/2022 08:00" [] _ _ _)).
    + vm_compute; reflexivity.
    + constructor; [|constructor]. eexists. vm_compute; reflexivity.
    + vm_compute; reflexivity.
Defined.

Lemma participants_missing_leaves_partial_cache_witness :
  fst (dataFiles (Sample.with_listing "Datasets/Attributes" ["notes.txt"] Demo.dataset_with_gap)
                 Sample.stale_world)
  = Raise (KeyError "Participants.csv")
  ∧ tables_cached (Sample.with_listing "Datasets/Attributes" ["notes.txt"] Demo.dataset_with_gap)
      (snd (dataFiles (Sample.with_listing "Datasets/Attributes" ["notes.txt"]
                         Demo.dataset_with_gap) Sample.stale_world))
  ∧ pickles (snd (dataFiles (Sample.with_listing "Datasets/Attributes" ["notes.txt"]
                               Demo.dataset_with_gap) Sample.stale_world))
      !! "processed_household_kid_counts.pkl"
    = Some [("count", [Int 7])].
Proof.
  refine (participants_missing_leaves_partial_cache
            (Sample.with_listing "Datasets/Attributes" ["notes.txt"] Demo.dataset_with_gap)
            (map snd (Demo.shards Demo.log_with_gap)) _ Sample.stale_world
            shards_with_gap _ _ _ _).
  - vm_compute; reflexivity.
  - apply (folder_ready_intro _ _ ["notes.txt"]); [vm_compute; reflexivity|]. constructor.
  - apply (folder_ready_intro _ _ ["SocialNetwork.csv"]); [vm_compute; reflexivity|].
    constructor; [|constructor].
    exists Demo.social. eexists. split; vm_compute; reflexivity.
  - intros listing Hdir. vm_compute in Hdir. injection Hdir as <-. by_computation.
Defined.

Lemma foreign_files_untouched_witness :
  pickles (snd (dataFiles Demo.dataset_with_gap Sample.stale_world)) !! "notes.pkl"
  = Some [("text", [Str "keep"])].
Proof.
  refine (foreign_files_untouched Demo.dataset_with_gap Sample.stale_world "notes.pkl" _).
  intros Hw. apply written_first_char in Hw as [rest Hrest]. discriminate.
Defined.

Lemma rerun_leaves_cache_witness :
  exists vars' w2,
    dataFiles Demo.dataset_with_gap (fresh_process (snd Demo.run_with_gap)) = (Ok vars', w2)
    ∧ pickles w2 = pickles (snd Demo.run_with_gap).
Proof.
  exact (rerun_leaves_cache Demo.dataset_with_gap Demo.empty_world Demo.vars_with_gap
           (snd Demo.run_with_gap) run_with_gap_ok).
Defined.

Lemma two_tables_run :
  exists vars w1, dataFiles Sample.dataset_two_tables Demo.empty_world = (Ok vars, w1).
Proof.
  assert (Hok : match fst (dataFiles Sample.dataset_two_tables Demo.empty_world) with
                | Ok _ => True
                | Raise _ => False
                end) by (vm_compute; exact I).
  destruct (dataFiles Sample.dataset_two_tables Demo.empty_world) as [[vars|e] w1];
    [by exists vars, w1|destruct Hok].
Qed.

Lemma listing_order_irrelevant_witness :
  exists vars' w1',
    dataFiles (Sample.with_listing "Datasets/Attributes"
                 ["notes.txt"; "Jobs.csv"; "Participants.csv"] Sample.dataset_two_tables)
              Demo.empty_world
    = (Ok vars', w1')
    ∧ pickles w1' = pickles (snd (dataFiles Sample.dataset_two_tables Demo.empty_world)).
Proof.
  destruct two_tables_run as (vars & w1 & Hrun). rewrite Hrun.
  refine (listing_order_irrelevant Sample.dataset_two_tables
            (Sample.with_listing "Datasets/Attributes"
               ["notes.txt"; "Jobs.csv"; "Participants.csv"] Sample.dataset_two_tables)
            Demo.empty_world vars w1 _ Hrun).
  apply (with_listing_same_files _ _ ["Participants.csv"; "Jobs.csv"; "notes.txt"]).
  - vm_compute; reflexivity.
  - by_computation.
Defined.

End EtlExamples.


(* --------------------------------------------------------------------- *)
(** ** The order of group keys                                            *)
(* --------------------------------------------------------------------- *)

Lemma ascii_compare_refl (a : ascii) : Ascii.compare a a = Eq.
Proof. unfold Ascii.compare. apply N.compare_refl. Qed.

Lemma ascii_compare_lt_trans (a b c : ascii) :
  Ascii.compare a b = Lt -> Ascii.compare b c = Lt -> Ascii.compare a c = Lt.
Proof. unfold Ascii.compare. rewrite !N.compare_lt_iff. lia. Qed.

Lemma string_compare_refl (s : string) : String.compare s s = Eq.
Proof. induction s as [|a s IH]; [reflexivity|]. simpl. by rewrite ascii_compare_refl. Qed.

Lemma string_compare_lt_trans (a b c : string) :
  String.compare a b = Lt -> String.compare b c = Lt -> String.compare a c = Lt.
Proof.
  revert b c. induction a as [|x a IH]; intros [|y b] [|z c]; simpl; try done.
  destruct (Ascii.compare x y) eqn:Hxy; try done;
    destruct (Ascii.compare y z) eqn:Hyz; try done.
  - apply Ascii.compare_eq_iff in Hxy as ->. apply Ascii.compare_eq_iff in Hyz as ->.
    rewrite ascii_compare_refl. apply IH.
  - apply Ascii.compare_eq_iff in Hxy as ->. by rewrite Hyz.
  - apply Ascii.compare_eq_iff in Hyz as <-. by rewrite Hxy.
  - by rewrite (ascii_compare_lt_trans _ _ _ Hxy Hyz).
Qed.

#[local] Instance string_compare_order : KeyOrder String.compare.
Proof.
  split.
  - apply String.compare_eq_iff.
  - apply string_compare_refl.
  - intros a b. apply String.compare_antisym.
  - apply string_compare_lt_trans.
Qed.

#[local] Instance cell_compare_order : KeyOrder cell_compare.
Proof.
  split.
  - intros [] []; simpl; try discriminate; try reflexivity.
    + intros ->%String.compare_eq_iff. reflexivity.
    + intros ->%Z.compare_eq. reflexivity.
    + destruct b, b0; simpl; try discriminate; reflexivity.
    + intros ->%Z.compare_eq. reflexivity.
  - intros []; simpl; try reflexivity.
    + apply string_compare_refl.
    + apply Z.compare_refl.
    + apply Z.compare_refl.
    + apply Z.compare_refl.
  - intros [] []; simpl; try reflexivity.
    + apply String.compare_antisym.
    + apply Z.compare_antisym.
    + apply Z.compare_antisym.
    + apply Z.compare_antisym.
  - intros [] [] []; simpl; try discriminate; try reflexivity.
    + apply string_compare_lt_trans.
    + rewrite !Z.compare_lt_iff. lia.
    + rewrite !Z.compare_lt_iff. lia.
    + rewrite !Z.compare_lt_iff. lia.
Qed.

#[local] Instance cells_compare_order : KeyOrder cells_compare.
Proof.
  split.
  - intros a. induction a as [|x a IH]; intros [|y b]; simpl; try done.
    destruct (cell_compare x y) eqn:Hxy; try done.
    apply cmp_eq in Hxy as ->. by intros ->%IH.
  - intros a. induction a as [|x a IH]; [reflexivity|]. simpl. by rewrite cmp_refl.
  - intros a. induction a as [|x a IH]; intros [|y b]; simpl; try done.
    rewrite (cmp_antisym x y). destruct (cell_compare x y); simpl; [apply IH|done..].
  - intros a. induction a as [|x a IH]; intros [|y b] [|z c]; simpl; try done.
    destruct (cell_compare x y) eqn:Hxy; try done;
      destruct (cell_compare y z) eqn:Hyz; try done.
    + apply cmp_eq in Hxy as ->. apply cmp_eq in Hyz as ->. rewrite cmp_refl. apply IH.
    + apply cmp_eq in Hxy as ->. by rewrite Hyz.
    + apply cmp_eq in Hyz as <-. by rewrite Hxy.
    + by rewrite (cmp_lt_trans _ _ _ Hxy Hyz).
Qed.

Section CountsFacts.

Lemma cell_total_counts {K : Type} (groups : list (K * Z)) :
  cell_total (map (fun g => Int (snd g)) groups) = sum_values groups.
Proof. induction groups as [|g groups IH]; [reflexivity|]. simpl. by rewrite IH. Qed.

Lemma zip_map_map {A B C : Type} (f : A -> B) (g : A -> C) (l : list A) :
  zip (map f l) (map g l) = map (fun x => (f x, g x)) l.
Proof. induction l as [|x l IH]; [reflexivity|]. simpl. by rewrite IH. Qed.

Lemma filter_filter_map_length {A B : Type} (f : A -> B) (p q : B -> bool) (l : list A) :
  List.length (List.filter q (List.filter p (map f l)))
  = List.length (List.filter (fun i => p (f i) && q (f i)) l).
Proof.
  induction l as [|x l IH]; [reflexivity|]. simpl.
  destruct (p (f x)); simpl; [|exact IH]. destruct (q (f x)); simpl; by rewrite IH.
Qed.

Lemma filter_map_length {A B : Type} (f : A -> B) (p : B -> bool) (l : list A) :
  List.length (List.filter p (map f l)) = List.length (List.filter (fun i => p (f i)) l).
Proof.
  induction l as [|x l IH]; [reflexivity|]. simpl. destruct (p (f x)); simpl; by rewrite IH.
Qed.

(** Every group of a [size()] has at least one row. *)
Lemma groupby_size_positive {K : Type} (cmp : K -> K -> comparison) (keys : list K) :
  Forall (fun g => 0 < snd g) (groupby_size cmp keys).
Proof.
  unfold groupby_size, groupby_sum.
  assert (Hadd : forall k g, Forall (fun g => 0 < snd g) g ->
                             Forall (fun g => 0 < snd g) (group_add cmp k 1 g)).
  { intros k g Hg. induction Hg as [|[k' v'] g Hv Hg IH]; simpl.
    - constructor; [simpl; lia|constructor].
    - destruct (cmp k k'); repeat constructor; simpl in *; try lia; done. }
  assert (Hfold : forall g, Forall (fun g => 0 < snd g) g ->
            Forall (fun g => 0 < snd g)
              (fold_left (fun groups '(k, v) => group_add cmp k v groups)
                 (map (fun k => (k, 1)) keys) g)).
  { induction keys as [|k keys IH]; intros g Hg; simpl; [exact Hg|]. apply IH, Hadd, Hg. }
  apply Hfold. constructor.
Qed.

(** The grouping by two columns, for any two keys and any name of
    the count column. *)
Lemma counts_by_two_columns (d : DataFrame) (a b name : string) :
  is_Some (Frame.getitem d a) -> is_Some (Frame.getitem d b) ->
  exists ka kb cnt,
    FrameGroup.groupby_size d [a; b] name = Ok [(a, ka); (b, kb); (name, cnt)]
    ∧ List.length ka = List.length cnt ∧ List.length kb = List.length cnt
    ∧ NoDup (zip ka kb)
    ∧ (forall i va vb c,
         ka !! i = Some va -> kb !! i = Some vb -> cnt !! i = Some c ->
         isna va = false ∧ isna vb = false
         ∧ rows_with d a b va vb ≠ []
         ∧ c = Int (Z.of_nat (List.length (rows_with d a b va vb))))
    ∧ cell_total cnt = Z.of_nat (List.length (complete_rows d [a; b])).
Proof.
  intros Ha Hb. rewrite (groupby_size_columns d a b name Ha Hb).
  unfold FrameGroup.size_by_columns. cbn [res_map].
  destruct Ha as [ca Hga]. destruct Hb as [cb Hgb]. rewrite Hga, Hgb.
  set (key := FrameGroup.key_of [ca; cb]).
  set (present := List.filter (fun k => negb (existsb isna k))
                              (map key (seq 0 (Frame.nrows d)))).
  set (groups := groupby_size cells_compare present).
  assert (Hpresent : forall k, k ∈ present ->
            exists x y, k = [x; y] ∧ isna x = false ∧ isna y = false).
  { intros k Hk. apply list_elem_of_In, filter_In in Hk as [Hk Hna].
    apply in_map_iff in Hk as (i & <- & _). unfold key, FrameGroup.key_of in *. simpl in *.
    eexists _, _. split; [reflexivity|].
    destruct (isna (default NaN (ca !! i))), (isna (default NaN (cb !! i))); done. }
  assert (Hgroups : forall k v, (k, v) ∈ groups ->
            k ∈ present
            ∧ v = Z.of_nat (List.length (List.filter (fun k' => bool_decide (k' = k)) present))).
  { intros k v Hin. apply (elem_of_groupby_sum cells_compare) in Hin as [Hk ->].
    assert (Hid : map fst (map (fun k' : list Cell => (k', 1)) present) = present).
    { clear. induction present as [|k' l IH]; [reflexivity|]. simpl. by rewrite IH. }
    rewrite Hid in Hk. split; [exact Hk|]. apply key_total_ones. }
  assert (Hnd : NoDup (map fst groups)).
  { apply (ascending_NoDup cells_compare), ascending_groupby_sum; apply _. }
  eexists _, _, _. split; [reflexivity|].
  split; [by rewrite !length_map|]. split; [by rewrite !length_map|].
  split; [|split].
  - rewrite zip_map_map.
    assert (Hmap : map (fun g : list Cell * Z =>
                          (default NaN (fst g !! 0%nat), default NaN (fst g !! 1%nat))) groups
                   = map (fun k : list Cell => (default NaN (k !! 0%nat), default NaN (k !! 1%nat)))
                         (map fst groups)) by (by rewrite map_map).
    rewrite Hmap. apply NoDup_fmap_2_strong; [|exact Hnd].
    intros k1 k2 Hk1 Hk2 Heq.
    apply list_elem_of_fmap in Hk1 as ([k1' v1] & -> & Hin1).
    apply list_elem_of_fmap in Hk2 as ([k2' v2] & -> & Hin2).
    apply Hgroups in Hin1 as [Hp1 _]. apply Hgroups in Hin2 as [Hp2 _].
    destruct (Hpresent _ Hp1) as (x1 & y1 & Hk1 & _).
    destruct (Hpresent _ Hp2) as (x2 & y2 & Hk2 & _).
    simpl in *. subst k1' k2'. simpl in Heq. by injection Heq as -> ->.
  - intros i va vb c Hka Hkb Hc.
    rewrite list_lookup_fmap in Hka, Hkb, Hc.
    destruct (groups !! i) as [[k v]|] eqn:Hg; [|discriminate].
    simpl in Hka, Hkb, Hc. injection Hka as <-. injection Hkb as <-. injection Hc as <-.
    apply list_elem_of_lookup_2 in Hg as Hin.
    pose proof (proj1 (List.Forall_forall _ _) (groupby_size_positive cells_compare present)
                  (k, v) (proj1 (list_elem_of_In _ _) Hin)) as Hpos.
    apply Hgroups in Hin as [Hp Hv].
    destruct (Hpresent _ Hp) as (x & y & -> & Hx & Hy). simpl.
    split; [exact Hx|]. split; [exact Hy|].
    assert (Hlen : List.length (List.filter (fun k' => bool_decide (k' = [x; y])) present)
                   = List.length (rows_with d a b x y)).
    { unfold present. rewrite filter_filter_map_length. unfold rows_with.
      rewrite Hga, Hgb. simpl. f_equal. apply List.filter_ext. intros j.
      unfold key, FrameGroup.key_of. simpl.
      destruct (ca !! j) as [u|], (cb !! j) as [u'|]; simpl;
        repeat case_bool_decide; simplify_eq;
        rewrite ?Hx, ?Hy, ?andb_false_r, ?orb_true_r; simpl in *;
        try reflexivity; try discriminate; naive_solver. }
    split.
    + intros Hnil. rewrite Hlen, Hnil in Hv. simpl in *. lia.
    + by rewrite <- Hlen, <- Hv.
  - rewrite cell_total_counts. unfold groups, groupby_size.
    rewrite (sum_values_groupby_sum cells_compare), sum_values_ones. f_equal.
    unfold present. rewrite filter_map_length. unfold complete_rows. f_equal.
    apply List.filter_ext. intros j. unfold key, FrameGroup.key_of, has_value. simpl.
    rewrite Hga, Hgb. simpl.
    destruct (ca !! j) as [u|], (cb !! j) as [u'|]; simpl;
      try destruct (isna u); try destruct (isna u'); reflexivity.
Qed.

(** X12.  Line 55 on a table that has the [householdSize] and
    [haveKids] columns: the grouping succeeds and the result has the
    two key columns and the [count] column; no key is missing, no
    pair of keys occurs twice, every count is the number of rows
    with that pair, which is at least one, and the counts add up to
    the number of rows that have both keys: rows with a missing key
    are in no group. *)
Theorem household_counts_add_up (d : DataFrame) :
  is_Some (Frame.getitem d "householdSize") -> is_Some (Frame.getitem d "haveKids") ->
  exists sizes kids cnt,
    FrameGroup.groupby_size d ["householdSize"; "haveKids"] "count"
    = Ok [("householdSize", sizes); ("haveKids", kids); ("count", cnt)]
    ∧ List.length sizes = List.length cnt ∧ List.length kids = List.length cnt
    ∧ NoDup (zip sizes kids)
    ∧ (forall i size kid c,
         sizes !! i = Some size -> kids !! i = Some kid -> cnt !! i = Some c ->
         isna size = false ∧ isna kid = false
         ∧ rows_with d "householdSize" "haveKids" size kid ≠ []
         ∧ c = Int (Z.of_nat (List.length (rows_with d "householdSize" "haveKids" size kid))))
    ∧ cell_total cnt
      = Z.of_nat (List.length (complete_rows d ["householdSize"; "haveKids"])).
Proof. apply counts_by_two_columns. Qed.

End CountsFacts.

Section ConvertFacts.
Context `{PandasLib}.
Implicit Types (w : World) (r : ref) (d : DataFrame).

Lemma convert_columns_other (cols : list string) d d' (col : string) :
  convert_columns cols d = Ok d' -> col ∉ cols ->
  Frame.getitem d' col = Frame.getitem d col.
Proof.
  revert d. induction cols as [|c0 cols IH]; intros d; simpl.
  - by intros [= <-].
  - destruct (convert_column d c0) as [d1|] eqn:Hc0; [|discriminate].
    intros Hrest Hout. apply not_elem_of_cons in Hout as [Hne Hout].
    rewrite (IH _ Hrest Hout). by apply (convert_column_other _ _ c0).
Qed.

Lemma res_map_fixed {A : Type} (f : A -> Res A) (l : list A) :
  Forall (fun a => f a = Ok a) l -> res_map f l = Ok l.
Proof. induction 1 as [|a l Ha _ IH]; simpl; [reflexivity|]. by rewrite Ha, IH. Qed.

Lemma to_datetime_fixed (cells : list Cell) :
  Forall (fun c => is_datetime c = true) cells -> to_datetime cells = Ok cells.
Proof.
  intros Hall. unfold to_datetime. apply res_map_fixed.
  eapply Forall_impl; [exact Hall|]. intros [] Hc; try discriminate; reflexivity.
Qed.

Lemma setitem_getitem_id d (col : string) (cells : list Cell) :
  Frame.getitem d col = Some cells -> Frame.setitem d col cells = d.
Proof.
  induction d as [|[name old] d IH]; simpl; [discriminate|].
  destruct (String.eqb name col); [by intros [= ->]|]. intros Hget. by rewrite IH.
Qed.

Lemma convert_column_fixed d (col : string) :
  (forall cells, Frame.getitem d col = Some cells ->
                 Forall (fun c => is_datetime c = true) cells) ->
  convert_column d col = Ok d.
Proof.
  intros Hdt. unfold convert_column. destruct (existsb _ _) eqn:Hcol; [|reflexivity].
  apply getitem_columns in Hcol as [cells Hget]. rewrite Hget.
  rewrite (to_datetime_fixed _ (Hdt _ Hget)). by rewrite (setitem_getitem_id _ _ _ Hget).
Qed.

Lemma convert_columns_fixed (cols : list string) d :
  (forall col cells, col ∈ cols -> Frame.getitem d col = Some cells ->
                     Forall (fun c => is_datetime c = true) cells) ->
  convert_columns cols d = Ok d.
Proof.
  induction cols as [|c0 cols IH]; intros Hdt; simpl; [reflexivity|].
  rewrite convert_column_fixed.
  - apply IH. intros col cells Hin. apply Hdt. by right.
  - intros cells. apply Hdt. by left.
Qed.

Lemma convert_column_absent d (col : string) :
  col ∉ Frame.columns d -> convert_column d col = Ok d.
Proof.
  intros Hout. unfold convert_column. destruct (existsb _ _) eqn:Hcol; [|reflexivity].
  by apply existsb_eqb_elem in Hcol.
Qed.

(** X10.  [convertToDatetime(df, columns)] works in place: it returns
    the reference it was given; the object behind it keeps its
    columns, their order and its rows; the columns that are not named
    are as they were; every named column that the frame has is of
    datetime type; no other object is touched and the cache directory
    is as it was. *)
Theorem convertToDatetime_in_place (df : ref) (cols : list string) (w : World)
        (d : DataFrame) (r' : ref) (w' : World) :
  heap w !! df = Some d ->
  convertToDatetime df cols w = (Ok r', w') ->
  r' = df
  ∧ pickles w' = pickles w
  ∧ (forall r, r ≠ df -> heap w' !! r = heap w !! r)
  ∧ exists d', heap w' !! df = Some d'
      ∧ Frame.columns d' = Frame.columns d
      ∧ Frame.nrows d' = Frame.nrows d
      ∧ (forall col, col ∉ cols -> Frame.getitem d' col = Frame.getitem d col)
      ∧ (forall col cells, col ∈ cols -> Frame.getitem d' col = Some cells ->
           Forall (fun c => is_datetime c = true) cells).
Proof.
  intros Hd Hrun.
  destruct (convertToDatetime_run cols w df d Hd) as (w'' & Hrun' & Hw).
  rewrite Hrun in Hrun'.
  destruct (convert_columns cols d) as [d'|e] eqn:Hconv; [|discriminate].
  injection Hrun' as -> ->. rewrite (Hw d' eq_refl).
  split; [reflexivity|]. split; [reflexivity|]. split.
  - intros r Hr. simpl. by apply list_lookup_insert_ne.
  - exists d'. pose proof (convert_columns_same_rows _ _ _ Hconv) as Hsame.
    split; [by eapply set_object_lookup|].
    split; [by apply same_rows_columns|]. split; [by apply same_rows_nrows|].
    split.
    + intros col Hout. by eapply convert_columns_other.
    + intros col cells Hin. by eapply convert_columns_datetime.
Qed.

(** X11.  Nothing to do, nothing done: a second call with the same
    column names changes nothing, and neither does a call whose
    column names the frame does not have, which is not an error. *)
Theorem convertToDatetime_idempotent (df : ref) (cols : list string) (w : World)
        (d : DataFrame) :
  heap w !! df = Some d ->
  (forall r' w', convertToDatetime df cols w = (Ok r', w') ->
                 convertToDatetime df cols w' = (Ok df, w'))
  ∧ (Forall (fun col => col ∉ Frame.columns d) cols ->
     convertToDatetime df cols w = (Ok df, w)).
Proof.
  intros Hd. destruct (convertToDatetime_run cols w df d Hd) as (w1 & Hrun & Hw1). split.
  - intros r' w' Hrun'. rewrite Hrun' in Hrun.
    destruct (convert_columns cols d) as [d'|e] eqn:Hconv; [|discriminate].
    injection Hrun as -> ->. rewrite (Hw1 d' eq_refl).
    assert (Hd' : heap (set_object w df d') !! df = Some d') by (by eapply set_object_lookup).
    destruct (convertToDatetime_run cols _ df d' Hd') as (w2 & Hrun2 & Hw2).
    assert (Hfixed : convert_columns cols d' = Ok d').
    { apply convert_columns_fixed. intros col cells Hin.
      by apply (convert_columns_datetime cols d d'). }
    rewrite Hfixed in Hrun2. rewrite Hrun2, (Hw2 d' Hfixed).
    by rewrite (set_object_id _ _ _ Hd').
  - intros Habsent.
    assert (Hfixed : convert_columns cols d = Ok d).
    { clear Hrun Hw1. induction Habsent as [|col cols Hcol _ IH]; simpl; [reflexivity|].
      by rewrite (convert_column_absent _ _ Hcol). }
    rewrite Hfixed in Hrun. rewrite Hrun, (Hw1 d Hfixed). by rewrite (set_object_id _ _ _ Hd).
Qed.

End ConvertFacts.

(** X13.  Line 19 for every age: the label ["20-29"] is given to the
    ages 21 to 30, ["30-39"] to 31 to 40 and ["40-49"] to 41 to 50;
    an age of 20 or less, an age above 50 and a missing age get no
    label.  Every bin is open on the left and closed on the right. *)
Theorem ageGroup_label_ranges (a : Z) :
  (ageGroup (Some a) = Some "20-29" <-> 20 < a <= 30)
  ∧ (ageGroup (Some a) = Some "30-39" <-> 30 < a <= 40)
  ∧ (ageGroup (Some a) = Some "40-49" <-> 40 < a <= 50)
  ∧ (ageGroup (Some a) = None <-> a <= 20 ∨ 50 < a)
  ∧ (forall label, ageGroup (Some a) = Some label ->
                   label ∈ ["20-29"; "30-39"; "40-49"]).
Proof.
  unfold ageGroup, pd_cut, searchsorted_left.
  destruct (Z.ltb_spec 20 a), (Z.ltb_spec 30 a), (Z.ltb_spec 40 a), (Z.ltb_spec 50 a);
    try lia; simpl;
    (repeat split; try (intros; lia); try discriminate; try reflexivity;
     try (intros label [= <-]; set_solver)).
Qed.

Section BuildingFacts.
Context `{PandasLib}.

Lemma res_map_lookup {A B : Type} (f : A -> Res B) (l : list A) (l' : list B) (i : nat) (a : A) :
  res_map f l = Ok l' -> l !! i = Some a -> exists b, l' !! i = Some b ∧ f a = Ok b.
Proof.
  intros Hmap%res_map_ok_Forall2 Ha.
  destruct (Forall2_lookup_l _ _ _ _ _ Hmap Ha) as (b & Hb & Hf). by exists b.
Qed.

(** X14.  Lines 71-78 keep the rows: whenever they succeed,
    [finalDf] has one row for each row of [combined], in the same
    order and with the same building type, and a row that has no
    location text is not dropped: it has [nan] for both
    coordinates. *)
Theorem finalDf_keeps_rows (combined : list (option string * string))
        (rows : list Building.Row) :
  Building.finalDf combined = Ok rows ->
  List.length rows = List.length combined
  ∧ map Building.buildingType rows = map snd combined
  ∧ (forall i tag, combined !! i = Some (None, tag) ->
       rows !! i = Some {| Building.x := float_nan; Building.y := float_nan;
                           Building.buildingType := tag |}).
Proof.
  unfold Building.finalDf.
  destruct (Building.str_accessor (map fst combined)); [|discriminate].
  unfold Building.coordinates.
  set (clean := map (fun r => Building.location_clean (fst r)) combined).
  destruct (res_map Building.astype_float (map (Building.token 0) clean)) as [xs|] eqn:Hxs;
    [|discriminate].
  destruct (res_map Building.astype_float (map (Building.token 1) clean)) as [ys|] eqn:Hys;
    [|discriminate].
  intros [= <-].
  pose proof (res_map_ok_length _ _ _ Hxs) as Hlx.
  pose proof (res_map_ok_length _ _ _ Hys) as Hly.
  unfold clean in Hlx, Hly. rewrite !length_map in Hlx, Hly.
  assert (Hrows : forall i r, combined !! i = Some r ->
            exists fx fy, xs !! i = Some fx ∧ ys !! i = Some fy
              ∧ Building.astype_float (Building.token 0 (Building.location_clean (fst r))) = Ok fx
              ∧ Building.astype_float (Building.token 1 (Building.location_clean (fst r))) = Ok fy).
  { intros i r Hr.
    assert (Hc : clean !! i = Some (Building.location_clean (fst r))).
    { unfold clean. change (map ?f combined) with (f <$> combined).
      by rewrite list_lookup_fmap, Hr. }
    destruct (res_map_lookup _ _ _ i (Building.token 0 (Building.location_clean (fst r))) Hxs)
      as (fx & Hfx & Hx).
    { change (map ?f clean) with (f <$> clean). by rewrite list_lookup_fmap, Hc. }
    destruct (res_map_lookup _ _ _ i (Building.token 1 (Building.location_clean (fst r))) Hys)
      as (fy & Hfy & Hy).
    { change (map ?f clean) with (f <$> clean). by rewrite list_lookup_fmap, Hc. }
    by exists fx, fy. }
  assert (Hlookup : forall i r, combined !! i = Some r ->
            exists fx fy,
              zip_with (fun xy r => {| Building.x := fst xy; Building.y := snd xy;
                                       Building.buildingType := snd r |})
                       (zip xs ys) combined !! i
              = Some {| Building.x := fx; Building.y := fy; Building.buildingType := snd r |}
              ∧ Building.astype_float (Building.token 0 (Building.location_clean (fst r))) = Ok fx
              ∧ Building.astype_float (Building.token 1 (Building.location_clean (fst r))) = Ok fy).
  { intros i r Hr. destruct (Hrows i r Hr) as (fx & fy & Hfx & Hfy & Hx & Hy).
    exists fx, fy. split; [|by split].
    apply lookup_zip_with_Some. exists (fx, fy), r. split; [reflexivity|].
    split; [|exact Hr]. apply lookup_zip_with_Some. by exists fx, fy. }
  split; [|split].
  - rewrite length_zip_with, length_zip. lia.
  - apply list_eq. intros i.
    change (map ?f ?l) with (f <$> l). rewrite !list_lookup_fmap.
    destruct (combined !! i) as [r|] eqn:Hr; simpl.
    + destruct (Hlookup i r Hr) as (fx & fy & -> & _). reflexivity.
    + rewrite (lookup_ge_None_2 (zip_with _ _ _)); [reflexivity|].
      rewrite length_zip_with, length_zip. apply lookup_ge_None in Hr. lia.
  - intros i tag Hr. destruct (Hlookup i _ Hr) as (fx & fy & -> & Hx & Hy).
    simpl in Hx, Hy. by injection Hx as <-; injection Hy as <-.
Qed.

End BuildingFacts.

Section FrameExamples.
Local Existing Instance Demo.lib.

Lemma social_world_converts :
  exists w', convertToDatetime 0%nat ["Timestamp"; "time"] Sample.social_world = (Ok 0%nat, w').
Proof.
  assert (Hok : fst (convertToDatetime 0%nat ["Timestamp"; "time"] Sample.social_world)
                = Ok 0%nat) by (vm_compute; reflexivity).
  destruct (convertToDatetime 0%nat ["Timestamp"; "time"] Sample.social_world) as [res w'].
  simpl in Hok. subst res. by exists w'.
Qed.

Lemma convertToDatetime_in_place_witness :
  exists w',
    convertToDatetime 0%nat ["Timestamp"; "time"] Sample.social_world = (Ok 0%nat, w')
    ∧ pickles w' = pickles Sample.social_world
    ∧ exists d', heap w' !! 0%nat = Some d'
        ∧ Frame.columns d' = ["participantIdFrom"; "participantIdTo"; "Timestamp"]
        ∧ Frame.getitem d' "participantIdTo" = Some [Int 2; Int 2; NaN].
Proof.
  destruct social_world_converts as [w' Hrun]. exists w'. split; [exact Hrun|].
  destruct (convertToDatetime_in_place 0%nat ["Timestamp"; "time"] Sample.social_world
              Demo.social 0%nat w' eq_refl Hrun)
    as (_ & Hp & _ & d' & Hd' & Hcols & _ & Hother & _).
  split; [exact Hp|]. exists d'. split; [exact Hd'|]. split; [exact Hcols|].
  apply (Hother "participantIdTo"). by_computation.
Defined.

Lemma convertToDatetime_idempotent_witness :
  (forall r' w', convertToDatetime 0%nat ["Timestamp"] Sample.social_world = (Ok r', w') ->
                 convertToDatetime 0%nat ["Timestamp"] w' = (Ok 0%nat, w'))
  ∧ convertToDatetime 0%nat ["time"; "date"] Sample.social_world
    = (Ok 0%nat, Sample.social_world).
Proof.
  split.
  - exact (proj1 (convertToDatetime_idempotent 0%nat ["Timestamp"] Sample.social_world
                    Demo.social eq_refl)).
  - apply (proj2 (convertToDatetime_idempotent 0%nat ["time"; "date"] Sample.social_world
                    Demo.social eq_refl)).
    repeat constructor; by_computation.
Defined.

Lemma household_counts_add_up_witness :
  exists ka kb cnt,
    FrameGroup.groupby_size Sample.participants_with_gap ["householdSize"; "haveKids"] "count"
    = Ok [("householdSize", ka); ("haveKids", kb); ("count", cnt)]
    ∧ ka = [Int 2; Int 3] ∧ kb = [Bool false; Bool true] ∧ cnt = [Int 2; Int 1]
    ∧ NoDup (zip ka kb)
    ∧ cell_total cnt
      = Z.of_nat (List.length (complete_rows Sample.participants_with_gap
                                 ["householdSize"; "haveKids"])).
Proof.
  destruct (household_counts_add_up Sample.participants_with_gap)
    as (ka & kb & cnt & Hrun & _ & _ & Hnd & _ & Htotal).
  - vm_compute. by eexists.
  - vm_compute. by eexists.
  - exists ka, kb, cnt. split; [exact Hrun|].
    assert (Hval : FrameGroup.groupby_size Sample.participants_with_gap
                     ["householdSize"; "haveKids"] "count"
                   = Ok [("householdSize", [Int 2; Int 3]);
                         ("haveKids", [Bool false; Bool true]);
                         ("count", [Int 2; Int 1])]) by (vm_compute; reflexivity).
    rewrite Hrun in Hval. injection Hval as -> -> ->. by repeat split.
Defined.

Lemma finalDf_keeps_rows_witness :
  exists rows,
    Building.finalDf Sample.buildings = Ok rows
    ∧ List.length rows = 2%nat
    ∧ map Building.buildingType rows = ["pub"; "school"]
    ∧ rows !! 1%nat = Some {| Building.x := float_nan; Building.y := float_nan;
                              Building.buildingType := "school" |}.
Proof.
  assert (Hok : match Building.finalDf Sample.buildings with
                | Ok _ => True
                | Raise _ => False
                end) by (vm_compute; exact I).
  destruct (Building.finalDf Sample.buildings) as [rows|e] eqn:Hrun; [|destruct Hok].
  exists rows. split; [reflexivity|].
  destruct (finalDf_keeps_rows Sample.buildings rows Hrun) as (Hlen & Htags & Hnan).
  split; [exact Hlen|]. split; [exact Htags|]. exact (Hnan 1%nat "school" eq_refl).
Defined.

End FrameExamples.


Section PivotFacts.












End PivotFacts.

Section FailedRunThenDashboard.
Context `{PandasLib}.
Hypothesis pickle_round_trip : forall d, pickle_loads (pickle_dumps d) = Some d.
Implicit Types (w : World) (r : ref) (d : DataFrame).

(** Lines 10-12 of the dashboard on a cache directory that has the
    table snapshots of an ETL state. *)
Lemma load_tables_run (ds : Datasets) (etl : World) (logs : ref) (attrs jrnls : Dict)
      (dl : DataFrame) (w : World) :
  heap etl !! logs = Some dl ->
  folder_loaded ds etl "Datasets/Attributes" attrs ->
  folder_loaded ds etl "Datasets/Journals" jrnls ->
  pickles w !! "processed_participant_status_logs.pkl" = Some (pickle_dumps dl) ->
  (forall name r d, (name, r) ∈ attrs -> heap etl !! r = Some d ->
     pickles w !! snapshot_name name "_attributes.pkl" = Some (pickle_dumps d)) ->
  (forall name r d, (name, r) ∈ jrnls -> heap etl !! r = Some d ->
     pickles w !! snapshot_name name "_journals.pkl" = Some (pickle_dumps d)) ->
  exists attrs' jrnls' w3,
    vast2022app_load ds (fresh_process w)
    = (counts <- read_pickle "processed_household_kid_counts.pkl" ;;
       ret {| dfParticipantStatusLogs := 0%nat; attributes := attrs';
              journals := jrnls'; householdKidCounts := counts |})%script w3
    ∧ pickles w3 = pickles w
    ∧ heap w3 !! 0%nat = Some dl.
Proof.
  intros Hdl Hla Hlj Hpl Hsa Hsj.
  pose proof Hla as ((namesa & Hentriesa & Hkeysa) & _ & Hela).
  pose proof Hlj as ((namesj & Hentriesj & Hkeysj) & _ & Helj).
  unfold vast2022app_load. unfold bind at 1.
  rewrite (read_pickle_run pickle_round_trip (fresh_process w) _ dl Hpl).
  cbn [alloc fresh_process heap pickles].
  set (w1 := {| heap := [] ++ [dl]; pickles := pickles w |}).
  destruct (load_snapshots_run pickle_round_trip ds "_attributes.pkl" _ namesa attrs etl w1
              Hentriesa Hkeysa) as (attrs' & w2 & Hrun2 & _).
  { intros name r Hin. destruct (Hela _ _ Hin) as (d0 & d1 & _ & _ & Hd1).
    exists d1. split; [exact Hd1|]. by apply (Hsa name r). }
  destruct (confined_run (fun _ => False) _ _ _ _
              (confined_load_snapshots (fun _ => False) ds _ _) Hrun2) as (Hp2 & _ & Hk2).
  unfold bind at 1. rewrite Hrun2.
  destruct (load_snapshots_run pickle_round_trip ds "_journals.pkl" _ namesj jrnls etl w2
              Hentriesj Hkeysj) as (jrnls' & w3 & Hrun3 & _).
  { intros name r Hin. destruct (Helj _ _ Hin) as (d0 & d1 & _ & _ & Hd1).
    exists d1. split; [exact Hd1|]. rewrite Hp2. by apply (Hsj name r). }
  destruct (confined_run (fun _ => False) _ _ _ _
              (confined_load_snapshots (fun _ => False) ds _ _) Hrun3) as (Hp3 & _ & Hk3).
  unfold bind at 1. rewrite Hrun3.
  exists attrs', jrnls', w3. split; [reflexivity|]. split; [by rewrite Hp3, Hp2|].
  apply Hk3; [|tauto]. apply Hk2; [|tauto]. reflexivity.
Qed.

(** X16.  A run that gets as far as line 55 and fails there leaves a
    cache directory that the dashboard can only partly trust.  Its
    loading stage (lines 10-15) finds the new table snapshots; it
    raises [FileNotFoundError] for the household snapshot when there
    was none before the run, and otherwise it succeeds and holds the
    household counts of the earlier run beside the new status log. *)
Theorem failed_run_then_dashboard (ds : Datasets) (shards : list DataFrame) (dl : DataFrame)
        (w : World) :
  shards_of ds shards ->
  clean_frame (Frame.concat shards) = Ok dl ->
  folder_ready ds "Datasets/Attributes" -> folder_ready ds "Datasets/Journals" ->
  ~ participants_ready ds ->
  (exists e, fst (dataFiles ds w) = Raise e)
  ∧ (pickles w !! "processed_household_kid_counts.pkl" = None ->
     fst (vast2022app_load ds (fresh_process (snd (dataFiles ds w))))
     = Raise (FileNotFoundError "processed_household_kid_counts.pkl"))
  ∧ (forall old,
       pickles w !! "processed_household_kid_counts.pkl" = Some (pickle_dumps old) ->
       exists vars w'',
         vast2022app_load ds (fresh_process (snd (dataFiles ds w))) = (Ok vars, w'')
         ∧ heap w'' !! dfParticipantStatusLogs vars = Some dl
         ∧ heap w'' !! householdKidCounts vars = Some old).
Proof.
  intros Hshards Hclean Ha Hj Hnot.
  destruct (load_and_clean_exact ds shards w Hshards Ha Hj)
    as (logs & attrs & jrnls & w7 & Hrun & _ & _).
  rewrite Hclean in Hrun.
  destruct (clean_then_save _ _ _ _ _ _ Hrun)
    as (dl' & w2 & Hdl & Hheap & Hfiles & Hl & Hsa & Hsj & Ho).
  pose proof (load_and_clean_run _ _ _ _ Hrun)
    as (_ & (shards' & dl'' & Hshards' & Hclean' & Hdl'') & Hla & Hlj).
  rewrite (shards_of_unique _ _ _ Hshards' Hshards), Hclean in Hclean'.
  injection Hclean' as <-. assert (dl' = dl) as -> by congruence.
  assert (Hfail : exists e, dataFiles ds w = (Raise e, w2)).
  { destruct (dataFiles ds w) as [[vars|e] w'] eqn:Hfull.
    - exfalso. apply Hnot. by apply (dataFiles_ok_ready _ _ _ _ Hfull).
    - exists e. rewrite save_household_kid_counts_run in Hfiles.
      destruct (dict_get attrs "Participants.csv") as [r|]; [|by injection Hfiles as -> ->].
      destruct (heap w2 !! r) as [d|]; [|by injection Hfiles as -> ->].
      destruct (FrameGroup.groupby_size d _ _) as [counts|e2]; [discriminate|].
      by injection Hfiles as -> ->. }
  destruct Hfail as [e Hfail]. rewrite Hfail. simpl.
  assert (Hcounts : pickles w2 !! "processed_household_kid_counts.pkl"
                    = pickles w !! "processed_household_kid_counts.pkl").
  { apply Ho; [discriminate| |].
    - intros name _. apply snapshot_attributes_counts.
    - intros name _. apply snapshot_journals_counts. }
  destruct (load_tables_run ds _ logs attrs jrnls dl w2 Hdl Hla Hlj Hl Hsa Hsj)
    as (attrs' & jrnls' & w3 & Hload & Hp3 & Hlogs).
  split; [by exists e|]. split.
  - intros Hnone. rewrite Hload. unfold bind, read_pickle.
    by rewrite Hp3, Hcounts, Hnone.
  - intros old Hold. rewrite Hload. unfold bind at 1.
    rewrite (read_pickle_run pickle_round_trip w3 _ old) by (by rewrite Hp3, Hcounts).
    cbn [alloc ret]. eexists _, _. split; [reflexivity|].
    cbn [dfParticipantStatusLogs householdKidCounts heap]. split.
    + by apply lookup_app_l_Some.
    + by apply list_lookup_middle.
Qed.

End FailedRunThenDashboard.

Section FailedRunExample.
Local Existing Instance Demo.lib.

Lemma failed_run_then_dashboard_witness :
  (exists e, fst (dataFiles (Sample.with_listing "Datasets/Attributes" ["notes.txt"]
                               Demo.dataset_with_gap) Sample.stale_world) = Raise e)
  ∧ exists vars w'',
      vast2022app_load (Sample.with_listing "Datasets/Attributes" ["notes.txt"]
                          Demo.dataset_with_gap)
        (fresh_process (snd (dataFiles (Sample.with_listing "Datasets/Attributes" ["notes.txt"]
                                          Demo.dataset_with_gap) Sample.stale_world)))
      = (Ok vars, w'')
      ∧ heap w'' !! householdKidCounts vars = Some [("count", [Int 7])].
Proof.
  assert (Hclean : exists dl,
            clean_frame (Frame.concat (map snd (Demo.shards Demo.log_with_gap))) = Ok dl).
  { eexists. vm_compute. reflexivity. }
  destruct Hclean as [dl Hclean].
  destruct (@failed_run_then_dashboard Demo.lib (fun d => eq_refl)
              (Sample.with_listing "Datasets/Attributes" ["notes.txt"] Demo.dataset_with_gap)
              (map snd (Demo.shards Demo.log_with_gap)) dl Sample.stale_world
              shards_with_gap Hclean) as (Hfail & _ & Hstale).
  - apply (folder_ready_intro _ _ ["notes.txt"]); [vm_compute; reflexivity|]. constructor.
  - apply (folder_ready_intro _ _ ["SocialNetwork.csv"]); [vm_compute; reflexivity|].
    constructor; [|constructor].
    exists Demo.social. eexists. split; vm_compute; reflexivity.
  - intros (listing & d0 & Hdir & Hin & _). vm_compute in Hdir. injection Hdir as <-.
    apply list_elem_of_singleton in Hin. discriminate.
  - split; [exact Hfail|].
    destruct (Hstale [("count", [Int 7])]) as (vars & w'' & Hload & _ & Hcounts);
      [vm_compute; reflexivity|].
    exists vars, w''. split; [exact Hload|exact Hcounts].
Defined.

End FailedRunExample.


Section InteractionFacts.
Context `{PandasLib}.

Lemma count_days (day : Z) (timestamps : list Cell) :
  List.length (List.filter (fun d => bool_decide (d = day)) (omap day_of timestamps))
  = List.length (List.filter (fun c => bool_decide (day_of c = Some day)) timestamps).
Proof.
  induction timestamps as [|c cells IH]; [reflexivity|].
  cbn [omap list_omap List.filter]. destruct (day_of c) as [d|] eqn:Hd.
  - cbn [List.filter]. repeat case_bool_decide; simplify_eq; cbn [List.length];
      by rewrite ?IH.
  - rewrite bool_decide_eq_false_2 by discriminate. exact IH.
Qed.

Lemma length_omap_day (timestamps : list Cell) :
  Forall (fun c => is_datetime c = true) timestamps ->
  List.length (omap day_of timestamps)
  = List.length (List.filter (fun c => negb (isna c)) timestamps).
Proof.
  induction 1 as [|c cells Hc _ IH]; [reflexivity|].
  destruct c; try discriminate; cbn; by rewrite IH.
Qed.

(** X17.  Line 51 applies to every [timestamp] column the ETL has
    converted.  The result has one row per calendar day on which
    there is an interaction, in ascending order of the day and
    without repetition; a day's count is the number of rows on that
    day, so it is never zero and a day without interactions has no
    row; the counts add up to the number of rows that have a
    timestamp. *)
Theorem interactionsByDay_counts (d0 d1 : DataFrame) (timestamps : list Cell) :
  convert_frame d0 = Ok d1 ->
  Frame.getitem d1 "timestamp" = Some timestamps ->
  exists rows,
    interactionsByDay timestamps = Some rows
    ∧ StronglySorted (fun a b => fst a < fst b) rows
    ∧ (forall day n, (day, n) ∈ rows <-> n = on_day day timestamps ∧ 0 < n)
    ∧ sum_values rows
      = Z.of_nat (List.length (List.filter (fun c => negb (isna c)) timestamps)).
Proof.
  intros Hconv Hget.
  assert (Hdt : Forall (fun c => is_datetime c = true) timestamps).
  { by apply (convert_frame_datetime _ _ Hconv "timestamp"). }
  unfold interactionsByDay.
  rewrite (proj2 (forallb_forall _ _)).
  2:{ intros c Hc. rewrite List.Forall_forall in Hdt. by apply Hdt. }
  eexists. split; [reflexivity|]. split; [|split].
  - pose proof (ascending_groupby_sum Z.compare
                  (map (fun k => (k, 1)) (omap day_of timestamps))) as Hasc.
    apply (ascending_strongly Z.compare) in Hasc.
    eapply StronglySorted_weaken; [|exact Hasc].
    intros a b Hab. by apply Z.compare_lt_iff.
  - intros day n. unfold groupby_size.
    rewrite (elem_of_groupby_sum Z.compare), key_total_ones, count_days.
    fold (on_day day timestamps).
    assert (Hid : forall l : list Z, map fst (map (fun k => (k, 1)) l) = l).
    { intros l. induction l as [|k l IH]; [reflexivity|]. simpl. by rewrite IH. }
    rewrite Hid. split.
    + intros [Hin ->]. split; [reflexivity|].
      apply list_elem_of_omap in Hin as (c & Hc & Hday). unfold on_day.
      assert (Hf : In c (List.filter (fun c => bool_decide (day_of c = Some day)) timestamps)).
      { apply filter_In. split; [by apply list_elem_of_In|]. by apply bool_decide_eq_true_2. }
      destruct (List.filter _ timestamps); [destruct Hf|]. simpl. lia.
    + intros [-> Hpos]. split; [|reflexivity]. unfold on_day in Hpos.
      destruct (List.filter (fun c => bool_decide (day_of c = Some day)) timestamps)
        as [|c l] eqn:Hf; [simpl in Hpos; lia|].
      assert (Hc : In c (List.filter (fun c => bool_decide (day_of c = Some day)) timestamps))
        by (rewrite Hf; by left).
      apply filter_In in Hc as [Hc Hday]. apply bool_decide_eq_true_1 in Hday.
      apply list_elem_of_omap. exists c. split; [by apply list_elem_of_In|exact Hday].
  - unfold groupby_size.
    rewrite (sum_values_groupby_sum Z.compare), sum_values_ones. f_equal.
    by apply length_omap_day.
Qed.

End InteractionFacts.

Section ColorFacts.

Lemma unique_fold (values seen : list string) :
  NoDup seen ->
  let result := fold_left (fun seen v => if existsb (String.eqb v) seen then seen
                                         else seen ++ [v]) values seen in
  NoDup result ∧ forall v, v ∈ result <-> v ∈ seen ∨ v ∈ values.
Proof.
  revert seen. induction values as [|x values IH]; intros seen Hnd; simpl.
  - split; [exact Hnd|]. set_solver.
  - destruct (existsb (String.eqb x) seen) eqn:Hx.
    + destruct (IH seen Hnd) as [Hnd' Hel]. split; [exact Hnd'|].
      intros v. rewrite Hel. apply existsb_eqb_elem in Hx. set_solver.
    + assert (Hout : x ∉ seen).
      { intros Hin. apply existsb_eqb_elem in Hin. congruence. }
      destruct (IH (seen ++ [x])) as [Hnd' Hel].
      { apply NoDup_app. split; [exact Hnd|]. split; [|apply NoDup_singleton].
        intros v Hv ->%list_elem_of_singleton. by apply Hout. }
      split; [exact Hnd'|]. intros v. rewrite Hel. set_solver.
Qed.

Lemma unique_NoDup (values : list string) : NoDup (unique values).
Proof. apply (unique_fold values []). constructor. Qed.

Lemma elem_of_unique (values : list string) (v : string) : v ∈ unique values <-> v ∈ values.
Proof.
  destruct (unique_fold values [] (NoDup_nil_2)) as [_ Hel]. unfold unique. rewrite Hel.
  set_solver.
Qed.

Lemma str_dict_get_set_eq (d : StrDict) (k v : string) :
  str_dict_get (str_dict_set k v d) k = Some v.
Proof.
  induction d as [|[k' v'] d IH]; simpl.
  - by rewrite String.eqb_refl.
  - destruct (String.eqb k' k) eqn:Hk; simpl; by rewrite Hk.
Qed.

Lemma str_dict_get_set_ne (d : StrDict) (k k' v : string) :
  k ≠ k' -> str_dict_get (str_dict_set k v d) k' = str_dict_get d k'.
Proof.
  intros Hne. induction d as [|[k0 v0] d IH]; simpl.
  - apply String.eqb_neq in Hne. by rewrite Hne.
  - destruct (String.eqb_spec k0 k) as [->|Hk]; simpl.
    + apply String.eqb_neq in Hne. by rewrite Hne.
    + by rewrite IH.
Qed.

Lemma colorMap_snoc (colorSequence types : list string) (t : string) :
  colorMap colorSequence (types ++ [t])
  = match colorMap colorSequence types with
    | None => None
    | Some d => match color_at colorSequence (List.length types) with
                | None => None
                | Some c => Some (str_dict_set t c d)
                end
    end.
Proof.
  unfold colorMap. rewrite imap_app, fold_left_app. simpl.
  by rewrite Nat.add_0_r.
Qed.

Lemma color_at_Some (colorSequence : list string) (i : nat) :
  colorSequence ≠ [] ->
  exists c, color_at colorSequence i = Some c
            ∧ colorSequence !! (i mod List.length colorSequence)%nat = Some c.
Proof.
  intros Hne. destruct colorSequence as [|c0 cs] eqn:Hseq; [done|]. rewrite <- Hseq.
  assert (Hlt : (i mod List.length colorSequence < List.length colorSequence)%nat).
  { apply Nat.mod_upper_bound. rewrite Hseq. simpl. lia. }
  apply lookup_lt_is_Some in Hlt as [c Hc]. exists c. split; [|exact Hc].
  unfold color_at. rewrite Hseq. rewrite <- Hseq. exact Hc.
Qed.

(** The dict of line 84 has a colour for each of the types, the one
    at the type's position, counted round the sequence. *)
Lemma colorMap_run (colorSequence types : list string) :
  colorSequence ≠ [] -> NoDup types ->
  exists d,
    colorMap colorSequence types = Some d
    ∧ (forall t, is_Some (str_dict_get d t) -> t ∈ types)
    ∧ forall i t, types !! i = Some t ->
        str_dict_get d t = colorSequence !! (i mod List.length colorSequence)%nat
        ∧ is_Some (str_dict_get d t).
Proof.
  intros Hne. induction types as [|t types IH] using rev_ind; intros Hnd.
  - exists []. split; [reflexivity|]. split; [by intros t [? ?]|]. by intros i t.
  - apply NoDup_app in Hnd as (Hnd & Hout & _).
    destruct (IH Hnd) as (d & Hd & Hkeys & Hget).
    destruct (color_at_Some colorSequence (List.length types) Hne) as (c & Hc & Hc').
    exists (str_dict_set t c d). split; [by rewrite colorMap_snoc, Hd, Hc|]. split.
    + intros t' Hsome. destruct (decide (t = t')) as [->|Hne'].
      * apply elem_of_app. right. by left.
      * rewrite str_dict_get_set_ne in Hsome by done. apply elem_of_app. left. by apply Hkeys.
    + intros i t' Hi. apply lookup_app_Some in Hi as [Hi|[Hlen Hi]].
      * assert (t ≠ t').
        { intros ->. apply (Hout t'); [by eapply list_elem_of_lookup_2|by left]. }
        rewrite str_dict_get_set_ne by done. by apply Hget.
      * apply list_lookup_singleton_Some in Hi as [Hi ->].
        replace i with (List.length types) by lia.
        rewrite str_dict_get_set_eq. split; [by rewrite Hc'|by eexists].
Qed.

(** X18.  With a colour sequence that is not empty, the lookup of
    line 355 never raises: every building type of [finalDf] is a key
    of [colorMap].  The marker colours are one per row and come from
    the sequence; rows of the same type have the same colour, and
    when the sequence has no repetition and at least as many colours
    as there are types, rows of different types have different
    colours. *)
Theorem marker_colors_total (colorSequence types : list string) :
  colorSequence ≠ [] ->
  exists d colors,
    colorMap colorSequence (unique types) = Some d
    ∧ marker_colors d types = Some colors
    ∧ List.length colors = List.length types
    ∧ Forall (fun c => c ∈ colorSequence) colors
    ∧ (forall i j ti tj ci cj,
         types !! i = Some ti -> types !! j = Some tj ->
         colors !! i = Some ci -> colors !! j = Some cj ->
         (ti = tj -> ci = cj)
         ∧ (NoDup colorSequence ->
            (List.length (unique types) <= List.length colorSequence)%nat ->
            ci = cj -> ti = tj)).
Proof.
  intros Hne.
  destruct (colorMap_run colorSequence (unique types) Hne (unique_NoDup types))
    as (d & Hd & _ & Hget).
  assert (Hpos : forall t, t ∈ types ->
            exists i c, unique types !! i = Some t
                        ∧ str_dict_get d t = Some c
                        ∧ colorSequence !! (i mod List.length colorSequence)%nat = Some c).
  { intros t Ht. apply elem_of_unique, list_elem_of_lookup in Ht as [i Hi].
    destruct (Hget i t Hi) as [Heq [c Hc]]. exists i, c. split; [exact Hi|].
    split; [exact Hc|]. by rewrite <- Heq. }
  assert (Hcolors : forall l, (forall t, t ∈ l -> t ∈ types) ->
            exists colors, marker_colors d l = Some colors
              ∧ Forall2 (fun t c => str_dict_get d t = Some c) l colors).
  { induction l as [|t l IH]; intros Hl.
    - exists []. split; [reflexivity|constructor].
    - destruct (Hpos t) as (i & c & _ & Hc & _); [apply Hl; by left|].
      destruct IH as (cs & Hcs & Hall); [intros t' Ht'; apply Hl; by right|].
      exists (c :: cs). simpl. rewrite Hc, Hcs. split; [reflexivity|by constructor]. }
  destruct (Hcolors types) as (colors & Hrun & Hall); [done|].
  exists d, colors. split; [exact Hd|]. split; [exact Hrun|].
  split; [symmetry; by eapply Forall2_length|]. split.
  - apply Forall_forall. intros c Hc.
    apply list_elem_of_lookup in Hc as [i Hi].
    destruct (Forall2_lookup_r _ _ _ _ _ Hall Hi) as (t & Ht & Htc).
    destruct (Hpos t) as (k & c' & _ & Hc' & Hseq); [by eapply list_elem_of_lookup_2|].
    assert (c' = c) as -> by congruence. by eapply list_elem_of_lookup_2.
  - intros i j ti tj ci cj Hti Htj Hci Hcj.
    destruct (Forall2_lookup_l _ _ _ _ _ Hall Hti) as (ci' & Hci' & Hgi).
    destruct (Forall2_lookup_l _ _ _ _ _ Hall Htj) as (cj' & Hcj' & Hgj).
    assert (ci' = ci) as -> by congruence. assert (cj' = cj) as -> by congruence.
    split; [intros ->; congruence|].
    intros Hnd Hlen ->.
    destruct (Hpos ti) as (ki & c1 & Hki & Hc1 & Hs1); [by eapply list_elem_of_lookup_2|].
    destruct (Hpos tj) as (kj & c2 & Hkj & Hc2 & Hs2); [by eapply list_elem_of_lookup_2|].
    assert (c1 = cj) as -> by congruence. assert (c2 = cj) as -> by congruence.
    pose proof (lookup_lt_Some _ _ _ Hki) as Hlti.
    pose proof (lookup_lt_Some _ _ _ Hkj) as Hltj.
    rewrite Nat.mod_small in Hs1 by lia. rewrite Nat.mod_small in Hs2 by lia.
    pose proof (NoDup_lookup _ _ _ _ Hnd Hs1 Hs2) as ->. congruence.
Qed.

End ColorFacts.

Section DashboardExamples.
Local Existing Instance Demo.lib.

Lemma interactionsByDay_counts_witness :
  exists d1 timestamps,
    convert_frame Sample.social_journal = Ok d1
    ∧ Frame.getitem d1 "timestamp" = Some timestamps
    ∧ interactionsByDay timestamps = Some [(19052, 2); (19053, 1)]
    ∧ List.length (List.filter (fun c => negb (isna c)) timestamps) = 3%nat.
Proof.
  assert (Hconv : exists d1, convert_frame Sample.social_journal = Ok d1)
    by (eexists; vm_compute; reflexivity).
  destruct Hconv as [d1 Hconv].
  assert (Hget : exists cells, Frame.getitem d1 "timestamp" = Some cells).
  { assert (Hd1 : Ok d1 = convert_frame Sample.social_journal) by (by rewrite Hconv).
    vm_compute in Hd1. injection Hd1 as ->. eexists. vm_compute. reflexivity. }
  destruct Hget as [cells Hget].
  exists d1, cells. split; [exact Hconv|]. split; [exact Hget|].
  destruct (interactionsByDay_counts Sample.social_journal d1 cells Hconv Hget)
    as (rows & Hrows & _ & _ & Hsum).
  assert (Hd1 : Ok d1 = convert_frame Sample.social_journal) by (by rewrite Hconv).
  vm_compute in Hd1. injection Hd1 as ->.
  vm_compute in Hget. injection Hget as <-.
  split; vm_compute; reflexivity.
Defined.

Lemma marker_colors_total_witness :
  exists d colors,
    colorMap ["red"; "blue"] (unique ["pub"; "school"; "pub"]) = Some d
    ∧ marker_colors d ["pub"; "school"; "pub"] = Some colors
    ∧ List.length colors = 3%nat
    ∧ Forall (fun c => c ∈ ["red"; "blue"]) colors.
Proof.
  destruct (marker_colors_total ["red"; "blue"] ["pub"; "school"; "pub"])
    as (d & colors & Hd & Hcolors & Hlen & Hin & _); [discriminate|].
  exists d, colors. split; [exact Hd|]. split; [exact Hcolors|]. split; [exact Hlen|exact Hin].
Defined.

End DashboardExamples.

Section HouseholdKeys.
Context `{PandasLib}.
Implicit Types (w : World) (r : ref) (d : DataFrame).

(** X6.  A [Participants.csv] without the [householdSize] column, or
    with it and without [haveKids].  When the table does not have
    exactly two rows, line 55 raises [KeyError] for the first of the
    two keys that is missing; the table snapshots have been written
    by then and the household snapshot is untouched.  When it has
    exactly two rows, the list of two keys is as long as the table
    and is taken as the labels of its rows: the script runs to the
    end and the household snapshot holds the two key names, each
    with the count 1, in the columns [index] and [count]. *)
Theorem household_column_missing (ds : Datasets) (shards : list DataFrame)
        (dl d0 : DataFrame) (listing : list string) (col : string) (w : World) :
  shards_of ds shards ->
  clean_frame (Frame.concat shards) = Ok dl ->
  folder_ready ds "Datasets/Attributes" -> folder_ready ds "Datasets/Journals" ->
  directories ds !! "Datasets/Attributes" = Some listing ->
  "Participants.csv" ∈ listing ->
  csv_files ds !! path_join "Datasets/Attributes" "Participants.csv" = Some d0 ->
  (col = "householdSize" ∧ Frame.getitem d0 "householdSize" = None)
  ∨ (col = "haveKids" ∧ is_Some (Frame.getitem d0 "householdSize")
     ∧ Frame.getitem d0 "haveKids" = None) ->
  (Frame.nrows d0 ≠ 2%nat ->
   fst (dataFiles ds w) = Raise (KeyError col)
   ∧ tables_cached ds (snd (dataFiles ds w))
   ∧ pickles (snd (dataFiles ds w)) !! "processed_household_kid_counts.pkl"
     = pickles w !! "processed_household_kid_counts.pkl")
  ∧ (Frame.nrows d0 = 2%nat ->
     (exists vars, fst (dataFiles ds w) = Ok vars)
     ∧ tables_cached ds (snd (dataFiles ds w))
     ∧ pickles (snd (dataFiles ds w)) !! "processed_household_kid_counts.pkl"
       = Some (pickle_dumps [("index", [Str "haveKids"; Str "householdSize"]);
                             ("count", [Int 1; Int 1])])).
Proof.
  intros Hshards Hclean Ha Hj Hdir Hlisted Hcsv Hcol.
  assert (Hmissing : forall d1, same_rows d0 d1 ->
            ~ (is_Some (Frame.getitem d1 "householdSize")
               ∧ is_Some (Frame.getitem d1 "haveKids"))).
  { intros d1 Hsame [Hsize Hkids].
    apply (same_rows_has_column _ _ _ Hsame) in Hsize, Hkids.
    destruct Hcol as [[_ Hnone]|(_ & _ & Hnone)];
      [rewrite Hnone in Hsize; by destruct Hsize|rewrite Hnone in Hkids; by destruct Hkids]. }
  split.
  - intros Hrows.
    destruct (load_and_clean_exact ds shards w Hshards Ha Hj)
      as (logs & attrs & jrnls & w7 & Hrun & _ & _).
    rewrite Hclean in Hrun.
    destruct (tables_then_counts _ _ _ _ _ _ Hrun)
      as (w2 & Hheap & Hfiles & Hcached & Hother).
    pose proof (load_and_clean_run _ _ _ _ Hrun) as (_ & _ & Hloaded & _).
    assert (Hkey : "Participants.csv" ∈ map fst attrs).
    { apply (folder_loaded_entry _ _ _ _ listing _ Hloaded Hdir). by apply csv_name_listed. }
    apply list_elem_of_fmap in Hkey as ([name r] & Hname & Hin). simpl in Hname. subst name.
    pose proof (proj2 (dict_get_elem _ _ _ (folder_loaded_NoDup_keys _ _ _ _ Hloaded)) Hin)
      as Hget.
    destruct Hloaded as (_ & _ & Hel).
    destruct (Hel _ _ Hin) as (d0' & d1 & Hcsv' & Hconv & Hd1).
    assert (d0' = d0) as -> by congruence.
    pose proof (convert_frame_same_rows _ _ Hconv) as Hsame.
    pose proof (groupby_two_columns d1 "householdSize" "haveKids" "count") as Hgroup.
    assert (Hraise : FrameGroup.groupby_size d1 ["householdSize"; "haveKids"] "count"
                     = Raise (KeyError col)).
    { destruct (FrameGroup.groupby_size d1 _ _) as [counts|e].
      - exfalso. destruct Hgroup as [Hboth|Htwo]; [by apply (Hmissing d1)|].
        rewrite (same_rows_nrows _ _ Hsame) in Htwo. by apply Hrows.
      - destruct Hgroup as (_ & [[Hnone ->]|(Hsize & Hnone & ->)]);
          destruct Hcol as [[-> Hnone0]|(-> & Hsize0 & Hnone0)]; try reflexivity; exfalso.
        + apply (same_rows_has_column _ _ _ Hsame) in Hsize0.
          rewrite Hnone in Hsize0. by destruct Hsize0.
        + apply (same_rows_has_column _ _ _ Hsame) in Hsize.
          rewrite Hnone0 in Hsize. by destruct Hsize. }
    rewrite (counts_stage_raise _ _ _ _ _ w2 w2 (KeyError col) Hfiles).
    + split; [reflexivity|]. split; [exact Hcached|]. apply Hother, household_not_table.
    + by rewrite save_household_kid_counts_run, Hget, Hheap, Hd1, Hraise.
  - intros Hrows.
    assert (Hready : etl_ready ds).
    { split; [by exists shards, dl|]. split; [exact Ha|]. split; [exact Hj|].
      exists listing, d0. split; [exact Hdir|]. split; [exact Hlisted|].
      split; [exact Hcsv|]. by right. }
    destruct (dataFiles_ready_run ds w Hready)
      as (logs & attrs & jrnls & w1 & w2 & r & d1 & counts & _ & _ & _ & _ & _ & Hrun).
    destruct (dataFiles_cache _ _ _ _ Hrun)
      as (Hcached & (p0 & p1 & counts' & Hp0 & Hp1 & Hcounts & Hh) & _).
    rewrite Hrun. cbn [fst snd]. split; [by eexists|]. split; [exact Hcached|].
    rewrite Hh. assert (p0 = d0) as -> by congruence.
    pose proof (convert_frame_same_rows _ _ Hp1) as Hsame.
    rewrite (groupby_size_labels p1 "householdSize" "haveKids" "count") in Hcounts.
    + by injection Hcounts as <-.
    + by apply Hmissing.
    + by rewrite (same_rows_nrows _ _ Hsame).
Qed.

End HouseholdKeys.

Section HouseholdKeysExample.
Local Existing Instance Demo.lib.

Lemma shards_no_kids (participants : DataFrame) :
  shards_of (Demo.datasets Demo.log_with_gap participants Demo.social)
            (map snd (Demo.shards Demo.log_with_gap)).
Proof. unfold shards_of. by_computation. Qed.

Lemma folders_no_kids (participants : DataFrame) :
  (exists d1, convert_frame participants = Ok d1) ->
  folder_ready (Demo.datasets Demo.log_with_gap participants Demo.social) "Datasets/Attributes"
  ∧ folder_ready (Demo.datasets Demo.log_with_gap participants Demo.social) "Datasets/Journals".
Proof.
  intros [d1 Hd1]. split.
  - apply (folder_ready_intro _ _ ["Participants.csv"; "notes.txt"]); [vm_compute; reflexivity|].
    constructor; [|constructor].
    exists participants, d1. split; [vm_compute; reflexivity|exact Hd1].
  - apply (folder_ready_intro _ _ ["SocialNetwork.csv"]); [vm_compute; reflexivity|].
    constructor; [|constructor].
    exists Demo.social. eexists. split; vm_compute; reflexivity.
Qed.

Lemma household_column_missing_witness :
  (fst (dataFiles (Demo.datasets Demo.log_with_gap Sample.participants_no_kids_three Demo.social)
                  Sample.stale_world)
   = Raise (KeyError "haveKids")
   ∧ pickles (snd (dataFiles (Demo.datasets Demo.log_with_gap Sample.participants_no_kids_three
                                Demo.social) Sample.stale_world))
       !! "processed_household_kid_counts.pkl"
     = Some [("count", [Int 7])])
  ∧ ((exists vars,
        fst (dataFiles (Demo.datasets Demo.log_with_gap Sample.participants_no_kids Demo.social)
                       Sample.stale_world) = Ok vars)
     ∧ pickles (snd (dataFiles (Demo.datasets Demo.log_with_gap Sample.participants_no_kids
                                  Demo.social) Sample.stale_world))
         !! "processed_household_kid_counts.pkl"
       = Some [("index", [Str "haveKids"; Str "householdSize"]); ("count", [Int 1; Int 1])]).
Proof.
  assert (Hclean : exists dl,
            clean_frame (Frame.concat (map snd (Demo.shards Demo.log_with_gap))) = Ok dl)
    by (eexists; vm_compute; reflexivity).
  destruct Hclean as [dl Hclean].
  split.
  - destruct (folders_no_kids Sample.participants_no_kids_three) as [Ha Hj];
      [eexists; vm_compute; reflexivity|].
    destruct (household_column_missing
                (Demo.datasets Demo.log_with_gap Sample.participants_no_kids_three Demo.social)
                (map snd (Demo.shards Demo.log_with_gap)) dl Sample.participants_no_kids_three
                ["Participants.csv"; "notes.txt"] "haveKids" Sample.stale_world
                (shards_no_kids _) Hclean Ha Hj) as [Hthree _].
    + vm_compute; reflexivity.
    + left.
    + vm_compute; reflexivity.
    + right. split; [reflexivity|]. split; [vm_compute; by eexists|vm_compute; reflexivity].
    + destruct Hthree as (Hraise & _ & Hstale); [vm_compute; discriminate|].
      split; [exact Hraise|]. etrans; [exact Hstale|]. vm_compute. reflexivity.
  - destruct (folders_no_kids Sample.participants_no_kids) as [Ha Hj];
      [eexists; vm_compute; reflexivity|].
    destruct (household_column_missing
                (Demo.datasets Demo.log_with_gap Sample.participants_no_kids Demo.social)
                (map snd (Demo.shards Demo.log_with_gap)) dl Sample.participants_no_kids
                ["Participants.csv"; "notes.txt"] "haveKids" Sample.stale_world
                (shards_no_kids _) Hclean Ha Hj) as [_ Htwo].
    + vm_compute; reflexivity.
    + left.
    + vm_compute; reflexivity.
    + right. split; [reflexivity|]. split; [vm_compute; by eexists|vm_compute; reflexivity].
    + destruct Htwo as (Hok & _ & Hnew); [vm_compute; reflexivity|].
      split; [exact Hok|exact Hnew].
Defined.

End HouseholdKeysExample.

Section PivotExample.


End PivotExample.
